(** * emotion-detector: engagement scoring and temporal aggregation

    A shallow embedding of [emotion_detector/config.py],
    [emotion_detector/engagement.py] and the summary function of
    [emotion_detector/analyzer.py], with the properties of the engagement
    pipeline proved over it.

    Numbers.  Python's [float] is embedded as the exact rationals [Q]: sums,
    products and quotients are the mathematical ones, and two scores are the
    same number when they are [==] ([Qeq]).  IEEE-754 rounding, infinities
    and NaN are outside this model: a property proved over it says which
    formula the code evaluates and what holds of its exact value.  Where
    rounding decides a property, the arithmetic is embedded a second time
    on binary64 floats, in the module [Binary64], and the property is
    stated for both.

    Strings.  [str] is [string]; [str.lower] is embedded on the ASCII
    letters, every other byte is kept.

    Dictionaries.  A [dict] keeps its keys in insertion order, and the
    tracker's tie-break for the dominant emotion depends on that order, so
    the emotion mappings are association lists updated in place
    ([Dict.set]).  The weight lookup is only ever queried by key and is a
    [gmap].

    Exceptions.  Every operation that can raise in Python ([/], [mean],
    [max], subscripting) returns a [result]; that [update] never raises is
    then a theorem and not an assumption. *)

From Stdlib Require Import PrimFloat.
From Stdlib Require Import QArith Lqa Lia Ascii String.
From stdpp Require Import gmap strings list sorting.

(** ** Exceptions *)

Inductive exn : Set :=
| ZeroDivisionError
| StatisticsError
| ValueError
| KeyError.

Inductive result (A : Type) : Type :=
| Ok (a : A)
| Raise (e : exn).

Arguments Ok {A} a.
Arguments Raise {A} e.

Definition rbind {A B : Type} (m : result A) (k : A -> result B) : result B :=
  match m with
  | Ok a => k a
  | Raise e => Raise e
  end.

Notation "'do' x <- m ; k" := (rbind m (fun x => k))
  (at level 10, x name, m at level 100, k at level 200,
   format "'[v' 'do'  x  <-  m ; '/' k ']'").
Notation "'do' ' p <- m ; k" := (rbind m (fun x => let 'p := x in k))
  (at level 10, p pattern, m at level 100, k at level 200,
   format "'[v' 'do'  ' p  <-  m ; '/' k ']'").

(** ** Python built-ins used by the source *)

Module Py.

(** [str.lower] on ASCII. *)
Definition lower_ascii (c : ascii) : ascii :=
  let n := nat_of_ascii c in
  if (65 <=? n)%nat && (n <=? 90)%nat then ascii_of_nat (n + 32) else c.

Fixpoint lower (s : string) : string :=
  match s with
  | EmptyString => EmptyString
  | String c r => String (lower_ascii c) (lower r)
  end.

(** [sum(xs)]: a left fold that starts from 0.  Over [Q] the sum is exact
    and the order of the additions does not matter; what the interpreter
    computes on floats is [Binary64.sum] (CPython 3.12 and later) or
    [Binary64.sum_plain] (earlier versions), defined below. *)
Definition sum (xs : list Q) : Q := fold_left Qplus xs 0%Q.

(** [len(xs)] as a number. *)
Definition len {A : Type} (xs : list A) : Q := inject_Z (Z.of_nat (length xs)).

(** [a / b] raises on a zero divisor. *)
Definition div (a b : Q) : result Q :=
  if Qeq_bool b 0 then Raise ZeroDivisionError else Ok (a / b)%Q.

(** [a < b] on numbers. *)
Definition ltb (a b : Q) : bool := negb (Qle_bool b a).

(** [statistics.mean]: raises on no data. *)
Definition mean (xs : list Q) : result Q :=
  match xs with
  | [] => Raise StatisticsError
  | _ :: _ => Ok (sum xs / len xs)%Q
  end.

(** [max(xs, key=key)]: the first element whose key is not exceeded by a
    later one; raises on an empty iterable. *)
Fixpoint max_from {A : Type} (key : A -> Q) (best : A) (rest : list A) : A :=
  match rest with
  | [] => best
  | x :: rest' =>
      if ltb (key best) (key x) then max_from key x rest'
      else max_from key best rest'
  end.

Definition max {A : Type} (xs : list A) (key : A -> Q) : result A :=
  match xs with
  | [] => Raise ValueError
  | x :: rest => Ok (max_from key x rest)
  end.

(** [x or d] for an optional number: [None] and [0.0] are falsy. *)
Definition or_else (x : option Q) (d : Q) : Q :=
  match x with
  | None => d
  | Some v => if Qeq_bool v 0 then d else v
  end.

End Py.

(** ** Insertion-ordered dictionaries *)

Module Dict.

Definition dict (V : Type) : Type := list (string * V).

Definition keys {V} (d : dict V) : list string := map fst d.
Definition values {V} (d : dict V) : list V := map snd d.

(** [d.get(k)] *)
Fixpoint get {V} (d : dict V) (k : string) : option V :=
  match d with
  | [] => None
  | (k', v) :: d' => if String.eqb k' k then Some v else get d' k
  end.

(** [d[k] = v]: an existing key keeps its position, a new one goes last. *)
Fixpoint set {V} (d : dict V) (k : string) (v : V) : dict V :=
  match d with
  | [] => [(k, v)]
  | (k', v') :: d' =>
      if String.eqb k' k then (k', v) :: d' else (k', v') :: set d' k v
  end.

(** [d[k]] *)
Definition subscript {V} (d : dict V) (k : string) : result V :=
  match get d k with
  | Some v => Ok v
  | None => Raise KeyError
  end.

(** What a Python [dict] guarantees of its keys: no key occurs twice. *)
Definition wf {V} (d : dict V) : Prop := NoDup (keys d).

End Dict.

(** ** config.py *)

Record EmotionWeights : Type := {
  positive : list string;
  neutral : list string;
  negative : list string
}.

Definition default_EmotionWeights : EmotionWeights := {|
  positive := ["happy"; "surprise"; "excited"; "engaged"];
  neutral := ["neutral"; "calm"];
  negative := ["sad"; "angry"; "disgust"; "fear"; "bored"; "contempt"; "tired"]
|}.

(** One [for emotion in names: lookup[emotion] = w] loop. *)
Definition register (w : Q) (names : list string) (lookup : gmap string Q)
  : gmap string Q :=
  foldl (fun m emotion => <[emotion := w]> m) lookup names.

Definition as_lookup (self : EmotionWeights) : gmap string Q :=
  let lookup := ∅ in
  let lookup := register 1%Q (positive self) lookup in
  let lookup := register (1 # 2)%Q (neutral self) lookup in
  let lookup := register 0%Q (negative self) lookup in
  lookup.

Record TrackerConfig : Type := {
  smoothing_factor : Q;
  history_size : Z;
  emotion_weights : EmotionWeights
}.

Definition default_TrackerConfig : TrackerConfig := {|
  smoothing_factor := (2 # 10)%Q;
  history_size := 150;
  emotion_weights := default_EmotionWeights
|}.

Definition weight_for (self : TrackerConfig) (emotion : string) : Q :=
  let weights := as_lookup (emotion_weights self) in
  default (1 # 2)%Q (weights !! emotion).

(** [sorted(...)] on strings: Python orders [str] by code point. *)
Definition str_le (a b : string) : Prop := String.leb a b = true.

#[global] Instance str_le_dec (a b : string) : Decision (str_le a b).
Proof. unfold str_le. apply _. Defined.

Definition sorted (xs : list string) : list string := merge_sort str_le xs.

(** [tuple(sorted({v.lower() for v in values}))] *)
Definition normalise (values : list string) : list string :=
  let lowered : gset string := list_to_set (map Py.lower values) in
  sorted (elements lowered).

(** [overrides] is [None] or a mapping from category name to names. *)
Definition merge_emotion_weights
    (base : EmotionWeights) (overrides : option (gmap string (list string)))
  : EmotionWeights :=
  match overrides with
  | None => base
  | Some ov =>
      if decide (ov = ∅) then base
      else
        let positive := default (positive base) (ov !! "positive") in
        let neutral := default (neutral base) (ov !! "neutral") in
        let negative := default (negative base) (ov !! "negative") in
        {| positive := normalise positive;
           neutral := normalise neutral;
           negative := normalise negative |}
  end.

(** ** analyzer.py *)

Record EmotionDetection : Type := {
  box : Z * Z * Z * Z;
  emotions : Dict.dict Q
}.

(** The two accumulators of [format_detection_summary] after the items of
    one detection. *)
Definition tally_items (items : Dict.dict Q)
    (acc : Dict.dict Q * Dict.dict Z) : Dict.dict Q * Dict.dict Z :=
  fold_left
    (fun '(totals, counts) '(emotion, score) =>
       (Dict.set totals emotion (default 0 (Dict.get totals emotion) + score)%Q,
        Dict.set counts emotion (default 0 (Dict.get counts emotion) + 1)%Z))
    items acc.

(** [{emotion: totals[emotion] / counts[emotion] for emotion in totals}] *)
Fixpoint averages (names : list string) (totals : Dict.dict Q)
    (counts : Dict.dict Z) (out : Dict.dict Q) : result (Dict.dict Q) :=
  match names with
  | [] => Ok out
  | emotion :: names' =>
      do total <- Dict.subscript totals emotion;
      do count <- Dict.subscript counts emotion;
      do average <- Py.div total (inject_Z count);
      averages names' totals counts (Dict.set out emotion average)
  end.

Definition format_detection_summary (detections : list EmotionDetection)
  : result (Dict.dict Q) :=
  let '(totals, counts) :=
    fold_left (fun acc detection => tally_items (emotions detection) acc)
      detections ([], []) in
  match totals with
  | [] => Ok []
  | _ :: _ => averages (Dict.keys totals) totals counts []
  end.

(** ** engagement.py *)

Record FrameSummary : Type := {
  raw_score : Q;
  smoothed_score : Q;
  rolling_average : Q;
  dominant_emotion : option string;
  emotion_distribution : Dict.dict Q
}.

(** [collections.deque] with a [maxlen]. *)
Module Deque.

Record deque : Type := {
  maxlen : Z;
  items : list Q
}.

(** [deque(maxlen=n)] raises on a negative [n]. *)
Definition new (n : Z) : result deque :=
  if (n <? 0)%Z then Raise ValueError else Ok {| maxlen := n; items := [] |}.

(** [append]: the item goes to the right end, and once the length exceeds
    [maxlen] one item leaves from the left end. *)
Definition append (d : deque) (x : Q) : deque :=
  let grown := items d ++ [x] in
  {| maxlen := maxlen d;
     items := if (maxlen d <? Z.of_nat (length grown))%Z
              then tail grown else grown |}.

End Deque.

Record EngagementTracker : Type := {
  config : TrackerConfig;
  _scores : Deque.deque;
  _smoothed_score : option Q
}.

(** [EngagementTracker.__init__] *)
Definition init (config : option TrackerConfig) : result EngagementTracker :=
  let config := default default_TrackerConfig config in
  do scores <- Deque.new (history_size config);
  Ok {| config := config; _scores := scores; _smoothed_score := None |}.

(** [EngagementTracker._score_for_emotions] on exact rationals: the
    quotient is the exact one.  On floats, where [sum] and the loop round
    on their own, it is [Binary64._score_for_emotions]. *)
Definition _score_for_emotions (self : EngagementTracker)
    (emotions : Dict.dict Q) : result Q :=
  let total_intensity := Py.sum (Dict.values emotions) in
  if Qle_bool total_intensity 0 then Ok 0%Q
  else
    let weighted_total :=
      fold_left
        (fun weighted_total '(emotion, intensity) =>
           let weight := weight_for (config self) (Py.lower emotion) in
           (weighted_total + weight * intensity)%Q)
        emotions 0%Q in
    Py.div weighted_total total_intensity.

(** [counter[key] += value]: a [Counter] reads a missing key as 0. *)
Definition counter_add (counter : Dict.dict Q) (key : string) (value : Q)
  : Dict.dict Q :=
  Dict.set counter key (default 0 (Dict.get counter key) + value)%Q.

(** [emotion_totals[emotion.lower()] += value] over the items of one
    detection. *)
Definition add_totals (emotions : Dict.dict Q) (emotion_totals : Dict.dict Q)
  : Dict.dict Q :=
  fold_left
    (fun totals '(emotion, value) =>
       counter_add totals (Py.lower emotion) value)
    emotions emotion_totals.

(** The [for detection in detections] loop of [update]. *)
Fixpoint scan (self : EngagementTracker) (detections : list EmotionDetection)
    (frame_scores : list Q) (emotion_totals : Dict.dict Q)
  : result (list Q * Dict.dict Q) :=
  match detections with
  | [] => Ok (frame_scores, emotion_totals)
  | detection :: rest =>
      match emotions detection with
      | [] => scan self rest frame_scores emotion_totals
      | _ :: _ =>
          do score <- _score_for_emotions self (emotions detection);
          scan self rest (frame_scores ++ [score])
            (add_totals (emotions detection) emotion_totals)
      end
  end.

(** [{emotion: value / total for emotion, value in emotion_totals.items()}] *)
Fixpoint shares (items : Dict.dict Q) (total : Q) (out : Dict.dict Q)
  : result (Dict.dict Q) :=
  match items with
  | [] => Ok out
  | (emotion, value) :: items' =>
      do share <- Py.div value total;
      shares items' total (Dict.set out emotion share)
  end.

(** [EngagementTracker.update] on exact rationals.  The smoothing step and
    the shares of the distribution are exact here; on floats they are
    [Binary64.smoothed] and [Binary64.distribution]. *)
Definition update (self : EngagementTracker)
    (detections : list EmotionDetection)
  : result (EngagementTracker * FrameSummary) :=
  do '(frame_scores, emotion_totals) <- scan self detections [] [];
  do raw_score <-
    match frame_scores with
    | _ :: _ => Py.div (Py.sum frame_scores) (Py.len frame_scores)
    | [] => Ok 0%Q
    end;
  let scores := Deque.append (_scores self) raw_score in
  let smoothed :=
    match _smoothed_score self with
    | None => raw_score
    | Some previous =>
        let alpha := smoothing_factor (config self) in
        ((1 - alpha) * previous + alpha * raw_score)%Q
    end in
  do rolling_average <-
    match Deque.items scores with
    | _ :: _ => Py.mean (Deque.items scores)
    | [] => Ok 0%Q
    end;
  let total_emotion_intensity := Py.sum (Dict.values emotion_totals) in
  do '(distribution, dominant_emotion) <-
    (if Py.ltb 0 total_emotion_intensity then
       do distribution <- shares emotion_totals total_emotion_intensity [];
       do dominant <-
         Py.max (Dict.keys distribution)
           (fun emotion => default 0%Q (Dict.get distribution emotion));
       Ok (distribution, Some dominant)
     else Ok ([], None));
  Ok ({| config := config self;
         _scores := scores;
         _smoothed_score := Some smoothed |},
      {| raw_score := raw_score;
         smoothed_score := Py.or_else (Some smoothed) 0;
         rolling_average := rolling_average;
         dominant_emotion := dominant_emotion;
         emotion_distribution := distribution |}).

(** The frame loop: one [update] per frame, in order. *)
Fixpoint run (self : EngagementTracker) (frames : list (list EmotionDetection))
  : result (EngagementTracker * list FrameSummary) :=
  match frames with
  | [] => Ok (self, [])
  | detections :: frames' =>
      do '(self', summary) <- update self detections;
      do '(final, summaries) <- run self' frames';
      Ok (final, summary :: summaries)
  end.

(** ** Vocabulary of the properties *)

(** The weight the tracker gives an emotion name: looked up after
    case-folding, as [_score_for_emotions] does. *)
Definition weight (cfg : TrackerConfig) (emotion : string) : Q :=
  weight_for cfg (Py.lower emotion).

(** Σ weight(emotion) * score(emotion) over a mapping. *)
Definition weighted_intensity (cfg : TrackerConfig) (emotions : Dict.dict Q)
  : Q :=
  Py.sum (map (fun item => weight cfg (fst item) * snd item)%Q emotions).

(** Σ score(emotion) over a mapping. *)
Definition intensity (emotions : Dict.dict Q) : Q :=
  Py.sum (Dict.values emotions).

(** The per-face score in the words of the specification. *)
Definition face_score (cfg : TrackerConfig) (emotions : Dict.dict Q) : Q :=
  if Qle_bool (intensity emotions) 0 then 0%Q
  else (weighted_intensity cfg emotions / intensity emotions)%Q.

Definition has_emotions (d : EmotionDetection) : bool :=
  match emotions d with
  | [] => false
  | _ :: _ => true
  end.

(** The detections of a frame that are not skipped. *)
Definition scored (detections : list EmotionDetection)
  : list EmotionDetection :=
  List.filter has_emotions detections.

(** Arithmetic mean of a list of numbers. *)
Definition arithmetic_mean (xs : list Q) : Q := (Py.sum xs / Py.len xs)%Q.

(** All (name, score) items a frame reports, in order. *)
Definition frame_items (detections : list EmotionDetection) : Dict.dict Q :=
  concat (map emotions detections).

(** Intensity a frame accumulates for the case-folded name [key]. *)
Definition accumulated (key : string) (detections : list EmotionDetection)
  : Q :=
  Py.sum (map snd
            (List.filter (fun item => String.eqb (Py.lower (fst item)) key)
               (frame_items detections))).

(** Total intensity of a frame. *)
Definition frame_intensity (detections : list EmotionDetection) : Q :=
  Py.sum (map snd (frame_items detections)).

(** The scores the detections of a frame report for [emotion], one per
    detection that reports it. *)
Definition reported (emotion : string) (detections : list EmotionDetection)
  : list Q :=
  omap (fun d => Dict.get (emotions d) emotion) detections.

Definition in_unit (x : Q) : Prop := (0 <= x /\ x <= 1)%Q.

Definition nonnegative (d : EmotionDetection) : Prop :=
  Forall (fun x => 0 <= x)%Q (Dict.values (emotions d)).

(** The value [_score_for_emotions] returns, outside the [result] type. *)
Definition score_value (self : EngagementTracker) (emotions : Dict.dict Q)
  : Q :=
  let total_intensity := Py.sum (Dict.values emotions) in
  if Qle_bool total_intensity 0 then 0%Q
  else
    (fold_left
       (fun weighted_total '(emotion, intensity) =>
          (weighted_total
           + weight_for (config self) (Py.lower emotion) * intensity)%Q)
       emotions 0 / total_intensity)%Q.

(** The totals [update] holds after its loop over the detections. *)
Definition totals_of (detections : list EmotionDetection) : Dict.dict Q :=
  fold_left (fun totals d => add_totals (emotions d) totals) detections [].

(** The value of the distribution comprehension, outside [result]. *)
Definition shares_value (items : Dict.dict Q) (total : Q) (out : Dict.dict Q)
  : Dict.dict Q :=
  fold_left (fun out '(emotion, value) => Dict.set out emotion (value / total)%Q)
    items out.

(** The pieces of the summary [update] returns, outside [result]. *)
Definition frame_scores_of (self : EngagementTracker)
    (detections : list EmotionDetection) : list Q :=
  map (fun d => score_value self (emotions d)) (scored detections).

Definition raw_of (self : EngagementTracker)
    (detections : list EmotionDetection) : Q :=
  match frame_scores_of self detections with
  | [] => 0%Q
  | _ :: _ => arithmetic_mean (frame_scores_of self detections)
  end.

Definition smoothed_of (self : EngagementTracker) (raw : Q) : Q :=
  match _smoothed_score self with
  | None => raw
  | Some previous =>
      ((1 - smoothing_factor (config self)) * previous
       + smoothing_factor (config self) * raw)%Q
  end.

Definition rolling_of (scores : Deque.deque) : Q :=
  match Deque.items scores with
  | [] => 0%Q
  | _ :: _ => arithmetic_mean (Deque.items scores)
  end.

Definition distribution_of (detections : list EmotionDetection)
  : Dict.dict Q :=
  let total := Py.sum (Dict.values (totals_of detections)) in
  if Py.ltb 0 total then shares_value (totals_of detections) total [] else [].

Definition dominant_of (distribution : Dict.dict Q) : option string :=
  match Dict.keys distribution with
  | [] => None
  | k :: ks =>
      Some (Py.max_from
              (fun emotion => default 0%Q (Dict.get distribution emotion))
              k ks)
  end.

(** One entry of the distribution comprehension. *)
Definition share_of (total : Q) (item : string * Q) : string * Q :=
  (fst item, (snd item / total)%Q).

(** The scenario of the specification's worked example. *)
Definition scenario_weights : EmotionWeights :=
  {| positive := ["happy"]; neutral := ["neutral"]; negative := ["sad"] |}.

Definition scenario_config : TrackerConfig :=
  {| smoothing_factor := 0.2%Q; history_size := 3;
     emotion_weights := scenario_weights |}.

Definition scenario_tracker : EngagementTracker :=
  {| config := scenario_config;
     _scores := {| Deque.maxlen := 3; Deque.items := [] |};
     _smoothed_score := None |}.

Definition scenario_emotions : Dict.dict Q := [("happy", 0.6); ("sad", 0.4)]%Q.

Definition happy_face : EmotionDetection :=
  {| box := (0, 0, 10, 10)%Z; emotions := [("happy", 1%Q)] |}.

(** A tracker whose stored smoothed score is 0.5. *)
Definition warm_tracker : EngagementTracker :=
  {| config := scenario_config;
     _scores := {| Deque.maxlen := 3; Deque.items := [0.5%Q] |};
     _smoothed_score := Some 0.5%Q |}.

(** The last [n] entries of a list. *)
Definition last_n {A : Type} (n : nat) (xs : list A) : list A :=
  drop (length xs - n) xs.

(** Arithmetic mean, 0 on no entries. *)
Definition mean_or_zero (xs : list Q) : Q :=
  match xs with
  | [] => 0%Q
  | _ :: _ => arithmetic_mean xs
  end.

(** What [update] maintains about the stored scores. *)
Definition bounded_state (self : EngagementTracker) : Prop :=
  Forall in_unit (Deque.items (_scores self))
  /\ match _smoothed_score self with
     | None => True
     | Some previous => in_unit previous
     end.

Definition bounded_summary (s : FrameSummary) : Prop :=
  in_unit (raw_score s) /\ in_unit (rolling_average s)
  /\ in_unit (smoothed_score s).

(** A base whose negative category holds a name that is not lower-case. *)
Definition shouting_weights : EmotionWeights :=
  {| positive := ["happy"]; neutral := ["neutral"]; negative := ["Sad"] |}.

Definition joy_override : gmap string (list string) :=
  {["positive" := ["joy"]]}.

(** The items of a mapping stored under [emotion]. *)
Definition under (emotion : string) (items : Dict.dict Q) : Dict.dict Q :=
  List.filter (fun item => String.eqb (fst item) emotion) items.

(** One entry of the summary comprehension. *)
Definition average_of (totals : Dict.dict Q) (counts : Dict.dict Z)
    (emotion : string) : string * Q :=
  (emotion,
   (default 0 (Dict.get totals emotion)
    / inject_Z (default 0%Z (Dict.get counts emotion)))%Q).

(** Consecutive summaries are linked by the smoothing recurrence. *)
Fixpoint smoothing_chain (alpha previous : Q) (summaries : list FrameSummary)
  : Prop :=
  match summaries with
  | [] => True
  | s :: rest =>
      (smoothed_score s == (1 - alpha) * previous + alpha * raw_score s)%Q
      /\ smoothing_chain alpha (smoothed_score s) rest
  end.

(** ** analyzer.py: the rest of the module *)

(** The property [EmotionDetection.dominant_emotion]. *)
Definition EmotionDetection_dominant_emotion (self : EmotionDetection)
  : result (option string) :=
  match emotions self with
  | [] => Ok None
  | _ :: _ =>
      do dominant <-
        Py.max (Dict.keys (emotions self))
          (fun emotion => default 0%Q (Dict.get (emotions self) emotion));
      Ok (Some dominant)
  end.

(** One entry of the list [FER.detect_emotions] returns: a dictionary that
    may hold a box under "box" and a mapping under "emotions". *)
Record FerResult : Type := {
  fer_box : option (Z * Z * Z * Z);
  fer_emotions : option (Dict.dict Q)
}.

(** [{emotion.lower(): float(score) for emotion, score in items}]: a later
    item replaces the value of an earlier one with the same lowered name. *)
Definition lowered (items : Dict.dict Q) : Dict.dict Q :=
  fold_left
    (fun out '(emotion, score) => Dict.set out (Py.lower emotion) score)
    items [].

(** [EmotionAnalyzer.detect]; the wrapped detector is the function
    [detect_emotions]. *)
Definition EmotionAnalyzer_detect {Frame : Type}
    (detect_emotions : Frame -> list FerResult) (frame : Frame)
  : list EmotionDetection :=
  let results := detect_emotions frame in
  map
    (fun result =>
       {| box := default (0, 0, 0, 0)%Z (fer_box result);
          emotions := lowered (default [] (fer_emotions result)) |})
    results.

(** ** main.py: preparing the tracker *)

(** [str.strip], [str.split] and [str.join], on ASCII. *)
Module PyStr.

Definition is_space (c : ascii) : bool :=
  let n := nat_of_ascii c in
  ((9 <=? n)%nat && (n <=? 13)%nat)
  || ((28 <=? n)%nat && (n <=? 32)%nat).

Fixpoint lstrip (s : string) : string :=
  match s with
  | EmptyString => EmptyString
  | String c r => if is_space c then lstrip r else s
  end.

Fixpoint rstrip (s : string) : string :=
  match s with
  | EmptyString => EmptyString
  | String c r =>
      match rstrip r with
      | EmptyString => if is_space c then EmptyString else String c EmptyString
      | String c' r' => String c (String c' r')
      end
  end.

Definition strip (s : string) : string := rstrip (lstrip s).

(** [s.split(sep)] for a separator of one character. *)
Fixpoint split (sep : ascii) (s : string) : list string :=
  match s with
  | EmptyString => [EmptyString]
  | String c r =>
      if Ascii.eqb c sep then EmptyString :: split sep r
      else
        match split sep r with
        | piece :: pieces => String c piece :: pieces
        | [] => [String c EmptyString]
        end
  end.

(** [sep.join(pieces)] *)
Fixpoint join (sep : ascii) (pieces : list string) : string :=
  match pieces with
  | [] => EmptyString
  | [piece] => piece
  | piece :: rest => (piece ++ String sep (join sep rest))%string
  end.

(** A non-empty string is truthy. *)
Definition nonempty (s : string) : bool :=
  match s with
  | EmptyString => false
  | String _ _ => true
  end.

End PyStr.

Definition comma : ascii := ","%char.

Definition _comma_separated (value : option string) : option (list string) :=
  match value with
  | None => None
  | Some EmptyString => None
  | Some value =>
      Some (map (fun item => Py.lower (PyStr.strip item))
              (List.filter (fun item => PyStr.nonempty (PyStr.strip item))
                 (PyStr.split comma value)))
  end.

(** The options of the command line that [_prepare_tracker] reads. *)
Record Namespace : Type := {
  positive_emotions : option string;
  neutral_emotions : option string;
  negative_emotions : option string
}.

(** [{k: v for k, v in overrides.items() if v}]: [None] and the empty list
    are dropped. *)
Definition given (overrides : list (string * option (list string)))
  : gmap string (list string) :=
  list_to_map
    (omap
       (fun '(k, v) =>
          match v with
          | Some (x :: l) => Some (k, x :: l)
          | _ => None
          end)
       overrides).

Definition _prepare_tracker (args : Namespace) : result EngagementTracker :=
  let weights := default_EmotionWeights in
  let overrides :=
    [("positive", _comma_separated (positive_emotions args));
     ("neutral", _comma_separated (neutral_emotions args));
     ("negative", _comma_separated (negative_emotions args))] in
  let overrides := given overrides in
  let weights :=
    if decide (overrides = ∅) then weights
    else merge_emotion_weights weights (Some overrides) in
  let config :=
    {| smoothing_factor := 0.2%Q; history_size := 150;
       emotion_weights := weights |} in
  init (Some config).

(** ** Vocabulary of the further properties *)

(** [c in s] for a character. *)
Fixpoint has_char (c : ascii) (s : string) : bool :=
  match s with
  | EmptyString => false
  | String c' r => Ascii.eqb c' c || has_char c r
  end.

(** A name as [_comma_separated] returns it: not empty, without a comma,
    without white space at either end, in lower case. *)
Definition clean_name (name : string) : Prop :=
  name <> EmptyString
  /\ has_char comma name = false
  /\ PyStr.strip name = name
  /\ Py.lower name = name.

(** The first character of a string is not white space. *)
Definition no_lead (s : string) : Prop :=
  match s with
  | EmptyString => True
  | String c _ => PyStr.is_space c = false
  end.

(** The categories without the names that are not in lower case. *)
Definition lowercase_names (names : list string) : list string :=
  List.filter (fun name => String.eqb (Py.lower name) name) names.

Definition lowercase_only (w : EmotionWeights) : EmotionWeights :=
  {| positive := lowercase_names (positive w);
     neutral := lowercase_names (neutral w);
     negative := lowercase_names (negative w) |}.

Definition with_weights (self : EngagementTracker) (w : EmotionWeights)
  : EngagementTracker :=
  {| config :=
       {| smoothing_factor := smoothing_factor (config self);
          history_size := history_size (config self);
          emotion_weights := w |};
     _scores := _scores self;
     _smoothed_score := _smoothed_score self |}.

(** What an option of the command line contributes to the overrides. *)
Definition effective (value : option string) : option (list string) :=
  match _comma_separated value with
  | Some (name :: names) => Some (name :: names)
  | _ => None
  end.

(** A mapping with every score multiplied by [c]. *)
Definition scaled (c : Q) (mapping : Dict.dict Q) : Dict.dict Q :=
  map (fun item => (fst item, (c * snd item)%Q)) mapping.

Definition scaled_detection (c : Q) (d : EmotionDetection) : EmotionDetection :=
  {| box := box d; emotions := scaled c (emotions d) |}.

(** The names of a list in the order of their first occurrence. *)
Definition first_seen_from (seen names : list string) : list string :=
  fold_left
    (fun seen name => if decide (name ∈ seen) then seen else seen ++ [name])
    names seen.

Definition first_seen (names : list string) : list string :=
  first_seen_from [] names.

(** The case-folded names a frame reports, item by item. *)
Definition frame_names (detections : list EmotionDetection) : list string :=
  map (fun item => Py.lower (fst item)) (frame_items detections).

(** The value a distribution holds for a name, 0 for a missing one. *)
Definition share (distribution : Dict.dict Q) (name : string) : Q :=
  default 0%Q (Dict.get distribution name).

Definition between (lo hi x : Q) : Prop := (lo <= x /\ x <= hi)%Q.

(** The stored scores lie between [lo] and [hi]. *)
Definition state_between (lo hi : Q) (self : EngagementTracker) : Prop :=
  Forall (between lo hi) (Deque.items (_scores self))
  /\ match _smoothed_score self with
     | None => True
     | Some previous => between lo hi previous
     end.


(** The scores a raw mapping holds under names that fold to [name], in
    order. *)
Definition folded_to (name : string) (items : Dict.dict Q) : list Q :=
  map snd
    (List.filter (fun item => String.eqb (Py.lower (fst item)) name) items).

(** A detection as the analyzer produces it: names in lower case. *)
Definition lowercase_keys (d : EmotionDetection) : Prop :=
  Forall (fun k => Py.lower k = k) (Dict.keys (emotions d)).

(** ** The arithmetic as the program evaluates it, in binary64

    The definitions above compute with exact rationals.  The program
    computes with Python's [float], IEEE-754 binary64 with rounding to
    nearest.  This module embeds the arithmetic of [config.py] and
    [engagement.py] on primitive floats, so that what rounding does to a
    property can be stated and computed.  [statistics.mean], which
    [update] uses for the rolling average, is not embedded. *)

Set Warnings "-inexact-float".

Module Binary64.

(** One [for emotion in names: lookup[emotion] = w] loop. *)
Definition register (w : float) (names : list string)
    (lookup : gmap string float) : gmap string float :=
  foldl (fun m emotion => <[emotion := w]> m) lookup names.

Definition as_lookup (self : EmotionWeights) : gmap string float :=
  let lookup := ∅ in
  let lookup := register 1%float (positive self) lookup in
  let lookup := register 0.5%float (neutral self) lookup in
  let lookup := register 0%float (negative self) lookup in
  lookup.

Definition weight_for (self : TrackerConfig) (emotion : string) : float :=
  let weights := as_lookup (emotion_weights self) in
  default 0.5%float (weights !! emotion).

(** [sum(xs)] of floats as CPython computes it up to version 3.11: a left
    fold with [+] that starts from the integer 0. *)
Definition sum_plain (xs : list float) : float :=
  fold_left (fun result item => (result + item)%float) xs 0%float.

(** The loop of [sum(xs)] on floats in CPython 3.12 and later: Neumaier's
    compensated summation, with the running sum [f] and the compensation
    [c], which is added at the end when it is finite and not zero. *)
Fixpoint compensated (f c : float) (xs : list float) : float :=
  match xs with
  | [] => if negb (c =? 0)%float && is_finite c then (f + c)%float else f
  | x :: rest =>
      let t := (f + x)%float in
      let c :=
        if (abs x <=? abs f)%float then (c + ((f - t) + x))%float
        else (c + ((x - t) + f))%float in
      compensated t c rest
  end.

(** [sum(xs)] of floats as CPython 3.12 and later compute it: the first
    item is added to the integer 0, the others by [compensated]. *)
Definition sum (xs : list float) : float :=
  match xs with
  | [] => 0%float
  | x :: rest => compensated (0 + x)%float 0%float rest
  end.

(** [a / b] raises on a zero divisor. *)
Definition div (a b : float) : result float :=
  if (b =? 0)%float then Raise ZeroDivisionError else Ok (a / b)%float.

(** [_score_for_emotions], with the [sum] of the interpreter as a
    parameter. *)
Definition _score_for_emotions (sum : list float -> float)
    (config : TrackerConfig) (emotions : Dict.dict float) : result float :=
  let total_intensity := sum (Dict.values emotions) in
  if (total_intensity <=? 0)%float then Ok 0%float
  else
    let weighted_total :=
      fold_left
        (fun weighted_total '(emotion, intensity) =>
           let weight := weight_for config (Py.lower emotion) in
           (weighted_total + weight * intensity)%float)
        emotions 0%float in
    div weighted_total total_intensity.

(** The smoothing step of [update]: the value stored in
    [_smoothed_score]. *)
Definition smoothed (alpha : float) (state : option float)
    (raw_score : float) : float :=
  match state with
  | None => raw_score
  | Some previous => ((1 - alpha) * previous + alpha * raw_score)%float
  end.

(** [x or d] for an optional float: [None] and zero are falsy. *)
Definition or_else (x : option float) (d : float) : float :=
  match x with
  | None => d
  | Some v => if (v =? 0)%float then d else v
  end.

(** [max(xs, key=key)] *)
Fixpoint max_from {A : Type} (key : A -> float) (best : A) (rest : list A)
  : A :=
  match rest with
  | [] => best
  | x :: rest' =>
      if (key best <? key x)%float then max_from key x rest'
      else max_from key best rest'
  end.

(** [max(d, key=d.get)] for a mapping that is not empty, [None] for an
    empty one: the property [dominant_emotion] of a detection. *)
Definition dominant (d : Dict.dict float) : option string :=
  match Dict.keys d with
  | [] => None
  | k :: ks =>
      Some (max_from (fun emotion => default 0%float (Dict.get d emotion))
              k ks)
  end.

(** [counter[key] += value] *)
Definition counter_add (counter : Dict.dict float) (key : string)
    (value : float) : Dict.dict float :=
  Dict.set counter key
    (default 0%float (Dict.get counter key) + value)%float.

Definition add_totals (emotions : Dict.dict float)
    (emotion_totals : Dict.dict float) : Dict.dict float :=
  fold_left
    (fun totals '(emotion, value) =>
       counter_add totals (Py.lower emotion) value)
    emotions emotion_totals.

(** [{emotion: value / total for emotion, value in emotion_totals.items()}] *)
Fixpoint shares (items : Dict.dict float) (total : float)
    (out : Dict.dict float) : result (Dict.dict float) :=
  match items with
  | [] => Ok out
  | (emotion, value) :: items' =>
      do share <- div value total;
      shares items' total (Dict.set out emotion share)
  end.

(** The distribution and the dominant emotion [update] returns for the
    non-empty mappings of a frame, with the [sum] of the interpreter as a
    parameter. *)
Definition distribution (sum : list float -> float)
    (detections : list (Dict.dict float))
  : result (Dict.dict float * option string) :=
  let emotion_totals :=
    fold_left (fun totals emotions => add_totals emotions totals)
      detections [] in
  let total_emotion_intensity := sum (Dict.values emotion_totals) in
  if (0 <? total_emotion_intensity)%float then
    do distribution <- shares emotion_totals total_emotion_intensity [];
    Ok (distribution, dominant distribution)
  else Ok ([], None).

End Binary64.

(** The frames of the examples in binary64. *)
Definition three_positive : Dict.dict float :=
  [("happy", 0.77); ("surprise", 0.37); ("excited", 0.47)]%float.

Definition three_tenths : Dict.dict float :=
  [("happy", 0.1); ("surprise", 0.2); ("excited", 0.3)]%float.

Definition near_tie : Dict.dict float :=
  [("happy", 0.41190276129954295); ("sad", 0.411902761299543);
   ("neutral", 0.2829801102040451)]%float.

(** * Properties *)

(** ** Sums of rationals *)

Section Sums.

Local Open Scope Q_scope.

Lemma fold_plus_acc (xs : list Q) (a : Q) :
  fold_left Qplus xs a == a + fold_left Qplus xs 0.
Proof.
  revert a. induction xs as [|x xs IH]; intros a; simpl.
  - ring.
  - rewrite (IH (a + x)), (IH (0 + x)). ring.
Qed.

Lemma sum_nil : Py.sum [] = 0.
Proof. reflexivity. Qed.

Lemma sum_cons (x : Q) (xs : list Q) : Py.sum (x :: xs) == x + Py.sum xs.
Proof. unfold Py.sum. simpl. rewrite fold_plus_acc. ring. Qed.

Lemma sum_bounds (lo hi : Q) (xs : list Q) :
  Forall (fun x => lo <= x /\ x <= hi) xs ->
  lo * Py.len xs <= Py.sum xs /\ Py.sum xs <= hi * Py.len xs.
Proof.
  unfold Py.len.
  induction 1 as [|x xs [Hl Hh] _ IH].
  - rewrite sum_nil.
    change (inject_Z (Z.of_nat (length (@nil Q)))) with 0. lra.
  - rewrite sum_cons. cbn [length].
    rewrite Nat2Z.inj_succ, <- Z.add_1_r, inject_Z_plus.
    change (inject_Z 1) with 1. lra.
Qed.

Lemma len_pos {A} (x : A) (xs : list A) : 0 < Py.len (x :: xs).
Proof.
  unfold Py.len. cbn [length]. rewrite Nat2Z.inj_succ, <- Z.add_1_r.
  rewrite inject_Z_plus. change (inject_Z 1) with 1.
  assert (0 <= inject_Z (Z.of_nat (length xs))).
  { change 0 with (inject_Z 0). rewrite <- Zle_Qle. lia. }
  lra.
Qed.

Lemma Qle_bool_false (x y : Q) : Qle_bool x y = false <-> y < x.
Proof.
  split; intros H.
  - apply Qnot_le_lt. intros Hle. apply Qle_bool_iff in Hle. congruence.
  - destruct (Qle_bool x y) eqn:E; [|reflexivity].
    apply Qle_bool_iff in E. lra.
Qed.

Lemma div_ok (a b : Q) : ~ b == 0 -> Py.div a b = Ok (a / b).
Proof.
  intros Hb. unfold Py.div. destruct (Qeq_bool b 0) eqn:E; [|reflexivity].
  apply Qeq_bool_iff in E. contradiction.
Qed.

Lemma ltb_true (a b : Q) : Py.ltb a b = true <-> a < b.
Proof.
  unfold Py.ltb. rewrite negb_true_iff. apply Qle_bool_false.
Qed.

Lemma ltb_false (a b : Q) : Py.ltb a b = false <-> b <= a.
Proof.
  unfold Py.ltb. rewrite negb_false_iff. apply Qle_bool_iff.
Qed.

End Sums.

(** ** The weight lookup *)

Lemma register_lookup (w : Q) (names : list string) (m : gmap string Q)
    (e : string) :
  register w names m !! e = if decide (e ∈ names) then Some w else m !! e.
Proof.
  unfold register. revert m.
  induction names as [|x names IH]; intros m; cbn [foldl].
  - destruct (decide (e ∈ [])) as [H|_]; [inversion H | reflexivity].
  - rewrite IH. destruct (decide (e ∈ names)) as [Hin|Hout].
    + rewrite decide_True by (rewrite elem_of_cons; tauto). reflexivity.
    + destruct (decide (e = x)) as [->|Hne].
      * rewrite lookup_insert_eq.
        rewrite decide_True by (rewrite elem_of_cons; tauto). reflexivity.
      * rewrite lookup_insert_ne by congruence.
        rewrite decide_False by (rewrite elem_of_cons; tauto). reflexivity.
Qed.

Lemma as_lookup_spec (w : EmotionWeights) (e : string) :
  as_lookup w !! e =
    if decide (e ∈ negative w) then Some 0%Q
    else if decide (e ∈ neutral w) then Some (1 # 2)%Q
    else if decide (e ∈ positive w) then Some 1%Q
    else None.
Proof.
  unfold as_lookup. rewrite !register_lookup, lookup_empty. reflexivity.
Qed.

Lemma weight_for_spec (cfg : TrackerConfig) (e : string) :
  weight_for cfg e =
    if decide (e ∈ negative (emotion_weights cfg)) then 0%Q
    else if decide (e ∈ neutral (emotion_weights cfg)) then (1 # 2)%Q
    else if decide (e ∈ positive (emotion_weights cfg)) then 1%Q
    else (1 # 2)%Q.
Proof.
  unfold weight_for. rewrite as_lookup_spec. repeat case_decide; reflexivity.
Qed.

Lemma weight_for_values (cfg : TrackerConfig) (e : string) :
  weight_for cfg e = 0%Q \/ weight_for cfg e = (1 # 2)%Q \/ weight_for cfg e = 1%Q.
Proof. rewrite weight_for_spec. repeat case_decide; auto. Qed.

Lemma weight_for_unit (cfg : TrackerConfig) (e : string) :
  in_unit (weight_for cfg e).
Proof.
  unfold in_unit.
  destruct (weight_for_values cfg e) as [-> | [-> | ->]]; lra.
Qed.

(** C6.  The lookup built from the three categories gives 1 to a positive
    name, 1/2 to a neutral one and 0 to a negative one; the categories are
    registered in the order positive, neutral, negative, so that a name in
    several of them has the weight of the last one (negative over neutral
    over positive); a name in none of them has no entry, and [weight_for]
    answers 1/2 for it. *)
Theorem weight_lookup_by_category (cfg : TrackerConfig) (e : string) :
  let w := emotion_weights cfg in
  as_lookup w =
    register 0%Q (negative w)
      (register (1 # 2)%Q (neutral w) (register 1%Q (positive w) ∅))
  /\ as_lookup w !! e =
       (if decide (e ∈ negative w) then Some 0%Q
        else if decide (e ∈ neutral w) then Some (1 # 2)%Q
        else if decide (e ∈ positive w) then Some 1%Q
        else None)
  /\ weight_for cfg e =
       (if decide (e ∈ negative w) then 0%Q
        else if decide (e ∈ neutral w) then (1 # 2)%Q
        else if decide (e ∈ positive w) then 1%Q
        else (1 # 2)%Q)
  /\ (e ∉ positive w -> e ∉ neutral w -> e ∉ negative w ->
      as_lookup w !! e = None /\ weight_for cfg e = (1 # 2)%Q).
Proof.
  intros w. split; [reflexivity|]. split; [apply as_lookup_spec|].
  split; [apply weight_for_spec|].
  intros Hp Hn Hg. unfold w in *.
  rewrite weight_for_spec, as_lookup_spec.
  repeat case_decide; try contradiction. split; reflexivity.
Qed.

Lemma weight_lookup_by_category_witness :
  as_lookup default_EmotionWeights !! "confused" = None
  /\ weight_for default_TrackerConfig "confused" = (1 # 2)%Q.
Proof.
  apply (weight_lookup_by_category default_TrackerConfig "confused");
    vm_compute; intros H; repeat (apply elem_of_cons in H as [H|H]; [discriminate H|]);
    inversion H.
Defined.

(** ** The weight lookup in binary64 *)

Lemma binary64_register_lookup (w : float) (names : list string)
    (m : gmap string float) (e : string) :
  Binary64.register w names m !! e
  = if decide (e ∈ names) then Some w else m !! e.
Proof.
  unfold Binary64.register. revert m.
  induction names as [|x names IH]; intros m; cbn [foldl].
  - destruct (decide (e ∈ [])) as [H|_]; [inversion H | reflexivity].
  - rewrite IH. destruct (decide (e ∈ names)) as [Hin|Hout].
    + rewrite decide_True by (rewrite elem_of_cons; tauto). reflexivity.
    + destruct (decide (e = x)) as [->|Hne].
      * rewrite lookup_insert_eq.
        rewrite decide_True by (rewrite elem_of_cons; tauto). reflexivity.
      * rewrite lookup_insert_ne by congruence.
        rewrite decide_False by (rewrite elem_of_cons; tauto). reflexivity.
Qed.

Lemma binary64_weight_for_spec (cfg : TrackerConfig) (e : string) :
  Binary64.weight_for cfg e
  = if decide (e ∈ negative (emotion_weights cfg)) then 0%float
    else if decide (e ∈ neutral (emotion_weights cfg)) then 0.5%float
    else if decide (e ∈ positive (emotion_weights cfg)) then 1%float
    else 0.5%float.
Proof.
  unfold Binary64.weight_for, Binary64.as_lookup.
  rewrite !binary64_register_lookup, lookup_empty.
  repeat case_decide; reflexivity.
Qed.

Lemma binary64_weight_for_values (cfg : TrackerConfig) (e : string) :
  Binary64.weight_for cfg e = 0%float
  \/ Binary64.weight_for cfg e = 0.5%float
  \/ Binary64.weight_for cfg e = 1%float.
Proof. rewrite binary64_weight_for_spec. repeat case_decide; auto. Qed.

(** ** The per-face score *)

Section FaceScore.

Local Open Scope Q_scope.

Lemma weighted_fold (cfg : TrackerConfig) (items : Dict.dict Q) (a : Q) :
  fold_left
    (fun acc '(e, x) => acc + weight_for cfg (Py.lower e) * x) items a
  == a + weighted_intensity cfg items.
Proof.
  unfold weighted_intensity.
  revert a. induction items as [|[e x] items IH]; intros a; simpl.
  - rewrite sum_nil. ring.
  - rewrite IH, sum_cons. unfold weight. simpl. ring.
Qed.

Lemma score_ok (self : EngagementTracker) (emotions : Dict.dict Q) :
  _score_for_emotions self emotions = Ok (score_value self emotions).
Proof.
  unfold _score_for_emotions, score_value.
  destruct (Qle_bool (Py.sum (Dict.values emotions)) 0) eqn:E;
    [reflexivity|].
  apply div_ok. apply Qle_bool_false in E. lra.
Qed.

Lemma score_value_spec (self : EngagementTracker) (emotions : Dict.dict Q) :
  score_value self emotions == face_score (config self) emotions.
Proof.
  unfold score_value, face_score, intensity.
  destruct (Qle_bool (Py.sum (Dict.values emotions)) 0); [reflexivity|].
  rewrite weighted_fold. apply Qdiv_comp; [ring | reflexivity].
Qed.

Lemma face_score_zero (cfg : TrackerConfig) (emotions : Dict.dict Q) :
  intensity emotions <= 0 -> face_score cfg emotions = 0.
Proof.
  intros H. unfold face_score.
  apply Qle_bool_iff in H. rewrite H. reflexivity.
Qed.

Lemma face_score_pos (cfg : TrackerConfig) (emotions : Dict.dict Q) :
  0 < intensity emotions ->
  face_score cfg emotions
  = weighted_intensity cfg emotions / intensity emotions.
Proof.
  intros H. unfold face_score.
  apply Qle_bool_false in H. rewrite H. reflexivity.
Qed.

End FaceScore.

(** ** Dictionaries *)

Section DictFacts.
Context {V : Type}.
Implicit Types (d : Dict.dict V) (k : string) (v : V).

Lemma get_set d k v k' :
  Dict.get (Dict.set d k v) k' = if String.eqb k k' then Some v else Dict.get d k'.
Proof.
  induction d as [|[k0 v0] d IH]; simpl.
  - destruct (String.eqb_spec k k'); reflexivity.
  - destruct (String.eqb_spec k0 k) as [->|Hne]; simpl.
    + destruct (String.eqb_spec k k'); reflexivity.
    + rewrite IH. destruct (String.eqb_spec k0 k') as [->|Hne'].
      * destruct (String.eqb_spec k k'); [congruence | reflexivity].
      * reflexivity.
Qed.

Lemma get_None d k : Dict.get d k = None <-> k ∉ Dict.keys d.
Proof.
  induction d as [|[k0 v0] d IH]; simpl.
  - split; [intros _ H; inversion H | reflexivity].
  - rewrite not_elem_of_cons. destruct (String.eqb_spec k0 k) as [->|Hne].
    + split; [discriminate | intros [H _]; congruence].
    + rewrite IH. split; [intros H; split; [congruence | exact H] | tauto].
Qed.

Lemma set_fresh d k v : k ∉ Dict.keys d -> Dict.set d k v = d ++ [(k, v)].
Proof.
  induction d as [|[k0 v0] d IH]; simpl; [reflexivity|].
  rewrite not_elem_of_cons. intros [Hne Hk].
  destruct (String.eqb_spec k0 k); [congruence|]. rewrite IH by exact Hk. reflexivity.
Qed.

Lemma set_keys_present d k v : k ∈ Dict.keys d -> Dict.keys (Dict.set d k v) = Dict.keys d.
Proof.
  induction d as [|[k0 v0] d IH]; simpl; intros Hin.
  - inversion Hin.
  - destruct (String.eqb_spec k0 k) as [->|Hne]; [reflexivity|].
    simpl. f_equal. apply IH. apply elem_of_cons in Hin as [?|?]; [congruence | assumption].
Qed.

Lemma set_keys d k v :
  Dict.keys (Dict.set d k v) = if decide (k ∈ Dict.keys d) then Dict.keys d else Dict.keys d ++ [k].
Proof.
  destruct (decide (k ∈ Dict.keys d)) as [Hin|Hout].
  - apply set_keys_present, Hin.
  - rewrite set_fresh by exact Hout. unfold Dict.keys. rewrite map_app. reflexivity.
Qed.

Lemma set_wf d k v : Dict.wf d -> Dict.wf (Dict.set d k v).
Proof.
  unfold Dict.wf. intros Hnd. rewrite set_keys. case_decide; [exact Hnd|].
  apply NoDup_app. split; [exact Hnd|]. split.
  - intros x Hx Hx'. apply list_elem_of_singleton in Hx'. congruence.
  - apply NoDup_singleton.
Qed.

Lemma elem_keys_set d k v k' :
  k' ∈ Dict.keys (Dict.set d k v) <-> k' = k \/ k' ∈ Dict.keys d.
Proof.
  rewrite set_keys. case_decide.
  - split; [tauto | intros [->|?]; assumption].
  - rewrite elem_of_app, list_elem_of_singleton. tauto.
Qed.
End DictFacts.

(** ** Emotion totals *)

Section Totals.

Local Open Scope Q_scope.

Lemma counter_add_sum (totals : Dict.dict Q) (key : string) (value : Q) :
  Py.sum (Dict.values (counter_add totals key value))
  == Py.sum (Dict.values totals) + value.
Proof.
  unfold counter_add.
  induction totals as [|[k0 v0] totals IH]; simpl.
  - rewrite sum_cons, sum_nil. lra.
  - destruct (String.eqb_spec k0 key) as [->|Hne]; simpl.
    + rewrite !sum_cons. ring.
    + rewrite !sum_cons. fold (Dict.values totals).
      fold (Dict.values (Dict.set totals key (default 0 (Dict.get totals key) + value))).
      rewrite IH. ring.
Qed.

Lemma counter_add_get (totals : Dict.dict Q) (key : string) (value : Q) (k : string) :
  default 0 (Dict.get (counter_add totals key value) k)
  == default 0 (Dict.get totals k) + (if String.eqb key k then value else 0).
Proof.
  unfold counter_add. rewrite get_set.
  destruct (String.eqb_spec key k) as [->|Hne]; simpl; ring.
Qed.

Lemma add_totals_cons (e : string) (x : Q) (items totals : Dict.dict Q) :
  add_totals ((e, x) :: items) totals
  = add_totals items (counter_add totals (Py.lower e) x).
Proof. reflexivity. Qed.

Lemma add_totals_app (xs ys totals : Dict.dict Q) :
  add_totals (xs ++ ys) totals = add_totals ys (add_totals xs totals).
Proof. unfold add_totals. apply fold_left_app. Qed.

Lemma add_totals_sum (items totals : Dict.dict Q) :
  Py.sum (Dict.values (add_totals items totals))
  == Py.sum (Dict.values totals) + Py.sum (map snd items).
Proof.
  revert totals. induction items as [|[e x] items IH]; intros totals.
  - simpl. rewrite sum_nil. ring.
  - rewrite add_totals_cons, IH, counter_add_sum. simpl. rewrite sum_cons. ring.
Qed.

Lemma add_totals_get (items totals : Dict.dict Q) (k : string) :
  default 0 (Dict.get (add_totals items totals) k)
  == default 0 (Dict.get totals k)
     + Py.sum (map snd
                 (List.filter
                    (fun item => String.eqb (Py.lower (fst item)) k) items)).
Proof.
  revert totals. induction items as [|[e x] items IH]; intros totals.
  - simpl. rewrite sum_nil. ring.
  - rewrite add_totals_cons, IH, counter_add_get. simpl.
    destruct (String.eqb (Py.lower e) k); simpl.
    + rewrite sum_cons. ring.
    + ring.
Qed.

Lemma add_totals_keys (items totals : Dict.dict Q) (k : string) :
  k ∈ Dict.keys (add_totals items totals)
  <-> k ∈ Dict.keys totals \/ k ∈ map (fun item => Py.lower (fst item)) items.
Proof.
  revert totals. induction items as [|[e x] items IH]; intros totals.
  - simpl. split; [tauto | intros [H|H]; [exact H | inversion H]].
  - rewrite add_totals_cons, IH. unfold counter_add. rewrite elem_keys_set.
    simpl. rewrite elem_of_cons. tauto.
Qed.

Lemma add_totals_wf (items totals : Dict.dict Q) :
  Dict.wf totals -> Dict.wf (add_totals items totals).
Proof.
  revert totals. induction items as [|[e x] items IH]; intros totals Hwf.
  - exact Hwf.
  - rewrite add_totals_cons. apply IH. unfold counter_add. apply set_wf, Hwf.
Qed.

Lemma totals_fold (detections : list EmotionDetection) (totals : Dict.dict Q) :
  fold_left (fun totals d => add_totals (emotions d) totals) detections totals
  = add_totals (frame_items detections) totals.
Proof.
  revert totals. unfold frame_items.
  induction detections as [|d ds IH]; intros totals; simpl.
  - reflexivity.
  - rewrite IH, add_totals_app. reflexivity.
Qed.

Lemma totals_of_items (detections : list EmotionDetection) :
  totals_of detections = add_totals (frame_items detections) [].
Proof. apply totals_fold. Qed.

Lemma totals_of_wf (detections : list EmotionDetection) :
  Dict.wf (totals_of detections).
Proof. rewrite totals_of_items. apply add_totals_wf. constructor. Qed.

Lemma totals_of_sum (detections : list EmotionDetection) :
  Py.sum (Dict.values (totals_of detections)) == frame_intensity detections.
Proof.
  rewrite totals_of_items, add_totals_sum. unfold frame_intensity.
  simpl. rewrite sum_nil. ring.
Qed.

Lemma totals_of_get (detections : list EmotionDetection) (k : string) :
  default 0 (Dict.get (totals_of detections) k) == accumulated k detections.
Proof.
  rewrite totals_of_items, add_totals_get. unfold accumulated. simpl. ring.
Qed.

Lemma totals_of_keys (detections : list EmotionDetection) (k : string) :
  k ∈ Dict.keys (totals_of detections)
  <-> k ∈ map (fun item => Py.lower (fst item)) (frame_items detections).
Proof.
  rewrite totals_of_items, add_totals_keys. simpl.
  split; [intros [H|H]; [inversion H | exact H] | tauto].
Qed.

End Totals.

(** ** The distribution and the dominant emotion *)

Section Distribution.

Local Open Scope Q_scope.

Lemma shares_ok (items : Dict.dict Q) (total : Q) (out : Dict.dict Q) :
  ~ total == 0 -> shares items total out = Ok (shares_value items total out).
Proof.
  intros Ht. revert out.
  induction items as [|[e v] items IH]; intros out; simpl.
  - reflexivity.
  - rewrite div_ok by exact Ht. simpl. apply IH.
Qed.

Lemma shares_value_fresh (items : Dict.dict Q) (total : Q) (out : Dict.dict Q) :
  NoDup (Dict.keys out ++ Dict.keys items) ->
  shares_value items total out = out ++ map (share_of total) items.
Proof.
  revert out. induction items as [|[e v] items IH]; intros out Hnd; simpl.
  - rewrite app_nil_r. reflexivity.
  - assert (He : e ∉ Dict.keys out).
    { apply NoDup_app in Hnd as (_ & Hdis & _). intros Hin.
      apply (Hdis e Hin). simpl. left. }
    unfold shares_value in *. simpl. rewrite set_fresh by exact He.
    rewrite IH.
    + rewrite <- app_assoc. reflexivity.
    + unfold Dict.keys in *. rewrite map_app, <- app_assoc. exact Hnd.
Qed.

Lemma shares_value_wf (items : Dict.dict Q) (total : Q) :
  Dict.wf items -> shares_value items total [] = map (share_of total) items.
Proof. intros Hwf. apply (shares_value_fresh items total []), Hwf. Qed.

Lemma shares_keys (items : Dict.dict Q) (total : Q) :
  Dict.keys (map (share_of total) items) = Dict.keys items.
Proof. unfold Dict.keys. rewrite map_map. reflexivity. Qed.

Lemma shares_get (items : Dict.dict Q) (total : Q) (k : string) :
  Dict.get (map (share_of total) items) k
  = (fun v => v / total) <$> Dict.get items k.
Proof.
  induction items as [|[e v] items IH]; simpl; [reflexivity|].
  destruct (String.eqb e k); [reflexivity | exact IH].
Qed.

Lemma shares_sum (items : Dict.dict Q) (total : Q) :
  Py.sum (Dict.values (map (share_of total) items))
  == Py.sum (Dict.values items) / total.
Proof.
  unfold Dict.values.
  induction items as [|[e v] items IH]; simpl.
  - rewrite sum_nil. unfold Qdiv. ring.
  - rewrite !sum_cons, IH. unfold Qdiv. ring.
Qed.

Lemma max_from_spec {A : Type} (key : A -> Q) (best : A) (rest : list A) :
  let m := Py.max_from key best rest in
  (m = best \/ m ∈ rest)
  /\ key best <= key m
  /\ Forall (fun x => key x <= key m) rest.
Proof.
  revert best. induction rest as [|x rest IH]; intros best; simpl.
  - repeat split; [left; reflexivity | lra | constructor].
  - destruct (Py.ltb (key best) (key x)) eqn:E.
    + apply ltb_true in E.
      destruct (IH x) as (Hm & Hx & Hrest).
      split; [right; destruct Hm as [->|Hm]; [left | right; exact Hm]|].
      split; [lra|]. constructor; assumption.
    + apply ltb_false in E.
      destruct (IH best) as (Hm & Hb & Hrest).
      split; [destruct Hm as [->|Hm]; [left; reflexivity | right; right; exact Hm]|].
      split; [exact Hb|]. constructor; [lra | exact Hrest].
Qed.

End Distribution.

(** ** The loop of [update] and its result *)

Section Update.

Local Open Scope Q_scope.

Lemma scan_ok (self : EngagementTracker) (detections : list EmotionDetection)
    (frame_scores : list Q) (emotion_totals : Dict.dict Q) :
  scan self detections frame_scores emotion_totals
  = Ok (frame_scores ++ frame_scores_of self detections,
        fold_left (fun totals d => add_totals (emotions d) totals)
          detections emotion_totals).
Proof.
  unfold frame_scores_of, scored.
  revert frame_scores emotion_totals.
  induction detections as [|d ds IH]; intros fs tot.
  - simpl. rewrite app_nil_r. reflexivity.
  - cbn [scan List.filter fold_left].
    destruct (emotions d) as [|item items] eqn:E.
    + assert (H : has_emotions d = false)
        by (unfold has_emotions; rewrite E; reflexivity).
      rewrite H. apply IH.
    + assert (H : has_emotions d = true)
        by (unfold has_emotions; rewrite E; reflexivity).
      rewrite H, score_ok. cbn [rbind map].
      rewrite IH, E, <- app_assoc. reflexivity.
Qed.

Lemma raw_ok (scores : list Q) :
  match scores with
  | _ :: _ => Py.div (Py.sum scores) (Py.len scores)
  | [] => Ok 0
  end
  = Ok match scores with
       | [] => 0
       | _ :: _ => arithmetic_mean scores
       end.
Proof.
  destruct scores as [|x xs]; [reflexivity|].
  apply div_ok. pose proof (len_pos x xs). lra.
Qed.

Lemma distribution_keys (detections : list EmotionDetection) :
  Py.ltb 0 (Py.sum (Dict.values (totals_of detections))) = true ->
  distribution_of detections
  = map (share_of (Py.sum (Dict.values (totals_of detections))))
      (totals_of detections)
  /\ Dict.keys (distribution_of detections) <> [].
Proof.
  intros Hpos. unfold distribution_of. rewrite Hpos.
  rewrite shares_value_wf by apply totals_of_wf.
  split; [reflexivity|].
  rewrite shares_keys. destruct (totals_of detections); [|discriminate].
  apply ltb_true in Hpos. simpl in Hpos. rewrite sum_nil in Hpos. lra.
Qed.

Lemma update_ok (self : EngagementTracker)
    (detections : list EmotionDetection) :
  let raw := raw_of self detections in
  let scores := Deque.append (_scores self) raw in
  let smoothed := smoothed_of self raw in
  update self detections
  = Ok ({| config := config self;
           _scores := scores;
           _smoothed_score := Some smoothed |},
        {| raw_score := raw;
           smoothed_score := Py.or_else (Some smoothed) 0;
           rolling_average := rolling_of scores;
           dominant_emotion := dominant_of (distribution_of detections);
           emotion_distribution := distribution_of detections |}).
Proof.
  intros raw scores smoothed. unfold update.
  rewrite scan_ok. cbn [rbind app].
  rewrite raw_ok. cbn [rbind]. fold (raw_of self detections). fold raw.
  fold scores. fold (totals_of detections).
  assert (Hroll :
    match Deque.items scores with
    | _ :: _ => Py.mean (Deque.items scores)
    | [] => Ok 0
    end = Ok (rolling_of scores)).
  { unfold rolling_of. destruct (Deque.items scores); reflexivity. }
  rewrite Hroll. cbn [rbind].
  destruct (Py.ltb 0 (Py.sum (Dict.values (totals_of detections)))) eqn:E.
  - destruct (distribution_keys detections E) as [Hd Hk].
    rewrite shares_ok by (apply ltb_true in E; lra).
    cbn [rbind].
    assert (Hdist : shares_value (totals_of detections)
                      (Py.sum (Dict.values (totals_of detections))) []
                    = distribution_of detections).
    { unfold distribution_of. rewrite E. reflexivity. }
    rewrite Hdist. unfold dominant_of.
    destruct (Dict.keys (distribution_of detections)) as [|k ks];
      [contradiction|].
    reflexivity.
  - cbn [rbind]. unfold distribution_of, dominant_of. rewrite E. reflexivity.
Qed.

End Update.

(** ** The per-face score of a frame *)

Section PerFace.

Local Open Scope Q_scope.

Lemma mean_singleton (x : Q) : arithmetic_mean [x] == x.
Proof.
  unfold arithmetic_mean. rewrite sum_cons, sum_nil.
  change (Py.len [x]) with 1. field.
Qed.

(** C1.  [_score_for_emotions] returns 0 when the scores of the mapping
    sum to at most 0, and otherwise the sum of weight times score divided
    by the sum of the scores.  With positive = {happy} and negative = {sad}
    (and happy not listed as neutral), the frame whose only detection
    reports happy 0.6 and sad 0.4 has raw score 0.6. *)
Theorem per_face_score (self : EngagementTracker) (mapping : Dict.dict Q) :
  (exists score,
      _score_for_emotions self mapping = Ok score
      /\ (intensity mapping <= 0 -> score == 0)
      /\ (0 < intensity mapping ->
          score
          == weighted_intensity (config self) mapping / intensity mapping))
  /\ (forall (others : list string) (box : Z * Z * Z * Z),
        emotion_weights (config self)
        = {| positive := ["happy"]; neutral := others; negative := ["sad"] |} ->
        "happy" ∉ others ->
        exists self' summary,
          update self
            [{| box := box; emotions := [("happy", 0.6); ("sad", 0.4)] |}]
          = Ok (self', summary)
          /\ raw_score summary == 0.6).
Proof.
  split.
  - exists (score_value self mapping). split; [apply score_ok|].
    rewrite score_value_spec. split; intros H.
    + rewrite face_score_zero by exact H. reflexivity.
    + rewrite face_score_pos by exact H. reflexivity.
  - intros others bx Hw Hothers.
    eexists _, _. split; [apply update_ok|]. cbn [raw_score].
    unfold raw_of, frame_scores_of, scored. cbn [List.filter has_emotions emotions map].
    rewrite mean_singleton, score_value_spec.
    assert (Hh : weight (config self) "happy" = 1).
    { unfold weight. rewrite weight_for_spec, Hw. cbn [negative neutral positive].
      rewrite decide_False by (intros H; apply list_elem_of_singleton in H; discriminate H).
      rewrite decide_False by exact Hothers.
      rewrite decide_True by (apply list_elem_of_singleton; reflexivity).
      reflexivity. }
    assert (Hs : weight (config self) "sad" = 0).
    { unfold weight. rewrite weight_for_spec, Hw. cbn [negative].
      rewrite decide_True by (apply list_elem_of_singleton; reflexivity).
      reflexivity. }
    unfold face_score, weighted_intensity, intensity.
    cbn [Dict.values map fst snd]. rewrite Hh, Hs. reflexivity.
Qed.

Lemma per_face_score_witness :
  (exists score,
      _score_for_emotions scenario_tracker scenario_emotions = Ok score
      /\ score
         == weighted_intensity scenario_config scenario_emotions
            / intensity scenario_emotions)
  /\ exists self' summary,
      update scenario_tracker
        [{| box := (0, 0, 10, 10)%Z; emotions := scenario_emotions |}]
      = Ok (self', summary)
      /\ raw_score summary == 0.6.
Proof.
  destruct (per_face_score scenario_tracker scenario_emotions)
    as [(score & Hscore & _ & Hpos) Hframe].
  split.
  - exists score. split; [exact Hscore|]. apply Hpos. vm_compute. reflexivity.
  - apply (Hframe ["neutral"] (0, 0, 10, 10)%Z eq_refl).
    intros H. apply list_elem_of_singleton in H. discriminate H.
Defined.

End PerFace.

(** ** Exponential smoothing *)

Section Smoothing.

Local Open Scope Q_scope.

Lemma or_else_some (x d : Q) : d == 0 -> Py.or_else (Some x) d == x.
Proof.
  intros Hd. unfold Py.or_else. destruct (Qeq_bool x 0) eqn:E.
  - apply Qeq_bool_iff in E. rewrite E, Hd. reflexivity.
  - reflexivity.
Qed.

Lemma init_state (cfg : option TrackerConfig) (self : EngagementTracker) :
  init cfg = Ok self ->
  config self = default default_TrackerConfig cfg
  /\ _smoothed_score self = None
  /\ Deque.items (_scores self) = []
  /\ Deque.maxlen (_scores self) = history_size (config self)
  /\ (0 <= history_size (config self))%Z.
Proof.
  unfold init, Deque.new.
  destruct (history_size (default default_TrackerConfig cfg) <? 0)%Z eqn:E;
    simpl; [discriminate|].
  intros [= <-]. simpl. repeat split; try reflexivity.
  apply Z.ltb_ge in E. exact E.
Qed.

Lemma run_cons (self : EngagementTracker) (detections : list EmotionDetection)
    (frames : list (list EmotionDetection))
    (self' final : EngagementTracker) (summary : FrameSummary)
    (summaries : list FrameSummary) :
  update self detections = Ok (self', summary) ->
  run self' frames = Ok (final, summaries) ->
  run self (detections :: frames) = Ok (final, summary :: summaries).
Proof. intros H1 H2. simpl. rewrite H1. simpl. rewrite H2. reflexivity. Qed.

Lemma run_total (self : EngagementTracker)
    (frames : list (list EmotionDetection)) :
  exists final summaries, run self frames = Ok (final, summaries).
Proof.
  revert self. induction frames as [|ds frames IH]; intros self.
  - eexists _, _. reflexivity.
  - pose proof (update_ok self ds) as Hu. cbv zeta in Hu.
    match type of Hu with
    | _ = Ok (?next, _) => destruct (IH next) as (final & summaries & Hrun)
    end.
    eexists _, _. eapply run_cons; eassumption.
Qed.

Lemma smoothing_chain_proper (alpha p p' : Q) (summaries : list FrameSummary) :
  p == p' ->
  smoothing_chain alpha p summaries -> smoothing_chain alpha p' summaries.
Proof.
  destruct summaries as [|s rest]; [trivial|].
  intros Hp [Hs Hrest]. split; [|exact Hrest]. rewrite Hs, Hp. reflexivity.
Qed.

Lemma smoothing_run (self : EngagementTracker) (previous : Q)
    (frames : list (list EmotionDetection))
    (final : EngagementTracker) (summaries : list FrameSummary) :
  _smoothed_score self = Some previous ->
  run self frames = Ok (final, summaries) ->
  smoothing_chain (smoothing_factor (config self)) previous summaries.
Proof.
  revert self previous final summaries.
  induction frames as [|ds frames IH]; intros self previous final summaries Hs.
  - intros [= <- <-]. exact I.
  - simpl. rewrite update_ok. cbn [rbind].
    destruct (run _ frames) as [[final' rest]|] eqn:Hrun; [|discriminate].
    cbn [rbind]. intros [= <- <-].
    assert (Hret : Py.or_else (Some (smoothed_of self (raw_of self ds))) 0
                   == smoothed_of self (raw_of self ds))
      by (apply or_else_some; reflexivity).
    split.
    + cbn [smoothed_score raw_score]. rewrite Hret.
      unfold smoothed_of. rewrite Hs. reflexivity.
    + cbn [smoothed_score].
      apply smoothing_chain_proper
        with (p := smoothed_of self (raw_of self ds));
        [symmetry; exact Hret|].
      apply (fun H => IH _ _ _ _ H Hrun). reflexivity.
Qed.

(** C2, as the code has it.  On a tracker that has not been updated yet,
    [update] stores and returns the raw score of the call as the smoothed
    score; on a tracker whose stored smoothed score is [previous], it
    stores and returns (1 - alpha) * previous + alpha * raw with alpha the
    configured smoothing factor.  The stored value is the one the next call
    reads: along any run from a fresh tracker each returned smoothed score
    is obtained from the one returned before it.  With alpha = 0.2,
    previous = 0.5 and raw = 1 the exact value of the new smoothed score is
    0.6; evaluated in binary64, as the program evaluates it, the expression
    gives 0.6000000000000001, the float that follows 0.6. *)
Theorem exponential_smoothing (self : EngagementTracker)
    (detections : list EmotionDetection) :
  let alpha := smoothing_factor (config self) in
  (exists self' summary,
      update self detections = Ok (self', summary)
      /\ config self' = config self
      /\ (_smoothed_score self = None ->
          _smoothed_score self' = Some (raw_score summary)
          /\ smoothed_score summary == raw_score summary)
      /\ (forall previous : Q,
            _smoothed_score self = Some previous ->
            _smoothed_score self'
            = Some ((1 - alpha) * previous + alpha * raw_score summary)
            /\ smoothed_score summary
               == (1 - alpha) * previous + alpha * raw_score summary)
      /\ (forall previous : Q,
            _smoothed_score self = Some previous ->
            alpha == 0.2 -> previous == 0.5 -> raw_score summary == 1 ->
            smoothed_score summary == 0.6))
  /\ (forall (cfg : option TrackerConfig) (frames : list (list EmotionDetection)),
        init cfg = Ok self ->
        _smoothed_score self = None
        /\ exists final summaries,
            run self (detections :: frames) = Ok (final, summaries)
            /\ match summaries with
               | [] => False
               | first :: rest =>
                   smoothed_score first == raw_score first
                   /\ smoothing_chain alpha (smoothed_score first) rest
               end)
  /\ (forall a raw : float, Binary64.smoothed a None raw = raw)
  /\ (forall a previous raw : float,
        Binary64.smoothed a (Some previous) raw
        = ((1 - a) * previous + a * raw)%float)
  /\ Binary64.smoothed 0.2 (Some 0.5%float) 1 = 0.6000000000000001%float
  /\ 0.6000000000000001%float = PrimFloat.next_up 0.6.
Proof.
  intros alpha.
  pose proof (update_ok self detections) as Hu. cbv zeta in Hu.
  assert (Hret : Py.or_else
                   (Some (smoothed_of self (raw_of self detections))) 0
                 == smoothed_of self (raw_of self detections))
    by (apply or_else_some; reflexivity).
  split.
  - eexists _, _. split; [exact Hu|]. cbn [config _smoothed_score raw_score smoothed_score].
    split; [reflexivity|]. split; [|split].
    + intros Hnone. rewrite Hret. unfold smoothed_of. rewrite Hnone.
      split; reflexivity.
    + intros previous Hsome. rewrite Hret. unfold smoothed_of.
      rewrite Hsome. split; reflexivity.
    + intros previous Hsome Ha Hp Hr. rewrite Hret. unfold smoothed_of.
      rewrite Hsome. fold alpha. rewrite Ha, Hp, Hr. reflexivity.
  - split; [|repeat split; reflexivity].
    intros cfg frames Hinit.
    destruct (init_state cfg self Hinit) as (_ & Hnone & _).
    split; [exact Hnone|].
    match type of Hu with
    | _ = Ok (?next, _) =>
        destruct (run_total next frames) as (final & rest & Hrun)
    end.
    eexists _, _. split; [eapply run_cons; eassumption|].
    cbn [smoothed_score raw_score]. split.
    + rewrite Hret. unfold smoothed_of. rewrite Hnone. reflexivity.
    + apply smoothing_chain_proper
        with (p := smoothed_of self (raw_of self detections));
        [symmetry; exact Hret|].
      apply (fun H => smoothing_run _ _ _ _ _ H Hrun). reflexivity.
Qed.

Lemma exponential_smoothing_witness :
  (exists self' summary,
      update warm_tracker [happy_face] = Ok (self', summary)
      /\ smoothed_score summary == 0.6)
  /\ (exists final summaries,
        run scenario_tracker [[happy_face]; []] = Ok (final, summaries)
        /\ match summaries with
           | [] => False
           | first :: rest =>
               smoothed_score first == raw_score first
               /\ smoothing_chain 0.2 (smoothed_score first) rest
           end).
Proof.
  split.
  - destruct (exponential_smoothing warm_tracker [happy_face])
      as [(self' & summary & Hupd & _ & _ & _ & Hex) _].
    exists self', summary. split; [exact Hupd|].
    apply (Hex 0.5 eq_refl); try reflexivity.
    rewrite update_ok in Hupd. injection Hupd as _ <-.
    vm_compute. reflexivity.
  - destruct (exponential_smoothing scenario_tracker [happy_face])
      as [_ [Hrun _]].
    exact (proj2 (Hrun (Some scenario_config) [[]] eq_refl)).
Defined.

(** C2 as the specification words it does not hold of the program: with
    alpha = 0.2, previous smoothed score 0.5 and raw score 1.0 the smoothed
    score the program stores and returns is 0.6000000000000001 and not
    0.6. *)
Lemma smoothing_example_rounds_up :
  Binary64.or_else (Some (Binary64.smoothed 0.2 (Some 0.5%float) 1)) 0
  = 0.6000000000000001%float
  /\ (Binary64.or_else (Some (Binary64.smoothed 0.2 (Some 0.5%float) 1)) 0
      =? 0.6)%float = false
  /\ Binary64.or_else (Some (Binary64.smoothed 0.2 (Some 0.5%float) 1)) 0
     <> 0.6%float.
Proof.
  split; [reflexivity|]. split; [reflexivity|].
  intros H. apply (f_equal (fun x => (x =? 0.6)%float)) in H.
  vm_compute in H. discriminate H.
Qed.

(** C10.  After [update] the stored smoothed score is set, and the
    smoothed score of the returned summary is that stored number: the
    [or 0.0] of the return statement replaces only a stored 0 by 0. *)
Theorem smoothed_state_returned (self : EngagementTracker)
    (detections : list EmotionDetection) :
  exists self' summary state,
    update self detections = Ok (self', summary)
    /\ _smoothed_score self' = Some state
    /\ smoothed_score summary = Py.or_else (_smoothed_score self') 0
    /\ smoothed_score summary == state
    /\ (smoothed_score summary = state
        \/ (state == 0 /\ smoothed_score summary = 0)).
Proof.
  eexists _, _, _. split; [apply update_ok|].
  cbn [_smoothed_score smoothed_score].
  split; [reflexivity|]. split; [reflexivity|].
  split; [apply or_else_some; reflexivity|].
  unfold Py.or_else.
  destruct (Qeq_bool (smoothed_of self (raw_of self detections)) 0) eqn:E.
  - right. split; [apply Qeq_bool_iff, E | reflexivity].
  - left. reflexivity.
Qed.

End Smoothing.


(** ** [update] never raises *)

Section Raw.

Local Open Scope Q_scope.

Lemma sum_map_ext {A : Type} (f g : A -> Q) (xs : list A) :
  (forall x, f x == g x) -> Py.sum (map f xs) == Py.sum (map g xs).
Proof.
  intros Hfg. induction xs as [|x xs IH]; simpl; [reflexivity|].
  rewrite !sum_cons, IH, Hfg. reflexivity.
Qed.

Lemma len_map {A B : Type} (f : A -> B) (xs : list A) :
  Py.len (map f xs) = Py.len xs.
Proof. unfold Py.len. rewrite length_map. reflexivity. Qed.

Lemma mean_map_ext {A : Type} (f g : A -> Q) (xs : list A) :
  (forall x, f x == g x) ->
  arithmetic_mean (map f xs) == arithmetic_mean (map g xs).
Proof.
  intros Hfg. unfold arithmetic_mean.
  rewrite !len_map, (sum_map_ext f g xs Hfg). reflexivity.
Qed.

Lemma all_empty_scored (detections : list EmotionDetection) :
  Forall (fun d => emotions d = []) detections ->
  scored detections = [] /\ frame_items detections = [].
Proof.
  unfold scored, frame_items.
  induction 1 as [|d ds Hd _ [IH1 IH2]]; [split; reflexivity|].
  cbn [List.filter map concat].
  assert (H : has_emotions d = false)
    by (unfold has_emotions; rewrite Hd; reflexivity).
  rewrite H, Hd, IH1, IH2. split; reflexivity.
Qed.

Lemma some_scored (detections : list EmotionDetection) :
  Exists (fun d => emotions d <> []) detections -> scored detections <> [].
Proof.
  unfold scored.
  induction 1 as [d ds Hd | d ds _ IH]; cbn [List.filter];
    destruct (has_emotions d) eqn:E; try discriminate.
  - unfold has_emotions in E. destruct (emotions d); [contradiction | discriminate].
  - exact IH.
Qed.

Lemma raw_of_scored (self : EngagementTracker)
    (detections : list EmotionDetection) :
  scored detections <> [] ->
  raw_of self detections
  == arithmetic_mean
       (map (fun d => face_score (config self) (emotions d))
          (scored detections)).
Proof.
  intros Hne. unfold raw_of, frame_scores_of.
  destruct (scored detections) as [|d ds] eqn:E; [contradiction|].
  cbn [map]. rewrite <- !(map_cons (fun d => _ (emotions d))).
  apply mean_map_ext. intros x. apply score_value_spec.
Qed.

(** C5.  [update] returns a summary for every tracker state and every list
    of detections.  When the list is empty, or every detection has an
    empty mapping, the raw score is 0, there is no dominant emotion and
    the distribution is empty; when some detection has a non-empty
    mapping, the raw score is the arithmetic mean of the per-face scores
    of the detections with non-empty mappings. *)
Theorem update_never_raises (self : EngagementTracker)
    (detections : list EmotionDetection) :
  exists self' summary,
    update self detections = Ok (self', summary)
    /\ (Forall (fun d => emotions d = []) detections ->
        raw_score summary = 0
        /\ dominant_emotion summary = None
        /\ emotion_distribution summary = [])
    /\ (Exists (fun d => emotions d <> []) detections ->
        raw_score summary
        == arithmetic_mean
             (map (fun d => face_score (config self) (emotions d))
                (scored detections))).
Proof.
  eexists _, _. split; [apply update_ok|].
  cbn [raw_score dominant_emotion emotion_distribution]. split.
  - intros Hall. destruct (all_empty_scored detections Hall) as [Hs Hi].
    unfold raw_of, frame_scores_of, distribution_of.
    rewrite Hs, totals_of_items, Hi. repeat split; reflexivity.
  - intros Hsome. apply raw_of_scored, some_scored, Hsome.
Qed.

Lemma update_never_raises_witness :
  (exists self' summary,
      update warm_tracker [] = Ok (self', summary)
      /\ raw_score summary = 0
      /\ dominant_emotion summary = None
      /\ emotion_distribution summary = [])
  /\ (exists self' summary,
        update warm_tracker [happy_face] = Ok (self', summary)
        /\ raw_score summary
           == arithmetic_mean
                (map (fun d => face_score scenario_config (emotions d))
                   [happy_face])).
Proof.
  split.
  - destruct (update_never_raises warm_tracker [])
      as (self' & summary & Hupd & Hempty & _).
    exists self', summary. split; [exact Hupd|]. apply Hempty. constructor.
  - destruct (update_never_raises warm_tracker [happy_face])
      as (self' & summary & Hupd & _ & Hsome).
    exists self', summary. split; [exact Hupd|]. apply Hsome.
    constructor. discriminate.
Defined.

End Raw.

(** ** The rolling history *)

Section Rolling.

Lemma last_n_length {A : Type} (n : nat) (xs : list A) :
  length (last_n n xs) = Nat.min n (length xs).
Proof. unfold last_n. rewrite length_drop. lia. Qed.

Lemma tail_drop_snoc {A : Type} (k : nat) (xs : list A) (x : A) :
  (k <= length xs)%nat ->
  tail (drop k xs ++ [x]) = drop (S k) (xs ++ [x]).
Proof.
  revert k. induction xs as [|y ys IH]; intros k Hk; simpl in Hk.
  - replace k with 0%nat by lia. reflexivity.
  - destruct k as [|k]; [reflexivity|]. simpl. apply IH. lia.
Qed.

(** Appending to a deque that holds the last [maxlen] entries of a
    history gives the last [maxlen] entries of the longer history. *)
Lemma append_window (d : Deque.deque) (history : list Q) (x : Q) :
  (0 <= Deque.maxlen d)%Z ->
  Deque.items d = last_n (Z.to_nat (Deque.maxlen d)) history ->
  Deque.items (Deque.append d x)
  = last_n (Z.to_nat (Deque.maxlen d)) (history ++ [x]).
Proof.
  intros Hmax Hitems. unfold Deque.append. cbn [Deque.items Deque.maxlen].
  rewrite Hitems, length_app, last_n_length. cbn [length].
  set (n := Z.to_nat (Deque.maxlen d)).
  assert (Hn : Deque.maxlen d = Z.of_nat n) by (unfold n; lia).
  rewrite Hn. unfold last_n. rewrite length_app. cbn [length].
  destruct (Z.ltb_spec (Z.of_nat n) (Z.of_nat (Nat.min n (length history) + 1)))
    as [Hlt|Hge].
  - assert (n <= length history)%nat by lia.
    rewrite tail_drop_snoc by lia. f_equal. lia.
  - assert (length history < n)%nat by lia.
    replace (length history - n)%nat with 0%nat by lia.
    replace (length history + 1 - n)%nat with 0%nat by lia.
    reflexivity.
Qed.

Lemma append_maxlen (d : Deque.deque) (x : Q) :
  Deque.maxlen (Deque.append d x) = Deque.maxlen d.
Proof. reflexivity. Qed.

(** The two cases of [append] in the words of the specification. *)
Lemma append_cases (d : Deque.deque) (x : Q) :
  (0 < Deque.maxlen d)%Z ->
  (Z.of_nat (length (Deque.items d)) <= Deque.maxlen d)%Z ->
  (Z.of_nat (length (Deque.items d)) = Deque.maxlen d ->
   Deque.items (Deque.append d x) = tail (Deque.items d) ++ [x])
  /\ ((Z.of_nat (length (Deque.items d)) < Deque.maxlen d)%Z ->
      Deque.items (Deque.append d x) = Deque.items d ++ [x]).
Proof.
  intros Hpos Hle. unfold Deque.append. cbn [Deque.items Deque.maxlen].
  rewrite length_app. cbn [length]. split; intros H.
  - destruct (Z.ltb_spec (Deque.maxlen d)
                (Z.of_nat (length (Deque.items d) + 1))); [|lia].
    destruct (Deque.items d); [simpl in H; lia | reflexivity].
  - destruct (Z.ltb_spec (Deque.maxlen d)
                (Z.of_nat (length (Deque.items d) + 1))); [lia|].
    reflexivity.
Qed.

(** What a run leaves in the deque and returns as rolling averages, for
    a deque that holds the last [maxlen] entries of [history]. *)
Lemma run_window (self : EngagementTracker) (history : list Q)
    (frames : list (list EmotionDetection))
    (final : EngagementTracker) (summaries : list FrameSummary) :
  let n := Z.to_nat (Deque.maxlen (_scores self)) in
  (0 <= Deque.maxlen (_scores self))%Z ->
  Deque.items (_scores self) = last_n n history ->
  run self frames = Ok (final, summaries) ->
  Deque.items (_scores final) = last_n n (history ++ map raw_score summaries)
  /\ Deque.maxlen (_scores final) = Deque.maxlen (_scores self)
  /\ forall (i : nat) (s : FrameSummary),
      summaries !! i = Some s ->
      rolling_average s
      = mean_or_zero
          (last_n n (history ++ map raw_score (take (S i) summaries))).
Proof.
  intros n. unfold n. clear n.
  revert self history final summaries.
  induction frames as [|ds frames IH];
    intros self history final summaries Hmax Hitems.
  - intros [= <- <-]. simpl. rewrite app_nil_r.
    split; [exact Hitems|]. split; [reflexivity|]. intros i s Hi. inversion Hi.
  - simpl. rewrite update_ok. cbn [rbind].
    destruct (run _ frames) as [[final' rest]|] eqn:Hrun; [|discriminate].
    cbn [rbind]. intros [= <- <-].
    pose proof (append_window (_scores self) history (raw_of self ds)
                  Hmax Hitems) as Hwin.
    match type of Hrun with
    | run ?next _ = _ =>
        destruct (IH next (history ++ [raw_of self ds]) _ _ Hmax Hwin Hrun)
          as (Hfinal & Hlen & Hroll)
    end.
    cbn [_scores Deque.append Deque.maxlen] in Hfinal, Hlen, Hroll.
    cbn [map raw_score].
    split; [rewrite Hfinal, <- app_assoc; reflexivity|].
    split; [exact Hlen|].
    intros [|i] s Hi.
    + injection Hi as <-. cbn [rolling_average take map raw_score].
      unfold rolling_of. rewrite Hwin. reflexivity.
    + cbn [take map raw_score]. rewrite (Hroll i s Hi), <- app_assoc.
      reflexivity.
Qed.

Lemma run_length (self : EngagementTracker)
    (frames : list (list EmotionDetection))
    (final : EngagementTracker) (summaries : list FrameSummary) :
  run self frames = Ok (final, summaries) ->
  length summaries = length frames.
Proof.
  revert self final summaries.
  induction frames as [|ds frames IH]; intros self final summaries.
  - intros [= <- <-]. reflexivity.
  - simpl. rewrite update_ok. cbn [rbind].
    destruct (run _ frames) as [[final' rest]|] eqn:Hrun; [|discriminate].
    cbn [rbind]. intros [= <- <-]. simpl. f_equal. eapply IH, Hrun.
Qed.

(** C3.  Along every run from a fresh tracker the deque never holds more
    than [history_size] raw scores: it holds the last [history_size] raw
    scores returned so far, and each returned rolling average is the
    arithmetic mean of the deque as it is after that call (0 when
    [history_size] is 0 and the deque stays empty).  A call on a full
    deque drops the oldest entry and keeps the new raw score.  After
    [history_size + 1] updates the deque is the list of raw scores without
    the first one. *)
Theorem rolling_history_window (cfg : option TrackerConfig)
    (self : EngagementTracker) (frames : list (list EmotionDetection)) :
  init cfg = Ok self ->
  let n := Z.to_nat (history_size (config self)) in
  (exists final summaries,
      run self frames = Ok (final, summaries)
      /\ length summaries = length frames
      /\ (length (Deque.items (_scores final)) <= n)%nat
      /\ Deque.items (_scores final) = last_n n (map raw_score summaries)
      /\ (forall (i : nat) (s : FrameSummary),
            summaries !! i = Some s ->
            rolling_average s
            = mean_or_zero
                (last_n n (map raw_score (take (S i) summaries))))
      /\ (length frames = S n ->
          Deque.items (_scores final) = tail (map raw_score summaries)
          /\ forall s : FrameSummary,
              summaries !! n = Some s ->
              rolling_average s
              = mean_or_zero (tail (map raw_score summaries))))
  /\ (forall (t : EngagementTracker) (detections : list EmotionDetection),
        (0 < Deque.maxlen (_scores t))%Z ->
        (Z.of_nat (length (Deque.items (_scores t)))
         <= Deque.maxlen (_scores t))%Z ->
        exists t' summary,
          update t detections = Ok (t', summary)
          /\ (Z.of_nat (length (Deque.items (_scores t)))
              = Deque.maxlen (_scores t) ->
              Deque.items (_scores t')
              = tail (Deque.items (_scores t)) ++ [raw_score summary])
          /\ ((Z.of_nat (length (Deque.items (_scores t)))
               < Deque.maxlen (_scores t))%Z ->
              Deque.items (_scores t')
              = Deque.items (_scores t) ++ [raw_score summary])
          /\ (Z.of_nat (length (Deque.items (_scores t')))
              <= Deque.maxlen (_scores t'))%Z
          /\ rolling_average summary
             = arithmetic_mean (Deque.items (_scores t'))).
Proof.
  intros Hinit n.
  destruct (init_state cfg self Hinit) as (_ & _ & Hitems & Hmaxlen & Hsize).
  split.
  - destruct (run_total self frames) as (final & summaries & Hrun).
    exists final, summaries. split; [exact Hrun|].
    pose proof (run_length _ _ _ _ Hrun) as Hlen.
    split; [exact Hlen|].
    destruct (run_window self [] frames final summaries) as (Hw & _ & Hroll).
    { rewrite Hmaxlen. exact Hsize. }
    { rewrite Hitems. reflexivity. }
    { exact Hrun. }
    rewrite Hmaxlen in Hw, Hroll. fold n in Hw, Hroll. cbn [app] in Hw, Hroll.
    split; [rewrite Hw, last_n_length; lia|].
    split; [exact Hw|]. split; [exact Hroll|].
    intros Hframes.
    assert (Htail : last_n n (map raw_score summaries)
                    = tail (map raw_score summaries)).
    { unfold last_n. rewrite length_map, Hlen, Hframes.
      replace (S n - n)%nat with 1%nat by lia.
      destruct (map raw_score summaries); reflexivity. }
    split; [rewrite Hw; exact Htail|].
    intros s Hs. rewrite (Hroll n s Hs), firstn_all2 by lia.
    rewrite Htail. reflexivity.
  - intros t ds Hpos Hle.
    eexists _, _. split; [apply update_ok|].
    cbn [_scores raw_score rolling_average].
    destruct (append_cases (_scores t) (raw_of t ds) Hpos Hle)
      as [Hfull Hroom].
    split; [exact Hfull|]. split; [exact Hroom|].
    destruct (Z.eq_dec (Z.of_nat (length (Deque.items (_scores t))))
                (Deque.maxlen (_scores t))) as [Heq|Hne].
    + rewrite append_maxlen. unfold rolling_of. rewrite (Hfull Heq).
      rewrite length_app. cbn [length].
      split.
      * destruct (Deque.items (_scores t)); simpl in *; lia.
      * destruct (tail (Deque.items (_scores t)) ++ [raw_of t ds]) eqn:E;
          [|reflexivity].
        apply (f_equal length) in E. rewrite length_app in E. simpl in E. lia.
    + rewrite append_maxlen. unfold rolling_of.
      rewrite (Hroom ltac:(lia)), length_app. cbn [length].
      split; [lia|].
      destruct (Deque.items (_scores t) ++ [raw_of t ds]) eqn:E;
        [|reflexivity].
      apply (f_equal length) in E. rewrite length_app in E. simpl in E. lia.
Qed.

Lemma rolling_history_window_witness :
  (exists final summaries,
      run scenario_tracker [[happy_face]; []; []; []] = Ok (final, summaries)
      /\ Deque.items (_scores final) = tail (map raw_score summaries)
      /\ forall s : FrameSummary,
          summaries !! 3%nat = Some s ->
          rolling_average s = mean_or_zero (tail (map raw_score summaries)))
  /\ (exists t' summary,
        update warm_tracker [happy_face] = Ok (t', summary)
        /\ Deque.items (_scores t')
           = Deque.items (_scores warm_tracker) ++ [raw_score summary]
        /\ rolling_average summary
           = arithmetic_mean (Deque.items (_scores t'))).
Proof.
  destruct (rolling_history_window (Some scenario_config) scenario_tracker
              [[happy_face]; []; []; []] eq_refl)
    as [(final & summaries & Hrun & _ & _ & _ & _ & Hafter) Hstep].
  split.
  - exists final, summaries. split; [exact Hrun|]. apply Hafter. reflexivity.
  - destruct (Hstep warm_tracker [happy_face]) as
      (t' & summary & Hupd & _ & Hroom & _ & Hmean);
      [simpl; lia | simpl; lia |].
    exists t', summary. split; [exact Hupd|].
    split; [apply Hroom; simpl; lia | exact Hmean].
Defined.

End Rolling.

(** ** Scores stay in the unit interval *)

Section Bounds.

Local Open Scope Q_scope.

Lemma in_unit_eq (x y : Q) : x == y -> in_unit x -> in_unit y.
Proof. unfold in_unit. intros H [? ?]. rewrite <- H. split; assumption. Qed.

Lemma quotient_in_unit (a b : Q) : 0 <= a -> a <= b -> 0 < b -> in_unit (a / b).
Proof.
  intros Ha Hab Hb. split.
  - apply Qle_shift_div_l; [exact Hb | lra].
  - apply Qle_shift_div_r; [exact Hb | lra].
Qed.

Lemma weighted_bounds (cfg : TrackerConfig) (emotions : Dict.dict Q) :
  Forall (fun x => 0 <= x) (Dict.values emotions) ->
  0 <= weighted_intensity cfg emotions
  /\ weighted_intensity cfg emotions <= intensity emotions.
Proof.
  unfold weighted_intensity, intensity, Dict.values.
  induction emotions as [|[e x] emotions IH]; intros Hall.
  - simpl. rewrite sum_nil. lra.
  - apply Forall_cons in Hall as [Hx Hall]. specialize (IH Hall).
    cbn [map fst snd] in *. rewrite !sum_cons.
    destruct (weight_for_unit cfg (Py.lower e)) as [Hw0 Hw1].
    fold (weight cfg e) in Hw0, Hw1.
    assert (0 <= weight cfg e * x) by (apply Qmult_le_0_compat; assumption).
    assert (weight cfg e * x <= x) by nra.
    lra.
Qed.

Lemma face_score_in_unit (cfg : TrackerConfig) (emotions : Dict.dict Q) :
  Forall (fun x => 0 <= x) (Dict.values emotions) ->
  in_unit (face_score cfg emotions).
Proof.
  intros Hall. unfold face_score.
  destruct (Qle_bool (intensity emotions) 0) eqn:E.
  - unfold in_unit. lra.
  - apply Qle_bool_false in E.
    destruct (weighted_bounds cfg emotions Hall).
    apply quotient_in_unit; assumption.
Qed.

Lemma mean_in_unit (x : Q) (xs : list Q) :
  Forall in_unit (x :: xs) -> in_unit (arithmetic_mean (x :: xs)).
Proof.
  intros Hall. unfold arithmetic_mean.
  destruct (sum_bounds 0 1 (x :: xs) Hall) as [Hlo Hhi].
  apply quotient_in_unit; [lra | lra | apply len_pos].
Qed.

Lemma mean_or_zero_in_unit (xs : list Q) :
  Forall in_unit xs -> in_unit (mean_or_zero xs).
Proof.
  destruct xs as [|x xs]; intros Hall.
  - unfold in_unit. simpl. lra.
  - apply mean_in_unit, Hall.
Qed.

Lemma raw_of_in_unit (self : EngagementTracker)
    (detections : list EmotionDetection) :
  Forall nonnegative detections -> in_unit (raw_of self detections).
Proof.
  intros Hall. unfold raw_of.
  assert (Hscores : Forall in_unit (frame_scores_of self detections)).
  { unfold frame_scores_of, scored. apply Forall_forall. intros y Hy.
    apply list_elem_of_In, in_map_iff in Hy as (d & <- & Hd).
    apply filter_In in Hd as [Hd _].
    apply in_unit_eq with (x := face_score (config self) (emotions d));
      [symmetry; apply score_value_spec|].
    apply face_score_in_unit.
    apply (proj1 (Forall_forall _ _) Hall d), list_elem_of_In, Hd. }
  destruct (frame_scores_of self detections) as [|x xs].
  - unfold in_unit. lra.
  - apply mean_in_unit, Hscores.
Qed.

Lemma append_in_unit (d : Deque.deque) (x : Q) :
  Forall in_unit (Deque.items d) -> in_unit x ->
  Forall in_unit (Deque.items (Deque.append d x)).
Proof.
  intros Hd Hx. unfold Deque.append. cbn [Deque.items].
  assert (H : Forall in_unit (Deque.items d ++ [x])).
  { apply Forall_app. split; [exact Hd | constructor; [exact Hx | constructor]]. }
  destruct (_ <? _)%Z; [|exact H].
  destruct (Deque.items d ++ [x]); [constructor|].
  apply Forall_cons in H as [_ H]. exact H.
Qed.

Lemma smoothed_in_unit (self : EngagementTracker) (raw : Q) :
  in_unit (smoothing_factor (config self)) ->
  bounded_state self -> in_unit raw -> in_unit (smoothed_of self raw).
Proof.
  intros [Ha0 Ha1] [_ Hprev] [Hr0 Hr1]. unfold smoothed_of.
  destruct (_smoothed_score self) as [previous|]; [|split; assumption].
  destruct Hprev as [Hp0 Hp1]. split; nra.
Qed.

Lemma update_bounded (self : EngagementTracker)
    (detections : list EmotionDetection) :
  in_unit (smoothing_factor (config self)) ->
  bounded_state self ->
  Forall nonnegative detections ->
  exists self' summary,
    update self detections = Ok (self', summary)
    /\ config self' = config self
    /\ bounded_state self'
    /\ bounded_summary summary.
Proof.
  intros Ha Hinv Hall.
  pose proof (raw_of_in_unit self detections Hall) as Hraw.
  pose proof (smoothed_in_unit self _ Ha Hinv Hraw) as Hsm.
  pose proof (append_in_unit (_scores self) _ (proj1 Hinv) Hraw) as Hsc.
  eexists _, _. split; [apply update_ok|]. split; [reflexivity|].
  split; [split; [exact Hsc | exact Hsm]|].
  unfold bounded_summary.
  cbn [raw_score rolling_average smoothed_score].
  split; [exact Hraw|]. split.
  - apply mean_or_zero_in_unit, Hsc.
  - apply in_unit_eq with (x := smoothed_of self (raw_of self detections));
      [symmetry; apply or_else_some; reflexivity | exact Hsm].
Qed.

Lemma run_bounded (self : EngagementTracker)
    (frames : list (list EmotionDetection)) :
  in_unit (smoothing_factor (config self)) ->
  bounded_state self ->
  Forall (Forall nonnegative) frames ->
  exists final summaries,
    run self frames = Ok (final, summaries)
    /\ Forall bounded_summary summaries.
Proof.
  revert self. induction frames as [|ds frames IH]; intros self Ha Hinv Hall.
  - eexists _, _. split; [reflexivity | constructor].
  - apply Forall_cons in Hall as [Hds Hall].
    destruct (update_bounded self ds Ha Hinv Hds)
      as (self' & summary & Hupd & Hcfg & Hinv' & Hsum).
    rewrite <- Hcfg in Ha.
    destruct (IH self' Ha Hinv' Hall) as (final & rest & Hrun & Hrest).
    exists final, (summary :: rest).
    split; [eapply run_cons; eassumption | constructor; assumption].
Qed.

(** C9, as the code has it.  For a fresh tracker whose smoothing factor
    lies in [0, 1], fed frames whose emotion scores are all non-negative:
    every weight is 0, 1/2 or 1 (whatever categories the configuration
    holds, also after [merge_emotion_weights]), in the exact model and in
    binary64 alike; and the exact values of every per-face score and of
    every returned raw score, rolling average and smoothed score lie in
    [0, 1].  The bounds are those of the exact values: the binary64 result
    can pass them by rounding.  With the default weights the three positive
    emotions happy 0.77, surprise 0.37, excited 0.47 score
    1.0000000000000002 with the [sum] of CPython 3.12 and later, and 1 with
    the [sum] of the earlier versions. *)
Theorem scores_in_unit_interval (cfg : option TrackerConfig)
    (self : EngagementTracker) (frames : list (list EmotionDetection)) :
  init cfg = Ok self ->
  in_unit (smoothing_factor (config self)) ->
  Forall (Forall nonnegative) frames ->
  (forall e : string,
      weight_for (config self) e = 0
      \/ weight_for (config self) e = 1 # 2
      \/ weight_for (config self) e = 1)
  /\ (forall (base : EmotionWeights)
        (overrides : option (gmap string (list string)))
        (alpha : Q) (size : Z) (e : string),
        let merged :=
          {| smoothing_factor := alpha; history_size := size;
             emotion_weights := merge_emotion_weights base overrides |} in
        weight_for merged e = 0 \/ weight_for merged e = 1 # 2
        \/ weight_for merged e = 1)
  /\ (forall (detections : list EmotionDetection) (d : EmotionDetection),
        detections ∈ frames -> d ∈ detections ->
        exists score,
          _score_for_emotions self (emotions d) = Ok score
          /\ in_unit score)
  /\ (exists final summaries,
        run self frames = Ok (final, summaries)
        /\ Forall
             (fun s =>
                in_unit (raw_score s) /\ in_unit (rolling_average s)
                /\ in_unit (smoothed_score s))
             summaries)
  /\ (forall (c : TrackerConfig) (e : string),
        Binary64.weight_for c e = 0%float
        \/ Binary64.weight_for c e = 0.5%float
        \/ Binary64.weight_for c e = 1%float)
  /\ Binary64._score_for_emotions Binary64.sum default_TrackerConfig
       three_positive
     = Ok 1.0000000000000002%float
  /\ Binary64._score_for_emotions Binary64.sum_plain default_TrackerConfig
       three_positive
     = Ok 1%float.
Proof.
  intros Hinit Ha Hall.
  split; [intros e; apply weight_for_values|].
  split; [intros base overrides alpha size e merged; apply weight_for_values|].
  split.
  - intros ds d Hds Hd. exists (score_value self (emotions d)).
    split; [apply score_ok|].
    apply in_unit_eq with (x := face_score (config self) (emotions d));
      [symmetry; apply score_value_spec|].
    apply face_score_in_unit.
    pose proof (proj1 (Forall_forall _ _) Hall ds Hds) as Hnn.
    exact (proj1 (Forall_forall _ _) Hnn d Hd).
  - split;
      [|split; [intros c e; apply binary64_weight_for_values|];
        split; vm_compute; reflexivity].
    destruct (init_state cfg self Hinit) as (_ & Hnone & Hitems & _).
    apply run_bounded; [exact Ha | | exact Hall].
    split; [rewrite Hitems; constructor | rewrite Hnone; exact I].
Qed.

Lemma scores_in_unit_interval_witness :
  exists final summaries,
    run scenario_tracker
      [[happy_face];
       [];
       [{| box := (0, 0, 10, 10)%Z; emotions := scenario_emotions |};
        happy_face]]
    = Ok (final, summaries)
    /\ Forall
         (fun s =>
            in_unit (raw_score s) /\ in_unit (rolling_average s)
            /\ in_unit (smoothed_score s))
         summaries.
Proof.
  refine (proj1 (proj2 (proj2 (proj2
            (scores_in_unit_interval (Some scenario_config) scenario_tracker
               _ eq_refl _ _))))).
  - unfold in_unit. simpl. lra.
  - repeat constructor; simpl; lra.
Defined.

(** C9 as the specification words it does not hold of the program.  With
    the default weights a face that reports the three positive emotions
    happy 0.77, surprise 0.37 and excited 0.47 has, under CPython 3.12 and
    later, the per-face score 1.0000000000000002: [sum] and the loop over
    the items round differently, and the quotient passes 1.  The scores are
    non-negative. *)
Lemma score_exceeds_one :
  Binary64._score_for_emotions Binary64.sum default_TrackerConfig
    three_positive
  = Ok 1.0000000000000002%float
  /\ (1 <? 1.0000000000000002)%float = true
  /\ Forall (fun x => (0 <=? x)%float = true) (Dict.values three_positive).
Proof.
  split; [vm_compute; reflexivity|]. split; [reflexivity|].
  repeat constructor.
Qed.

End Bounds.


(** ** The emotion distribution of a frame *)

Section DistributionClaim.

Local Open Scope Q_scope.

Lemma get_present {V : Type} (d : Dict.dict V) (k : string) :
  k ∈ Dict.keys d -> exists v, Dict.get d k = Some v.
Proof.
  intros Hin. destruct (Dict.get d k) as [v|] eqn:E; [exists v; reflexivity|].
  apply get_None in E. contradiction.
Qed.

Lemma get_keys {V : Type} (d : Dict.dict V) (k : string) (v : V) :
  Dict.get d k = Some v -> k ∈ Dict.keys d.
Proof.
  intros Hget. destruct (decide (k ∈ Dict.keys d)) as [H|H]; [exact H|].
  apply get_None in H. congruence.
Qed.

(** C4.  When the intensity a frame accumulates is positive, the returned
    distribution has one entry per case-folded emotion name seen in the
    frame, its value is the intensity accumulated for that name divided by
    the total, the values sum to 1, and the dominant emotion is a key of
    the distribution whose value no other value exceeds. *)
Theorem distribution_shares (self : EngagementTracker)
    (detections : list EmotionDetection) :
  0 < frame_intensity detections ->
  exists self' summary,
    update self detections = Ok (self', summary)
    /\ Dict.wf (emotion_distribution summary)
    /\ (forall k : string,
          k ∈ Dict.keys (emotion_distribution summary)
          <-> exists item,
              item ∈ frame_items detections /\ Py.lower (fst item) = k)
    /\ (forall (k : string) (v : Q),
          Dict.get (emotion_distribution summary) k = Some v ->
          v == accumulated k detections / frame_intensity detections)
    /\ Py.sum (Dict.values (emotion_distribution summary)) == 1
    /\ exists (dominant : string) (top : Q),
        dominant_emotion summary = Some dominant
        /\ Dict.get (emotion_distribution summary) dominant = Some top
        /\ forall (k : string) (v : Q),
            Dict.get (emotion_distribution summary) k = Some v -> v <= top.
Proof.
  intros Hpos.
  assert (Hltb : Py.ltb 0 (Py.sum (Dict.values (totals_of detections))) = true).
  { apply ltb_true. rewrite totals_of_sum. exact Hpos. }
  destruct (distribution_keys detections Hltb) as [Hdist Hkeys].
  eexists _, _. split; [apply update_ok|].
  cbn [emotion_distribution dominant_emotion].
  set (total := Py.sum (Dict.values (totals_of detections))) in *.
  assert (Htotal : total == frame_intensity detections)
    by apply totals_of_sum.
  split; [|split; [|split; [|split]]].
  - unfold Dict.wf. rewrite Hdist, shares_keys. apply totals_of_wf.
  - intros k. rewrite Hdist, shares_keys, totals_of_keys.
    rewrite list_elem_of_fmap. split.
    + intros (item & -> & Hin). exists item. split; [exact Hin | reflexivity].
    + intros (item & Hin & <-). exists item. split; [reflexivity | exact Hin].
  - intros k v. rewrite Hdist, shares_get.
    destruct (Dict.get (totals_of detections) k) as [t|] eqn:E;
      [|discriminate].
    cbn [fmap option_fmap option_map]. intros [= <-].
    pose proof (totals_of_get detections k) as Hacc. rewrite E in Hacc.
    cbn [default] in Hacc. rewrite Hacc, Htotal. reflexivity.
  - rewrite Hdist, shares_sum. fold total. field. lra.
  - unfold dominant_of.
    destruct (Dict.keys (distribution_of detections)) as [|k0 ks] eqn:Ek;
      [contradiction|].
    set (key := fun emotion : string =>
                  default 0 (Dict.get (distribution_of detections) emotion)).
    destruct (max_from_spec key k0 ks) as (Hmem & Hfirst & Hrest).
    set (m := Py.max_from key k0 ks) in *.
    assert (Hin : m ∈ Dict.keys (distribution_of detections)).
    { rewrite Ek. destruct Hmem as [->|Hmem]; [left | right; exact Hmem]. }
    destruct (get_present _ _ Hin) as [top Htop].
    exists m, top. split; [reflexivity|]. split; [exact Htop|].
    intros k v Hget.
    assert (Hk : k ∈ k0 :: ks) by (rewrite <- Ek; eapply get_keys, Hget).
    assert (Hle : key k <= key m).
    { apply elem_of_cons in Hk as [->|Hk]; [exact Hfirst|].
      exact (proj1 (Forall_forall _ _) Hrest k Hk). }
    unfold key in Hle. rewrite Hget, Htop in Hle. exact Hle.
Qed.

Lemma distribution_shares_witness :
  exists self' summary,
    update scenario_tracker
      [{| box := (0, 0, 10, 10)%Z; emotions := scenario_emotions |};
       {| box := (20, 0, 10, 10)%Z; emotions := [("Happy", 1)] |}]
    = Ok (self', summary)
    /\ Py.sum (Dict.values (emotion_distribution summary)) == 1
    /\ exists (dominant : string) (top : Q),
        dominant_emotion summary = Some dominant
        /\ Dict.get (emotion_distribution summary) dominant = Some top
        /\ forall (k : string) (v : Q),
            Dict.get (emotion_distribution summary) k = Some v -> v <= top.
Proof.
  destruct (distribution_shares scenario_tracker
              [{| box := (0, 0, 10, 10)%Z; emotions := scenario_emotions |};
               {| box := (20, 0, 10, 10)%Z; emotions := [("Happy", 1)] |}])
    as (self' & summary & Hupd & _ & _ & _ & Hsum & Hdom).
  - vm_compute. reflexivity.
  - exists self', summary. split; [exact Hupd|]. split; assumption.
Defined.

End DistributionClaim.

(** ** Merging category overrides *)

Section Merge.

#[local] Instance str_le_total : Total str_le.
Proof. intros a b. unfold str_le. apply String.leb_total. Qed.

Lemma normalise_elem (names : list string) (x : string) :
  x ∈ normalise names <-> exists v, v ∈ names /\ x = Py.lower v.
Proof.
  unfold normalise, sorted.
  rewrite merge_sort_Permutation, elem_of_elements, elem_of_list_to_set.
  rewrite list_elem_of_fmap. split.
  - intros (v & -> & Hv). exists v. split; [exact Hv | reflexivity].
  - intros (v & Hv & ->). exists v. split; [reflexivity | exact Hv].
Qed.

Lemma normalise_NoDup (names : list string) : NoDup (normalise names).
Proof.
  unfold normalise, sorted. rewrite merge_sort_Permutation.
  apply NoDup_elements.
Qed.

Lemma normalise_Sorted (names : list string) :
  Sorted str_le (normalise names).
Proof. unfold normalise, sorted. apply Sorted_merge_sort. exact _. Qed.

Lemma normalise_lowercase (names : list string) (x : string) :
  Forall (fun v => Py.lower v = v) names ->
  x ∈ normalise names <-> x ∈ names.
Proof.
  intros Hlow. rewrite normalise_elem. split.
  - intros (v & Hv & ->).
    rewrite (proj1 (Forall_forall _ _) Hlow v Hv). exact Hv.
  - intros Hx. exists x. split; [exact Hx|].
    symmetry. exact (proj1 (Forall_forall _ _) Hlow x Hx).
Qed.

(** C7, as the code has it.  With no overrides, or an empty mapping,
    [merge_emotion_weights] returns [base].  Otherwise every category of
    the result is the normalised form (lower-cased, without duplicates,
    sorted) of the names supplied for it, or of the names [base] holds
    for it when the overrides do not mention it; overriding positive with
    Happy, HAPPY gives the positive category happy; and a category that is
    not mentioned keeps exactly the names of [base] when these are already
    lower-case. *)
Theorem merge_normalises (base : EmotionWeights)
    (ov : gmap string (list string)) :
  merge_emotion_weights base None = base
  /\ merge_emotion_weights base (Some ∅) = base
  /\ (ov <> ∅ ->
      let merged := merge_emotion_weights base (Some ov) in
      positive merged
      = normalise (default (positive base) (ov !! "positive"))
      /\ neutral merged
         = normalise (default (neutral base) (ov !! "neutral"))
      /\ negative merged
         = normalise (default (negative base) (ov !! "negative"))
      /\ (forall (names : list string) (x : string),
            ov !! "positive" = Some names ->
            x ∈ positive merged <-> exists v, v ∈ names /\ x = Py.lower v)
      /\ (forall (names : list string) (x : string),
            ov !! "neutral" = Some names ->
            x ∈ neutral merged <-> exists v, v ∈ names /\ x = Py.lower v)
      /\ (forall (names : list string) (x : string),
            ov !! "negative" = Some names ->
            x ∈ negative merged <-> exists v, v ∈ names /\ x = Py.lower v)
      /\ NoDup (positive merged) /\ NoDup (neutral merged)
      /\ NoDup (negative merged)
      /\ Sorted str_le (positive merged) /\ Sorted str_le (neutral merged)
      /\ Sorted str_le (negative merged)
      /\ (ov !! "positive" = Some ["Happy"; "HAPPY"] ->
          positive merged = ["happy"])
      /\ (ov !! "positive" = None ->
          Forall (fun v => Py.lower v = v) (positive base) ->
          forall x, x ∈ positive merged <-> x ∈ positive base)
      /\ (ov !! "neutral" = None ->
          Forall (fun v => Py.lower v = v) (neutral base) ->
          forall x, x ∈ neutral merged <-> x ∈ neutral base)
      /\ (ov !! "negative" = None ->
          Forall (fun v => Py.lower v = v) (negative base) ->
          forall x, x ∈ negative merged <-> x ∈ negative base)).
Proof.
  split; [reflexivity|]. split; [reflexivity|].
  intros Hne merged.
  assert (Hm : merged
               = {| positive := normalise (default (positive base) (ov !! "positive"));
                    neutral := normalise (default (neutral base) (ov !! "neutral"));
                    negative := normalise (default (negative base) (ov !! "negative")) |}).
  { unfold merged, merge_emotion_weights.
    destruct (decide (ov = ∅)); [contradiction | reflexivity]. }
  rewrite Hm. cbn [positive neutral negative].
  split; [reflexivity|]. split; [reflexivity|]. split; [reflexivity|].
  split; [intros names x Hov; rewrite Hov; apply normalise_elem|].
  split; [intros names x Hov; rewrite Hov; apply normalise_elem|].
  split; [intros names x Hov; rewrite Hov; apply normalise_elem|].
  split; [apply normalise_NoDup|]. split; [apply normalise_NoDup|].
  split; [apply normalise_NoDup|].
  split; [apply normalise_Sorted|]. split; [apply normalise_Sorted|].
  split; [apply normalise_Sorted|].
  split; [intros ->; vm_compute; reflexivity|].
  split; [intros -> Hlow x; apply normalise_lowercase, Hlow|].
  split; intros -> Hlow x; apply normalise_lowercase, Hlow.
Qed.

Lemma merge_normalises_witness :
  positive (merge_emotion_weights default_EmotionWeights
              (Some {["positive" := ["Happy"; "HAPPY"]]}))
  = ["happy"]
  /\ forall x,
      x ∈ negative (merge_emotion_weights default_EmotionWeights
                      (Some {["positive" := ["Happy"; "HAPPY"]]}))
      <-> x ∈ negative default_EmotionWeights.
Proof.
  destruct (merge_normalises default_EmotionWeights
              {["positive" := ["Happy"; "HAPPY"]]})
    as (_ & _ & Hmerge).
  destruct Hmerge
    as (_ & _ & _ & _ & _ & _ & _ & _ & _ & _ & _ & _ & Hexample & _ & _
        & Hnegative).
  - intros H. apply (f_equal (fun m => m !! "positive")) in H.
    vm_compute in H. discriminate H.
  - split; [apply Hexample; reflexivity|].
    apply Hnegative; [reflexivity|]. repeat constructor.
Defined.

(** C7 as the specification words it does not hold: a category that the
    overrides do not mention is not left as [base] has it.  Here the
    overrides replace only the positive category, and the negative category
    changes from Sad to sad. *)
Lemma merge_changes_unmentioned :
  joy_override <> ∅
  /\ joy_override !! "negative" = None
  /\ negative shouting_weights = ["Sad"]
  /\ negative (merge_emotion_weights shouting_weights (Some joy_override))
     = ["sad"]
  /\ ~ (forall x,
          x ∈ negative (merge_emotion_weights shouting_weights
                          (Some joy_override))
          <-> x ∈ negative shouting_weights).
Proof.
  split.
  { intros H. apply (f_equal (fun m => m !! "positive")) in H.
    vm_compute in H. discriminate H. }
  split; [reflexivity|]. split; [reflexivity|].
  assert (Hneg : negative (merge_emotion_weights shouting_weights
                             (Some joy_override)) = ["sad"])
    by (vm_compute; reflexivity).
  split; [exact Hneg|].
  intros Hsame. rewrite Hneg in Hsame.
  destruct (Hsame "Sad") as [_ Hback].
  assert (Hin : "Sad" ∈ ["sad"]) by (apply Hback; left).
  apply list_elem_of_singleton in Hin. discriminate Hin.
Qed.

End Merge.

(** ** The frame summary of the analyzer *)

Section Summary.

Local Open Scope Q_scope.

Lemma tally_cons (e : string) (x : Q) (items : Dict.dict Q)
    (totals : Dict.dict Q) (counts : Dict.dict Z) :
  tally_items ((e, x) :: items) (totals, counts)
  = tally_items items
      (Dict.set totals e (default 0 (Dict.get totals e) + x),
       Dict.set counts e (default 0 (Dict.get counts e) + 1)%Z).
Proof. reflexivity. Qed.

Lemma tally_app (xs ys : Dict.dict Q) (acc : Dict.dict Q * Dict.dict Z) :
  tally_items (xs ++ ys) acc = tally_items ys (tally_items xs acc).
Proof. unfold tally_items. apply fold_left_app. Qed.

Lemma tally_fold (detections : list EmotionDetection)
    (acc : Dict.dict Q * Dict.dict Z) :
  fold_left (fun acc d => tally_items (emotions d) acc) detections acc
  = tally_items (frame_items detections) acc.
Proof.
  revert acc. unfold frame_items.
  induction detections as [|d ds IH]; intros acc; simpl.
  - reflexivity.
  - rewrite IH, tally_app. reflexivity.
Qed.

(** What the two accumulators hold after a list of items. *)
Lemma tally_spec (items : Dict.dict Q) (totals : Dict.dict Q)
    (counts : Dict.dict Z) :
  Dict.keys totals = Dict.keys counts ->
  Dict.wf totals ->
  let result := tally_items items (totals, counts) in
  Dict.keys (fst result) = Dict.keys (snd result)
  /\ Dict.wf (fst result)
  /\ (forall e,
        e ∈ Dict.keys (fst result)
        <-> e ∈ Dict.keys totals \/ e ∈ Dict.keys items)
  /\ (forall e,
        default 0 (Dict.get (fst result) e)
        == default 0 (Dict.get totals e) + Py.sum (Dict.values (under e items)))
  /\ (forall e,
        default 0%Z (Dict.get (snd result) e)
        = (default 0 (Dict.get counts e)
           + Z.of_nat (length (under e items)))%Z).
Proof.
  revert totals counts.
  induction items as [|[k x] items IH]; intros totals counts Hkeys Hwf.
  - simpl. split; [exact Hkeys|]. split; [exact Hwf|]. split.
    + intros e. split; [tauto | intros [H|H]; [exact H | inversion H]].
    + split; intros e; [rewrite sum_nil; ring | lia].
  - rewrite tally_cons. cbv zeta.
    edestruct (IH (Dict.set totals k (default 0 (Dict.get totals k) + x))
                 (Dict.set counts k (default 0 (Dict.get counts k) + 1)%Z))
      as (Hk & Hw & Hmem & Hsum & Hcount).
    { rewrite !set_keys, Hkeys. reflexivity. }
    { apply set_wf, Hwf. }
    split; [exact Hk|]. split; [exact Hw|]. split; [|split].
    + intros e. rewrite Hmem, elem_keys_set. simpl.
      rewrite elem_of_cons. tauto.
    + intros e. rewrite Hsum, get_set. unfold under. simpl.
      destruct (String.eqb_spec k e) as [->|Hne]; simpl.
      * rewrite sum_cons. ring.
      * ring.
    + intros e. rewrite Hcount, get_set. unfold under. simpl.
      destruct (String.eqb_spec k e) as [->|Hne]; simpl; lia.
Qed.

Lemma averages_ok (names : list string) (totals : Dict.dict Q)
    (counts : Dict.dict Z) (out : Dict.dict Q) :
  (forall e, e ∈ names ->
     exists t c,
       Dict.get totals e = Some t /\ Dict.get counts e = Some c
       /\ (0 < c)%Z) ->
  NoDup (Dict.keys out ++ names) ->
  averages names totals counts out
  = Ok (out ++ map (average_of totals counts) names).
Proof.
  revert out. induction names as [|e names IH]; intros out Hall Hnd.
  - simpl. rewrite app_nil_r. reflexivity.
  - destruct (Hall e) as (t & c & Ht & Hc & Hpos); [left|].
    assert (He : e ∉ Dict.keys out).
    { apply NoDup_app in Hnd as (_ & Hdis & _). intros Hin.
      apply (Hdis e Hin). left. }
    cbn [averages]. unfold Dict.subscript. rewrite Ht, Hc. cbn [rbind].
    rewrite div_ok.
    2:{ intros H. unfold Qeq in H. simpl in H. lia. }
    cbn [rbind]. rewrite set_fresh by exact He. rewrite IH.
    + assert (Havg : average_of totals counts e = (e, t / inject_Z c))
        by (unfold average_of; rewrite Ht, Hc; reflexivity).
      cbn [map]. rewrite Havg, <- app_assoc. reflexivity.
    + intros e' He'. apply Hall. right. exact He'.
    + unfold Dict.keys in *. rewrite map_app, <- app_assoc. exact Hnd.
Qed.

Lemma get_average (totals : Dict.dict Q) (counts : Dict.dict Z)
    (names : list string) (e : string) :
  Dict.get (map (average_of totals counts) names) e
  = if decide (e ∈ names) then Some (snd (average_of totals counts e))
    else None.
Proof.
  induction names as [|k names IH].
  - simpl. destruct (decide (e ∈ [])) as [H|_]; [inversion H | reflexivity].
  - cbn [map Dict.get average_of].
    destruct (String.eqb_spec k e) as [->|Hne].
    + rewrite decide_True by left. reflexivity.
    + rewrite IH. destruct (decide (e ∈ names)) as [Hin|Hout].
      * rewrite decide_True by (right; exact Hin). reflexivity.
      * rewrite decide_False; [reflexivity|].
        rewrite elem_of_cons. intros [?|?]; [congruence | contradiction].
Qed.

Lemma keys_average (totals : Dict.dict Q) (counts : Dict.dict Z)
    (names : list string) :
  Dict.keys (map (average_of totals counts) names) = names.
Proof. unfold Dict.keys. rewrite map_map. apply map_id. Qed.

Lemma under_app (e : string) (xs ys : Dict.dict Q) :
  under e (xs ++ ys) = under e xs ++ under e ys.
Proof. unfold under. apply List.filter_app. Qed.

Lemma under_absent (e : string) (d : Dict.dict Q) :
  e ∉ Dict.keys d -> under e d = [].
Proof.
  induction d as [|[k v] d IH]; [reflexivity|].
  cbn [Dict.keys map fst]. rewrite not_elem_of_cons. intros [Hne Hd].
  unfold under in *. cbn [List.filter fst].
  destruct (String.eqb_spec k e); [congruence | apply IH, Hd].
Qed.

Lemma under_wf (e : string) (d : Dict.dict Q) :
  Dict.wf d -> Dict.values (under e d) = option_list (Dict.get d e).
Proof.
  unfold Dict.wf.
  induction d as [|[k v] d IH]; intros Hnd; [reflexivity|].
  cbn [Dict.keys map fst] in Hnd. apply NoDup_cons in Hnd as [Hk Hnd].
  unfold under in *. cbn [List.filter fst Dict.get].
  destruct (String.eqb_spec k e) as [->|Hne].
  - fold (under e d). rewrite (under_absent e d Hk). reflexivity.
  - apply IH, Hnd.
Qed.

Lemma under_frame (e : string) (detections : list EmotionDetection) :
  Forall (fun d => Dict.wf (emotions d)) detections ->
  Dict.values (under e (frame_items detections)) = reported e detections.
Proof.
  unfold frame_items, reported.
  induction 1 as [|d ds Hd _ IH]; [reflexivity|].
  cbn [map concat]. rewrite under_app. unfold Dict.values in *.
  rewrite map_app, IH. pose proof (under_wf e (emotions d) Hd) as Hu.
  unfold Dict.values in Hu. rewrite Hu.
  change (omap ?f (d :: ds))
    with (match f d with Some y => y :: omap f ds | None => omap f ds end).
  destruct (Dict.get (emotions d) e); reflexivity.
Qed.

Lemma reported_count (e : string) (detections : list EmotionDetection) :
  length (reported e detections)
  = length (List.filter
              (fun d => bool_decide (e ∈ Dict.keys (emotions d)))
              detections).
Proof.
  unfold reported. induction detections as [|d ds IH]; [reflexivity|].
  cbn [List.filter].
  change (omap ?f (d :: ds))
    with (match f d with Some y => y :: omap f ds | None => omap f ds end).
  destruct (Dict.get (emotions d) e) as [v|] eqn:E.
  - rewrite bool_decide_eq_true_2 by (eapply get_keys, E).
    simpl. f_equal. exact IH.
  - rewrite bool_decide_eq_false_2 by (apply get_None, E). exact IH.
Qed.

Lemma frame_keys (e : string) (detections : list EmotionDetection) :
  e ∈ Dict.keys (frame_items detections)
  <-> exists d, d ∈ detections /\ e ∈ Dict.keys (emotions d).
Proof.
  unfold frame_items, Dict.keys.
  induction detections as [|d ds IH]; cbn [map concat].
  - split; [intros H; inversion H | intros (d & H & _); inversion H].
  - rewrite map_app, elem_of_app, IH. split.
    + intros [H|(d' & Hd' & H)].
      * exists d. split; [left | exact H].
      * exists d'. split; [right; exact Hd' | exact H].
    + intros (d' & Hd' & H). apply elem_of_cons in Hd' as [->|Hd'].
      * left. exact H.
      * right. exists d'. split; assumption.
Qed.

Lemma summary_value (detections : list EmotionDetection) :
  let result := tally_items (frame_items detections) ([], []) in
  format_detection_summary detections
  = Ok (map (average_of (fst result) (snd result))
          (Dict.keys (fst result))).
Proof.
  cbv zeta. unfold format_detection_summary. rewrite tally_fold.
  pose proof (tally_spec (frame_items detections) [] [] eq_refl
                (NoDup_nil_2)) as Hspec.
  cbv zeta in Hspec.
  match type of Hspec with
  | context [tally_items ?items ?acc] =>
      change (tally_items (frame_items detections) ([], []))
        with (tally_items items acc);
      destruct (tally_items items acc) as [totals counts]
  end.
  cbn [fst snd] in *. destruct Hspec as (Hkeys & Hwf & Hmem & Hsum & Hcount).
  destruct totals as [|item totals'] eqn:E; [reflexivity|]. rewrite <- E in *.
  rewrite (averages_ok (Dict.keys totals) totals counts []).
  - reflexivity.
  - intros e He.
    destruct (get_present totals e He) as [t Ht].
    destruct (get_present counts e) as [c Hc]; [rewrite <- Hkeys; exact He|].
    exists t, c. split; [exact Ht|]. split; [exact Hc|].
    pose proof (Hcount e) as Hce. rewrite Hc in Hce. cbn [default] in Hce.
    apply Hmem in He as [He|He]; [inversion He|].
    destruct (under e (frame_items detections)) eqn:Eu.
    + exfalso. revert He Eu. clear. unfold under, Dict.keys.
      induction (frame_items detections) as [|[k v] l IH]; intros He Eu.
      * inversion He.
      * cbn [map fst List.filter] in *.
        destruct (String.eqb_spec k e) as [->|Hne]; [discriminate|].
        apply IH; [|exact Eu].
        apply elem_of_cons in He as [?|?]; [congruence | assumption].
    + simpl in Hce. lia.
  - exact Hwf.
Qed.

(** C8.  [format_detection_summary] never raises; for mappings without
    repeated names its result has one entry per emotion name that some
    detection reports, whose value is the sum of the scores reported for
    that name divided by the number of detections that report it; it is
    empty when no detection reports an emotion.  It takes the detections
    only and no tracker. *)
Theorem summary_is_per_emotion_mean (detections : list EmotionDetection) :
  Forall (fun d => Dict.wf (emotions d)) detections ->
  exists summary,
    format_detection_summary detections = Ok summary
    /\ Dict.wf summary
    /\ (forall e,
          e ∈ Dict.keys summary
          <-> exists d, d ∈ detections /\ e ∈ Dict.keys (emotions d))
    /\ (forall e v,
          Dict.get summary e = Some v ->
          v == Py.sum (reported e detections)
               / Py.len (reported e detections))
    /\ (forall e,
          length (reported e detections)
          = length (List.filter
                      (fun d => bool_decide (e ∈ Dict.keys (emotions d)))
                      detections))
    /\ (Forall (fun d => emotions d = []) detections -> summary = []).
Proof.
  intros Hwfs. eexists. split; [apply summary_value|].
  destruct (tally_spec (frame_items detections) [] [] eq_refl (NoDup_nil_2))
    as (Hkeys & Hwf & Hmem & Hsum & Hcount).
  cbv zeta in *.
  match type of Hkeys with
  | context [tally_items ?items ?acc] =>
      change (tally_items (frame_items detections) ([], []))
        with (tally_items items acc);
      set (result := tally_items items acc) in *
  end.
  split; [unfold Dict.wf; rewrite keys_average; exact Hwf|].
  split; [|split; [|split]].
  - intros e. rewrite keys_average, Hmem, <- frame_keys.
    split; [intros [H|H]; [inversion H | exact H] | tauto].
  - intros e v. rewrite get_average.
    destruct (decide (e ∈ Dict.keys result.1)); [|discriminate].
    intros [= <-]. cbn [average_of snd].
    rewrite Hsum, Hcount, under_frame by exact Hwfs.
    cbn [Dict.get default]. unfold Py.len.
    rewrite <- (under_frame e detections Hwfs).
    unfold Dict.values. rewrite length_map.
    apply Qdiv_comp; [ring|]. rewrite Z.add_0_l. reflexivity.
  - intros e. apply reported_count.
  - intros Hall. destruct (all_empty_scored detections Hall) as [_ Hitems].
    unfold result. rewrite Hitems. reflexivity.
Qed.

Lemma summary_is_per_emotion_mean_witness :
  exists summary,
    format_detection_summary
      [{| box := (0, 0, 10, 10)%Z; emotions := scenario_emotions |};
       happy_face]
    = Ok summary
    /\ forall e v,
        Dict.get summary e = Some v ->
        v == Py.sum
               (reported e
                  [{| box := (0, 0, 10, 10)%Z;
                      emotions := scenario_emotions |};
                   happy_face])
             / Py.len
                 (reported e
                    [{| box := (0, 0, 10, 10)%Z;
                        emotions := scenario_emotions |};
                     happy_face]).
Proof.
  destruct (summary_is_per_emotion_mean
              [{| box := (0, 0, 10, 10)%Z; emotions := scenario_emotions |};
               happy_face])
    as (summary & Hsum & _ & _ & Hmean & _).
  - repeat (apply Forall_cons; split); try apply Forall_nil;
      unfold Dict.wf; apply (bool_decide_unpack _); vm_compute; exact I.
  - exists summary. split; [exact Hsum | exact Hmean].
Defined.

End Summary.

(** * Further properties *)

(** ** Strings *)

Section Strings.

Ltac by_cases_on c :=
  destruct c as [[] [] [] [] [] [] [] []]; reflexivity.

Lemma lower_ascii_idem (c : ascii) :
  Py.lower_ascii (Py.lower_ascii c) = Py.lower_ascii c.
Proof. by_cases_on c. Qed.

Lemma lower_idem (s : string) : Py.lower (Py.lower s) = Py.lower s.
Proof.
  induction s as [|c s IH]; [reflexivity|].
  simpl. rewrite lower_ascii_idem, IH. reflexivity.
Qed.

Lemma is_space_lower (c : ascii) :
  PyStr.is_space (Py.lower_ascii c) = PyStr.is_space c.
Proof. by_cases_on c. Qed.

Lemma eqb_comma_lower (c : ascii) :
  Ascii.eqb (Py.lower_ascii c) comma = Ascii.eqb c comma.
Proof. by_cases_on c. Qed.

Lemma lstrip_lower (s : string) :
  PyStr.lstrip (Py.lower s) = Py.lower (PyStr.lstrip s).
Proof.
  induction s as [|c s IH]; [reflexivity|].
  simpl. rewrite is_space_lower. destruct (PyStr.is_space c); [exact IH | reflexivity].
Qed.

Lemma rstrip_lower (s : string) :
  PyStr.rstrip (Py.lower s) = Py.lower (PyStr.rstrip s).
Proof.
  induction s as [|c s IH]; [reflexivity|].
  simpl. rewrite IH, is_space_lower.
  destruct (PyStr.rstrip s); simpl; [destruct (PyStr.is_space c)|]; reflexivity.
Qed.

Lemma strip_lower (s : string) :
  PyStr.strip (Py.lower s) = Py.lower (PyStr.strip s).
Proof. unfold PyStr.strip. rewrite lstrip_lower, rstrip_lower. reflexivity. Qed.

Lemma nonempty_lower (s : string) :
  PyStr.nonempty (Py.lower s) = PyStr.nonempty s.
Proof. destruct s; reflexivity. Qed.

Lemma nonempty_true (s : string) :
  PyStr.nonempty s = true <-> s <> EmptyString.
Proof. destruct s; simpl; split; congruence. Qed.

Lemma has_comma_lower (s : string) :
  has_char comma (Py.lower s) = has_char comma s.
Proof.
  induction s as [|c s IH]; [reflexivity|].
  simpl. rewrite eqb_comma_lower, IH. reflexivity.
Qed.

Lemma lstrip_no_lead (s : string) : no_lead (PyStr.lstrip s).
Proof.
  induction s as [|c s IH]; [exact I|].
  simpl. destruct (PyStr.is_space c) eqn:E; [exact IH | exact E].
Qed.

Lemma lstrip_fixed (s : string) : no_lead s -> PyStr.lstrip s = s.
Proof. destruct s as [|c s]; [reflexivity|]. simpl. intros ->. reflexivity. Qed.

Lemma rstrip_no_lead (s : string) : no_lead s -> no_lead (PyStr.rstrip s).
Proof.
  destruct s as [|c s]; [trivial|]. simpl. intros Hc.
  destruct (PyStr.rstrip s); [rewrite Hc|]; exact Hc.
Qed.

Lemma rstrip_idem (s : string) :
  PyStr.rstrip (PyStr.rstrip s) = PyStr.rstrip s.
Proof.
  induction s as [|c s IH]; [reflexivity|].
  simpl. destruct (PyStr.rstrip s) as [|c' r'] eqn:E.
  - destruct (PyStr.is_space c) eqn:Ec; [reflexivity|].
    simpl. rewrite Ec. reflexivity.
  - change (PyStr.rstrip (String c (String c' r')))
      with (match PyStr.rstrip (String c' r') with
            | EmptyString =>
                if PyStr.is_space c then EmptyString else String c EmptyString
            | String c'' r'' => String c (String c'' r'')
            end).
    rewrite IH. reflexivity.
Qed.

Lemma strip_idem (s : string) : PyStr.strip (PyStr.strip s) = PyStr.strip s.
Proof.
  unfold PyStr.strip.
  rewrite (lstrip_fixed (PyStr.rstrip (PyStr.lstrip s)))
    by apply rstrip_no_lead, lstrip_no_lead.
  apply rstrip_idem.
Qed.

Lemma has_char_lstrip (c : ascii) (s : string) :
  has_char c (PyStr.lstrip s) = true -> has_char c s = true.
Proof.
  induction s as [|c' s IH]; [trivial|].
  simpl. destruct (PyStr.is_space c'); [|trivial].
  intros H. rewrite (IH H). apply orb_true_r.
Qed.

Lemma has_char_rstrip (c : ascii) (s : string) :
  has_char c (PyStr.rstrip s) = true -> has_char c s = true.
Proof.
  induction s as [|c' s IH]; [trivial|].
  simpl. destruct (PyStr.rstrip s) as [|c'' r''].
  - destruct (PyStr.is_space c'); simpl; [discriminate|].
    rewrite orb_false_r. intros ->. reflexivity.
  - intros H. apply orb_true_iff in H as [H|H].
    + rewrite H. reflexivity.
    + rewrite (IH H). apply orb_true_r.
Qed.

Lemma has_char_strip (c : ascii) (s : string) :
  has_char c s = false -> has_char c (PyStr.strip s) = false.
Proof.
  intros H. destruct (has_char c (PyStr.strip s)) eqn:E; [|reflexivity].
  unfold PyStr.strip in E.
  apply has_char_rstrip, has_char_lstrip in E. congruence.
Qed.

Lemma split_pieces (sep : ascii) (s : string) :
  PyStr.split sep s <> []
  /\ Forall (fun piece => has_char sep piece = false) (PyStr.split sep s).
Proof.
  induction s as [|c s [IHne IH]]; simpl.
  - split; [discriminate | repeat constructor].
  - destruct (Ascii.eqb c sep) eqn:E.
    + split; [discriminate | constructor; [reflexivity | exact IH]].
    + destruct (PyStr.split sep s) as [|piece pieces]; [contradiction|].
      split; [discriminate|].
      apply Forall_cons in IH as [Hp Hps].
      constructor; [simpl; rewrite E, Hp; reflexivity | exact Hps].
Qed.

Lemma split_whole (sep : ascii) (s : string) :
  has_char sep s = false -> PyStr.split sep s = [s].
Proof.
  induction s as [|c s IH]; [reflexivity|].
  simpl. intros H. apply orb_false_iff in H as [Hc Hs].
  rewrite Hc, (IH Hs). reflexivity.
Qed.

Lemma split_first (sep : ascii) (p rest : string) :
  has_char sep p = false ->
  PyStr.split sep (p ++ String sep rest) = p :: PyStr.split sep rest.
Proof.
  induction p as [|c p IH]; simpl.
  - intros _. rewrite Ascii.eqb_refl. reflexivity.
  - intros H. apply orb_false_iff in H as [Hc Hp].
    rewrite Hc, (IH Hp). reflexivity.
Qed.

Lemma split_join (sep : ascii) (pieces : list string) :
  pieces <> [] ->
  Forall (fun piece => has_char sep piece = false) pieces ->
  PyStr.split sep (PyStr.join sep pieces) = pieces.
Proof.
  induction pieces as [|p pieces IH]; [contradiction|].
  intros _ Hall. apply Forall_cons in Hall as [Hp Hall].
  destruct pieces as [|q pieces].
  - simpl. apply split_whole, Hp.
  - change (PyStr.join sep (p :: q :: pieces))
      with (p ++ String sep (PyStr.join sep (q :: pieces)))%string.
    rewrite split_first by exact Hp. f_equal. apply IH; [discriminate | exact Hall].
Qed.

End Strings.

(** ** Parsing the category options *)

Section CommaSeparated.

Lemma clean_piece (piece : string) :
  has_char comma piece = false ->
  PyStr.nonempty (PyStr.strip piece) = true ->
  clean_name (Py.lower (PyStr.strip piece)).
Proof.
  intros Hcomma Hne. unfold clean_name.
  split; [|split; [|split]].
  - apply nonempty_true. rewrite nonempty_lower. exact Hne.
  - rewrite has_comma_lower. apply has_char_strip, Hcomma.
  - rewrite strip_lower, strip_idem. reflexivity.
  - apply lower_idem.
Qed.

(** X1.  [_comma_separated] answers [None] exactly for a missing or empty
    option value.  Every name it returns is not empty, holds no comma, has
    no white space at either end and is in lower case; there are at most as
    many names as pieces between commas. *)
Theorem comma_separated_clean (value : option string) :
  (_comma_separated value = None
   <-> value = None \/ value = Some EmptyString)
  /\ forall names : list string,
      _comma_separated value = Some names ->
      Forall clean_name names
      /\ exists text,
          value = Some text
          /\ (length names <= length (PyStr.split comma text))%nat.
Proof.
  split.
  - destruct value as [[|c s]|]; simpl; split; try discriminate; auto.
    + intros [H|H]; discriminate H.
  - intros names. destruct value as [[|c s]|]; try discriminate.
    unfold _comma_separated. intros [= <-]. split.
    + apply Forall_forall. intros name Hname.
      apply list_elem_of_In, in_map_iff in Hname as (piece & <- & Hpiece).
      apply filter_In in Hpiece as [Hpiece Hne].
      apply clean_piece; [|exact Hne].
      destruct (split_pieces comma (String c s)) as [_ Hall].
      exact (proj1 (Forall_forall _ _) Hall piece
               (proj2 (list_elem_of_In _ _) Hpiece)).
    + exists (String c s). split; [reflexivity|].
      rewrite length_map. apply List.filter_length_le.
Qed.

Lemma comma_separated_clean_witness :
  _comma_separated (Some " Happy , JOY,,  ,sad ,"%string)
  = Some ["happy"; "joy"; "sad"]%string
  /\ Forall clean_name ["happy"; "joy"; "sad"]%string.
Proof.
  split; [reflexivity|].
  exact (proj1 (proj2 (comma_separated_clean
                         (Some " Happy , JOY,,  ,sad ,"%string))
                 ["happy"; "joy"; "sad"]%string eq_refl)).
Defined.

(** X2.  Joining clean names with commas and parsing the text gives the
    names back, in the same order. *)
Theorem comma_separated_join (names : list string) :
  names <> [] ->
  Forall clean_name names ->
  _comma_separated (Some (PyStr.join comma names)) = Some names.
Proof.
  intros Hne Hall.
  assert (Hsplit : PyStr.split comma (PyStr.join comma names) = names).
  { apply split_join; [exact Hne|].
    eapply Forall_impl; [exact Hall|]. intros n (_ & H & _). exact H. }
  assert (Hfilter :
    List.filter (fun item => PyStr.nonempty (PyStr.strip item)) names = names).
  { clear Hne Hsplit. induction Hall as [|n ns (Hn & _ & Hs & _) _ IH];
      [reflexivity|].
    simpl. rewrite Hs, (proj2 (nonempty_true n) Hn), IH. reflexivity. }
  assert (Hmap : map (fun item => Py.lower (PyStr.strip item)) names = names).
  { clear Hne Hsplit Hfilter.
    induction Hall as [|n ns (_ & _ & Hs & Hl) _ IH]; [reflexivity|].
    simpl. rewrite Hs, Hl, IH. reflexivity. }
  destruct names as [|n ns]; [contradiction|].
  apply Forall_cons in Hall as [(Hn & _) _].
  destruct (PyStr.join comma (n :: ns)) as [|c s] eqn:Ej.
  - exfalso. destruct n as [|c n]; [contradiction|].
    destruct ns; simpl in Ej; discriminate Ej.
  - unfold _comma_separated. rewrite Hsplit, Hfilter, Hmap. reflexivity.
Qed.

Lemma comma_separated_join_witness :
  _comma_separated (Some "happy,very glad,joy"%string)
  = Some ["happy"; "very glad"; "joy"]%string.
Proof.
  apply (comma_separated_join ["happy"; "very glad"; "joy"]%string).
  - discriminate.
  - repeat constructor; try discriminate; reflexivity.
Defined.

End CommaSeparated.

(** ** Normalised categories *)

Section Canonical.

Lemma ascii_compare_refl (a : ascii) : Ascii.compare a a = Eq.
Proof. unfold Ascii.compare. apply N.compare_refl. Qed.

Lemma string_compare_trans (a b c : string) :
  String.compare a b <> Gt -> String.compare b c <> Gt ->
  String.compare a c <> Gt.
Proof.
  revert b c. induction a as [|x a IH]; intros [|y b] [|z c]; simpl;
    try congruence.
  destruct (Ascii.compare x y) eqn:Exy; try congruence;
    destruct (Ascii.compare y z) eqn:Eyz; try congruence.
  - apply Ascii.compare_eq_iff in Exy, Eyz. subst.
    rewrite ascii_compare_refl. apply IH.
  - apply Ascii.compare_eq_iff in Exy. subst. rewrite Eyz. congruence.
  - apply Ascii.compare_eq_iff in Eyz. subst. rewrite Exy. congruence.
  - unfold Ascii.compare in *.
    apply N.compare_lt_iff in Exy. apply N.compare_lt_iff in Eyz.
    pose proof (N.lt_trans _ _ _ Exy Eyz) as H.
    apply N.compare_lt_iff in H. rewrite H. congruence.
Qed.

#[local] Instance str_le_transitive : Transitive str_le.
Proof.
  intros a b c. unfold str_le, String.leb. intros Hab Hbc.
  pose proof (string_compare_trans a b c) as H.
  destruct (String.compare a b); try discriminate;
    destruct (String.compare b c); try discriminate;
    destruct (String.compare a c); try reflexivity;
    exfalso; apply H; congruence.
Qed.

#[local] Instance str_le_antisym : AntiSymm (=) str_le.
Proof. intros a b. unfold str_le. apply String.leb_antisym. Qed.

#[local] Instance str_le_total' : Total str_le.
Proof. intros a b. unfold str_le. apply String.leb_total. Qed.

Lemma normalise_same_names (xs ys : list string) :
  (forall x, x ∈ map Py.lower xs <-> x ∈ map Py.lower ys) ->
  normalise xs = normalise ys.
Proof.
  intros Hsame.
  apply (Sorted_unique str_le); try apply normalise_Sorted.
  apply NoDup_Permutation; try apply normalise_NoDup.
  intros x. rewrite !normalise_elem. split.
  - intros (v & Hv & ->).
    assert (H : Py.lower v ∈ map Py.lower ys).
    { apply Hsame, list_elem_of_fmap. exists v. split; [reflexivity | exact Hv]. }
    apply list_elem_of_fmap in H as (w & Hw & Hin). exists w. split; assumption.
  - intros (v & Hv & ->).
    assert (H : Py.lower v ∈ map Py.lower xs).
    { apply Hsame, list_elem_of_fmap. exists v. split; [reflexivity | exact Hv]. }
    apply list_elem_of_fmap in H as (w & Hw & Hin). exists w. split; assumption.
Qed.

Lemma normalise_idem (xs : list string) :
  normalise (normalise xs) = normalise xs.
Proof.
  apply normalise_same_names. intros x. rewrite !list_elem_of_fmap. split.
  - intros (v & -> & Hv). apply normalise_elem in Hv as (w & Hw & ->).
    exists w. split; [apply lower_idem | exact Hw].
  - intros (v & -> & Hv). exists (Py.lower v). split; [symmetry; apply lower_idem|].
    apply normalise_elem. exists v. split; [exact Hv | reflexivity].
Qed.

Lemma normalise_lower (xs : list string) :
  Forall (fun name => Py.lower name = name) (normalise xs).
Proof.
  apply Forall_forall. intros x Hx.
  apply normalise_elem in Hx as (v & _ & ->). apply lower_idem.
Qed.

(** X3.  The tuple [normalise] builds depends only on the set of
    lower-cased names: the order, the case and the repetitions of the names
    supplied do not matter.  It is strictly increasing in code-point order,
    and normalising it again changes nothing. *)
Theorem normalise_canonical (xs ys : list string) :
  ((forall x, x ∈ map Py.lower xs <-> x ∈ map Py.lower ys) ->
   normalise xs = normalise ys)
  /\ normalise (normalise xs) = normalise xs
  /\ StronglySorted (fun a b => str_le a b /\ a <> b) (normalise xs)
  /\ Forall (fun name => Py.lower name = name) (normalise xs).
Proof.
  split; [apply normalise_same_names|]. split; [apply normalise_idem|].
  split; [|apply normalise_lower].
  pose proof (normalise_NoDup xs) as Hnd.
  pose proof (Sorted_StronglySorted str_le _ (normalise_Sorted xs)) as Hs.
  induction Hs as [|a l Hs IH Hall]; [constructor|].
  apply NoDup_cons in Hnd as [Ha Hnd]. constructor; [apply IH, Hnd|].
  apply Forall_forall. intros b Hb. split.
  - exact (proj1 (Forall_forall _ _) Hall b Hb).
  - intros ->. contradiction.
Qed.

Lemma normalise_canonical_witness :
  normalise ["joy"; "Happy"]%string = normalise ["HAPPY"; "joy"; "happy"]%string.
Proof.
  apply (proj1 (normalise_canonical ["joy"; "Happy"]%string
                  ["HAPPY"; "joy"; "happy"]%string)).
  intros x. vm_compute map.
  rewrite !elem_of_cons. pose proof (not_elem_of_nil x). tauto.
Defined.

Lemma merge_value (base : EmotionWeights) (ov : gmap string (list string)) :
  ov <> ∅ ->
  merge_emotion_weights base (Some ov)
  = {| positive := normalise (default (positive base) (ov !! "positive"));
       neutral := normalise (default (neutral base) (ov !! "neutral"));
       negative := normalise (default (negative base) (ov !! "negative")) |}.
Proof.
  intros Hne. unfold merge_emotion_weights.
  destruct (decide (ov = ∅)); [contradiction | reflexivity].
Qed.

(** X4.  Merging the same overrides a second time changes nothing. *)
Theorem merge_idempotent (base : EmotionWeights)
    (overrides : option (gmap string (list string))) :
  merge_emotion_weights (merge_emotion_weights base overrides) overrides
  = merge_emotion_weights base overrides.
Proof.
  destruct overrides as [ov|]; [|reflexivity].
  destruct (decide (ov = ∅)) as [->|Hne]; [reflexivity|].
  rewrite !merge_value by exact Hne. cbn [positive neutral negative].
  destruct (ov !! "positive"), (ov !! "neutral"), (ov !! "negative");
    cbn [default]; rewrite ?normalise_idem; reflexivity.
Qed.

End Canonical.

(** ** Category names and the tracker *)

Section LowercaseOnly.

Lemma lowercase_names_elem (names : list string) (e : string) :
  Py.lower e ∈ lowercase_names names <-> Py.lower e ∈ names.
Proof.
  unfold lowercase_names. rewrite !list_elem_of_In, filter_In.
  split; [tauto|]. intros H. split; [exact H|].
  apply String.eqb_eq, lower_idem.
Qed.

Lemma weight_lowercase_only (cfg : TrackerConfig) (e : string) :
  weight cfg e
  = weight {| smoothing_factor := smoothing_factor cfg;
              history_size := history_size cfg;
              emotion_weights := lowercase_only (emotion_weights cfg) |} e.
Proof.
  unfold weight. rewrite !weight_for_spec.
  cbn [emotion_weights lowercase_only positive neutral negative].
  pose proof (lowercase_names_elem (negative (emotion_weights cfg)) e).
  pose proof (lowercase_names_elem (neutral (emotion_weights cfg)) e).
  pose proof (lowercase_names_elem (positive (emotion_weights cfg)) e).
  repeat case_decide; try reflexivity; tauto.
Qed.

Lemma fold_left_ext_in {A B : Type} (f g : A -> B -> A) (l : list B) (a : A) :
  (forall acc x, f acc x = g acc x) -> fold_left f l a = fold_left g l a.
Proof.
  intros H. revert a. induction l as [|x l IH]; intros a; [reflexivity|].
  simpl. rewrite H. apply IH.
Qed.

(** X5.  The tracker looks weights up under the lower-cased emotion name, so
    a category entry that is not in lower case is never matched: dropping
    such entries from the three categories changes no weight and no
    per-face score. *)
Theorem uppercase_entries_ignored (self : EngagementTracker)
    (mapping : Dict.dict Q) (e : string) :
  let bare := with_weights self (lowercase_only (emotion_weights (config self))) in
  weight (config self) e = weight (config bare) e
  /\ _score_for_emotions self mapping = _score_for_emotions bare mapping.
Proof.
  intros bare. split; [apply weight_lowercase_only|].
  unfold _score_for_emotions.
  destruct (Qle_bool (Py.sum (Dict.values mapping)) 0); [reflexivity|].
  f_equal. apply fold_left_ext_in. intros acc [emotion x].
  pose proof (weight_lowercase_only (config self) emotion) as H.
  unfold weight in H. cbn [config bare with_weights]. rewrite H. reflexivity.
Qed.

End LowercaseOnly.

Section PrepareTracker.

Lemma given_lookup (p n g : option (list string)) (k : string) :
  let keep v := match v with Some (x :: l) => Some (x :: l) | _ => None end in
  given [("positive", p); ("neutral", n); ("negative", g)]%string !! k
  = if decide (k = "positive"%string) then keep p
    else if decide (k = "neutral"%string) then keep n
    else if decide (k = "negative"%string) then keep g
    else None.
Proof.
  intros keep. unfold given.
  destruct p as [[|p0 p]|], n as [[|n0 n]|], g as [[|g0 g]|];
    cbn [omap list_omap list_to_map foldr fst snd keep];
    repeat (rewrite lookup_insert; try rewrite lookup_empty);
    rewrite ?lookup_empty;
    repeat (case_decide; subst; try congruence; try reflexivity).
Qed.

Lemma given_effective (args : Namespace) (k : string) :
  given [("positive", _comma_separated (positive_emotions args));
         ("neutral", _comma_separated (neutral_emotions args));
         ("negative", _comma_separated (negative_emotions args))]%string !! k
  = if decide (k = "positive"%string) then effective (positive_emotions args)
    else if decide (k = "neutral"%string)
         then effective (neutral_emotions args)
    else if decide (k = "negative"%string)
         then effective (negative_emotions args)
    else None.
Proof. apply given_lookup. Qed.

Lemma default_lowercase :
  Forall (fun v => Py.lower v = v) (positive default_EmotionWeights)
  /\ Forall (fun v => Py.lower v = v) (neutral default_EmotionWeights)
  /\ Forall (fun v => Py.lower v = v) (negative default_EmotionWeights).
Proof. repeat split; repeat constructor. Qed.

(** X6.  [_prepare_tracker] never raises: it returns a fresh tracker with
    smoothing factor 0.2 and history size 150.  When no category option
    yields a name the weights are the defaults as they stand; otherwise a
    category whose option yields names is the normalised tuple of these
    names, and a category whose option is missing, empty or made of commas
    and blanks only keeps exactly the default names. *)
Theorem prepare_tracker_weights (args : Namespace) :
  exists tracker,
    _prepare_tracker args = Ok tracker
    /\ smoothing_factor (config tracker) = 0.2%Q
    /\ history_size (config tracker) = 150%Z
    /\ Deque.items (_scores tracker) = []
    /\ Deque.maxlen (_scores tracker) = 150%Z
    /\ _smoothed_score tracker = None
    /\ (effective (positive_emotions args) = None ->
        effective (neutral_emotions args) = None ->
        effective (negative_emotions args) = None ->
        emotion_weights (config tracker) = default_EmotionWeights)
    /\ (forall names,
          effective (positive_emotions args) = Some names ->
          positive (emotion_weights (config tracker)) = normalise names)
    /\ (forall names,
          effective (neutral_emotions args) = Some names ->
          neutral (emotion_weights (config tracker)) = normalise names)
    /\ (forall names,
          effective (negative_emotions args) = Some names ->
          negative (emotion_weights (config tracker)) = normalise names)
    /\ (effective (positive_emotions args) = None ->
        forall x,
          x ∈ positive (emotion_weights (config tracker))
          <-> x ∈ positive default_EmotionWeights)
    /\ (effective (neutral_emotions args) = None ->
        forall x,
          x ∈ neutral (emotion_weights (config tracker))
          <-> x ∈ neutral default_EmotionWeights)
    /\ (effective (negative_emotions args) = None ->
        forall x,
          x ∈ negative (emotion_weights (config tracker))
          <-> x ∈ negative default_EmotionWeights).
Proof.
  eexists. split; [reflexivity|].
  cbn [config smoothing_factor history_size emotion_weights _scores
       _smoothed_score Deque.items Deque.maxlen].
  do 5 (split; [reflexivity|]).
  pose proof (given_effective args "positive") as Hp.
  pose proof (given_effective args "neutral") as Hn.
  pose proof (given_effective args "negative") as Hg.
  rewrite decide_True in Hp by reflexivity.
  rewrite decide_False, decide_True in Hn by (reflexivity || discriminate).
  rewrite decide_False, decide_False, decide_True in Hg
    by (reflexivity || discriminate).
  pose proof (given_effective args) as Hall.
  set (ov := given _) in *.
  destruct default_lowercase as (Lp & Ln & Lg).
  destruct (decide (ov = ∅)) as [Hempty|Hne].
  - rewrite Hempty, lookup_empty in Hp, Hn, Hg.
    split; [reflexivity|].
    split; [intros names H; congruence|].
    split; [intros names H; congruence|].
    split; [intros names H; congruence|].
    repeat split; trivial.
  - rewrite merge_value by exact Hne. cbn [positive neutral negative].
    rewrite Hp, Hn, Hg.
    split.
    { intros Ep En Eg. exfalso. apply Hne. apply map_eq. intros k.
      rewrite Hall, lookup_empty, Ep, En, Eg.
      repeat case_decide; reflexivity. }
    split; [intros names ->; reflexivity|].
    split; [intros names ->; reflexivity|].
    split; [intros names ->; reflexivity|].
    split; [intros -> x; apply normalise_lowercase, Lp|].
    split; [intros -> x; apply normalise_lowercase, Ln|].
    intros -> x; apply normalise_lowercase, Lg.
Qed.

Lemma prepare_tracker_weights_witness :
  exists tracker,
    _prepare_tracker
      {| positive_emotions := Some "Joy, happy"%string;
         neutral_emotions := Some " , "%string;
         negative_emotions := None |}
    = Ok tracker
    /\ positive (emotion_weights (config tracker)) = ["happy"; "joy"]%string
    /\ forall x,
        x ∈ neutral (emotion_weights (config tracker))
        <-> x ∈ neutral default_EmotionWeights.
Proof.
  destruct (prepare_tracker_weights
              {| positive_emotions := Some "Joy, happy"%string;
                 neutral_emotions := Some " , "%string;
                 negative_emotions := None |})
    as (tracker & Hrun & _ & _ & _ & _ & _ & _ & Hpos & _ & _ & _ & Hneu & _).
  exists tracker. split; [exact Hrun|]. split.
  - rewrite (Hpos ["joy"; "happy"]%string eq_refl). vm_compute. reflexivity.
  - apply Hneu. reflexivity.
Defined.

End PrepareTracker.

(** ** Empty detections and scaled scores *)

Section Skipping.

Lemma scored_idem (detections : list EmotionDetection) :
  scored (scored detections) = scored detections.
Proof.
  unfold scored. induction detections as [|d ds IH]; [reflexivity|].
  simpl. destruct (has_emotions d) eqn:E; [|exact IH].
  simpl. rewrite E, IH. reflexivity.
Qed.

Lemma frame_items_scored (detections : list EmotionDetection) :
  frame_items (scored detections) = frame_items detections.
Proof.
  unfold frame_items, scored.
  induction detections as [|d ds IH]; [reflexivity|].
  cbn [List.filter]. destruct (has_emotions d) eqn:E.
  - cbn [map concat]. rewrite IH. reflexivity.
  - cbn [map concat]. rewrite IH. unfold has_emotions in E.
    destruct (emotions d); [reflexivity | discriminate].
Qed.

Lemma summary_items (xs ys : list EmotionDetection) :
  frame_items xs = frame_items ys ->
  format_detection_summary xs = format_detection_summary ys.
Proof.
  intros H. pose proof (summary_value xs) as Hx.
  pose proof (summary_value ys) as Hy. cbv zeta in Hx, Hy.
  rewrite Hx, Hy, H. reflexivity.
Qed.

(** X7.  Detections with an empty mapping contribute nothing: [update]
    returns the same tracker and the same summary, and
    [format_detection_summary] the same mapping, with and without them. *)
Theorem empty_detections_skipped (self : EngagementTracker)
    (detections : list EmotionDetection) :
  update self detections = update self (scored detections)
  /\ format_detection_summary detections
     = format_detection_summary (scored detections).
Proof.
  split.
  - rewrite !update_ok.
    assert (Hraw : raw_of self (scored detections) = raw_of self detections).
    { unfold raw_of, frame_scores_of. rewrite scored_idem. reflexivity. }
    assert (Hdist : distribution_of (scored detections)
                    = distribution_of detections).
    { unfold distribution_of. rewrite !totals_of_items, frame_items_scored.
      reflexivity. }
    rewrite Hraw, Hdist. reflexivity.
  - apply summary_items. symmetry. apply frame_items_scored.
Qed.

End Skipping.

Section Scaling.

Local Open Scope Q_scope.

Lemma scaled_intensity (c : Q) (mapping : Dict.dict Q) :
  intensity (scaled c mapping) == c * intensity mapping.
Proof.
  unfold intensity, scaled, Dict.values.
  induction mapping as [|[e x] mapping IH]; simpl.
  - rewrite sum_nil. ring.
  - rewrite !sum_cons, IH. simpl. ring.
Qed.

Lemma scaled_weighted (cfg : TrackerConfig) (c : Q) (mapping : Dict.dict Q) :
  weighted_intensity cfg (scaled c mapping)
  == c * weighted_intensity cfg mapping.
Proof.
  unfold weighted_intensity, scaled.
  induction mapping as [|[e x] mapping IH]; simpl.
  - rewrite sum_nil. ring.
  - rewrite !sum_cons, IH. simpl. ring.
Qed.

Lemma scaled_face_score (cfg : TrackerConfig) (c : Q) (mapping : Dict.dict Q) :
  0 < c -> face_score cfg (scaled c mapping) == face_score cfg mapping.
Proof.
  intros Hc. unfold face_score.
  pose proof (scaled_intensity c mapping) as Hi.
  destruct (Qle_bool (intensity mapping) 0) eqn:E.
  - apply Qle_bool_iff in E.
    assert (H : Qle_bool (intensity (scaled c mapping)) 0 = true).
    { apply Qle_bool_iff. rewrite Hi. nra. }
    rewrite H. reflexivity.
  - apply Qle_bool_false in E.
    assert (H : Qle_bool (intensity (scaled c mapping)) 0 = false).
    { apply Qle_bool_false. rewrite Hi. nra. }
    rewrite H, Hi, scaled_weighted. field. split; lra.
Qed.

Lemma scored_scaled (c : Q) (detections : list EmotionDetection) :
  scored (map (scaled_detection c) detections)
  = map (scaled_detection c) (scored detections).
Proof.
  unfold scored. induction detections as [|d ds IH]; [reflexivity|].
  cbn [map List.filter].
  assert (H : has_emotions (scaled_detection c d) = has_emotions d).
  { unfold has_emotions, scaled_detection, scaled. simpl.
    destruct (emotions d); reflexivity. }
  rewrite H. destruct (has_emotions d); cbn [map]; rewrite IH; reflexivity.
Qed.

(** X8.  Only the proportions of the scores of a face matter: multiplying
    every score of a mapping by the same positive number leaves the
    per-face score unchanged, and doing so for every detection of a frame
    leaves the raw score of the frame unchanged. *)
Theorem score_scale_invariant (self : EngagementTracker) (c : Q)
    (mapping : Dict.dict Q) (detections : list EmotionDetection) :
  0 < c ->
  (exists score score',
      _score_for_emotions self mapping = Ok score
      /\ _score_for_emotions self (scaled c mapping) = Ok score'
      /\ score' == score)
  /\ exists self1 summary1 self2 summary2,
      update self detections = Ok (self1, summary1)
      /\ update self (map (scaled_detection c) detections)
         = Ok (self2, summary2)
      /\ raw_score summary2 == raw_score summary1.
Proof.
  intros Hc. split.
  - eexists _, _. split; [apply score_ok|]. split; [apply score_ok|].
    rewrite !score_value_spec. apply scaled_face_score, Hc.
  - eexists _, _, _, _. split; [apply update_ok|]. split; [apply update_ok|].
    cbn [raw_score]. unfold raw_of, frame_scores_of.
    rewrite scored_scaled, map_map.
    destruct (scored detections) as [|d ds]; [reflexivity|].
    cbn [map]. 
    set (f := fun x : EmotionDetection =>
                score_value self (emotions (scaled_detection c x))).
    set (g := fun x : EmotionDetection => score_value self (emotions x)).
    change (arithmetic_mean (map f (d :: ds))
            == arithmetic_mean (map g (d :: ds))).
    apply mean_map_ext. intros x. unfold f, g.
    rewrite !score_value_spec. apply scaled_face_score, Hc.
Qed.

Lemma score_scale_invariant_witness :
  exists score score',
    _score_for_emotions scenario_tracker scenario_emotions = Ok score
    /\ _score_for_emotions scenario_tracker (scaled 100 scenario_emotions)
       = Ok score'
    /\ score' == score.
Proof.
  apply (score_scale_invariant scenario_tracker 100 scenario_emotions []).
  reflexivity.
Defined.

End Scaling.

(** ** Weights present in a face; the dominant emotion *)

Section Between.

Local Open Scope Q_scope.

Lemma weighted_between (cfg : TrackerConfig) (lo hi : Q)
    (mapping : Dict.dict Q) :
  Forall (fun x => 0 <= x) (Dict.values mapping) ->
  Forall (fun item => lo <= weight cfg (fst item) <= hi) mapping ->
  lo * intensity mapping <= weighted_intensity cfg mapping
  /\ weighted_intensity cfg mapping <= hi * intensity mapping.
Proof.
  unfold weighted_intensity, intensity, Dict.values.
  induction mapping as [|[e x] mapping IH]; intros Hnn Hw.
  - simpl. rewrite sum_nil. lra.
  - apply Forall_cons in Hnn as [Hx Hnn]. apply Forall_cons in Hw as [He Hw].
    specialize (IH Hnn Hw). cbn [map fst snd] in *. rewrite !sum_cons.
    destruct He as [Hlo Hhi]. nra.
Qed.

(** X9.  In exact arithmetic, for non-negative scores with a positive
    sum, the per-face score lies between the smallest and the largest
    weight of the emotions the mapping holds, and a face whose emotions all
    have the weight [w] scores [w].  In binary64 the score can pass the
    largest weight by rounding: three emotions of weight 1 with the scores
    0.1, 0.2 and 0.3 score 1.0000000000000002 with the [sum] of CPython
    3.12 and later, and 1 with the [sum] of the earlier versions. *)
Theorem face_score_between_weights (self : EngagementTracker) (lo hi : Q)
    (mapping : Dict.dict Q) :
  (Forall (fun x => 0 <= x) (Dict.values mapping) ->
   0 < intensity mapping ->
   Forall (fun item => lo <= weight (config self) (fst item) <= hi) mapping ->
   exists score,
     _score_for_emotions self mapping = Ok score
     /\ lo <= score <= hi
     /\ (lo == hi -> score == lo))
  /\ Forall (fun item => Binary64.weight_for default_TrackerConfig (fst item)
                         = 1%float) three_tenths
  /\ Binary64._score_for_emotions Binary64.sum default_TrackerConfig
       three_tenths
     = Ok 1.0000000000000002%float
  /\ Binary64._score_for_emotions Binary64.sum_plain default_TrackerConfig
       three_tenths
     = Ok 1%float.
Proof.
  split;
    [|split; [repeat constructor|]; split; vm_compute; reflexivity].
  intros Hnn Hpos Hw. exists (score_value self mapping).
  split; [apply score_ok|].
  rewrite score_value_spec, face_score_pos by exact Hpos.
  destruct (weighted_between (config self) lo hi mapping Hnn Hw) as [Hlo Hhi].
  assert (Hb : lo <= weighted_intensity (config self) mapping / intensity mapping
               <= hi).
  { split.
    - apply Qle_shift_div_l; assumption.
    - apply Qle_shift_div_r; assumption. }
  split; [exact Hb|]. intros Heq. destruct Hb as [H1 H2].
  rewrite <- Heq in H2. apply Qle_antisym; assumption.
Qed.

Lemma face_score_between_weights_witness :
  exists score,
    _score_for_emotions scenario_tracker scenario_emotions = Ok score
    /\ 0 <= score <= 1.
Proof.
  destruct (proj1 (face_score_between_weights scenario_tracker 0 1
                     scenario_emotions))
    as (score & Hs & Hb & _).
  - repeat constructor; simpl; lra.
  - vm_compute. reflexivity.
  - repeat constructor; vm_compute; discriminate.
  - exists score. split; assumption.
Defined.

End Between.

Section TieBreak.

Local Open Scope Q_scope.

Lemma max_from_first {A : Type} (key : A -> Q) (best : A) (rest : list A) :
  exists before after,
    best :: rest = before ++ Py.max_from key best rest :: after
    /\ Forall (fun x => key x < key (Py.max_from key best rest)) before
    /\ Forall (fun x => key x <= key (Py.max_from key best rest)) after.
Proof.
  revert best. induction rest as [|x rest IH]; intros best.
  - exists [], []. simpl. repeat split; constructor.
  - cbn [Py.max_from]. destruct (Py.ltb (key best) (key x)) eqn:E.
    + apply ltb_true in E.
      destruct (IH x) as (before & after & Hsplit & Hb & Ha).
      exists (best :: before), after.
      split; [simpl; f_equal; exact Hsplit|].
      split; [|exact Ha]. constructor; [|exact Hb].
      destruct before as [|y before].
      * injection Hsplit as Hx _. rewrite <- Hx. exact E.
      * injection Hsplit as Hx _. subst y.
        apply Forall_cons in Hb as [Hxm _]. lra.
    + apply ltb_false in E.
      destruct (IH best) as (before & after & Hsplit & Hb & Ha).
      destruct before as [|y before].
      * injection Hsplit as Hm Hrest.
        exists [], (x :: after).
        split; [simpl; rewrite <- Hm; do 2 f_equal; exact Hrest|].
        split; [constructor|]. constructor; [rewrite <- Hm; exact E | exact Ha].
      * injection Hsplit as Hy Hrest. subst y.
        exists (best :: x :: before), after.
        split; [simpl; do 2 f_equal; exact Hrest|].
        apply Forall_cons in Hb as [Hbm Hb].
        split; [|exact Ha]. constructor; [exact Hbm|].
        constructor; [lra | exact Hb].
Qed.

Lemma add_totals_key_order (items totals : Dict.dict Q) :
  Dict.keys (add_totals items totals)
  = first_seen_from (Dict.keys totals)
      (map (fun item => Py.lower (fst item)) items).
Proof.
  revert totals. induction items as [|[e x] items IH]; intros totals.
  - reflexivity.
  - rewrite add_totals_cons, IH. unfold counter_add. rewrite set_keys.
    reflexivity.
Qed.

Lemma distribution_key_order (detections : list EmotionDetection) :
  0 < frame_intensity detections ->
  Dict.keys (distribution_of detections) = first_seen (frame_names detections).
Proof.
  intros Hpos.
  assert (Hltb : Py.ltb 0 (Py.sum (Dict.values (totals_of detections))) = true).
  { apply ltb_true. rewrite totals_of_sum. exact Hpos. }
  destruct (distribution_keys detections Hltb) as [Hdist _].
  rewrite Hdist, shares_keys, totals_of_items, add_totals_key_order.
  reflexivity.
Qed.

(** X10.  When the frame has positive intensity, the keys of the
    distribution are the case-folded emotion names in the order in which
    the frame first reports them, and the dominant emotion is the first of
    these keys whose share is maximal: every key before it has a strictly
    smaller share, every key after it a share that is not larger. *)
Theorem dominant_is_first_maximum (self : EngagementTracker)
    (detections : list EmotionDetection) :
  0 < frame_intensity detections ->
  exists self' summary dominant before after,
    update self detections = Ok (self', summary)
    /\ Dict.keys (emotion_distribution summary)
       = first_seen (frame_names detections)
    /\ dominant_emotion summary = Some dominant
    /\ Dict.keys (emotion_distribution summary) = before ++ dominant :: after
    /\ Forall
         (fun k => share (emotion_distribution summary) k
                   < share (emotion_distribution summary) dominant)
         before
    /\ Forall
         (fun k => share (emotion_distribution summary) k
                   <= share (emotion_distribution summary) dominant)
         after.
Proof.
  intros Hpos.
  pose proof (distribution_key_order detections Hpos) as Horder.
  assert (Hltb : Py.ltb 0 (Py.sum (Dict.values (totals_of detections))) = true).
  { apply ltb_true. rewrite totals_of_sum. exact Hpos. }
  destruct (distribution_keys detections Hltb) as [_ Hne].
  destruct (Dict.keys (distribution_of detections)) as [|k ks] eqn:Ek;
    [contradiction|].
  destruct (max_from_first (share (distribution_of detections)) k ks)
    as (before & after & Hsplit & Hb & Ha).
  eexists _, _, _, before, after. split; [apply update_ok|].
  cbn [emotion_distribution dominant_emotion].
  split; [rewrite Ek; exact Horder|].
  split; [unfold dominant_of; rewrite Ek; reflexivity|].
  split; [rewrite Ek; exact Hsplit|]. split; assumption.
Qed.

Lemma dominant_is_first_maximum_witness :
  exists self' summary,
    update scenario_tracker
      [{| box := (0, 0, 10, 10)%Z;
          emotions := [("Sad", 0.5); ("happy", 0.5)] |}]
    = Ok (self', summary)
    /\ dominant_emotion summary = Some "sad"%string.
Proof.
  destruct (dominant_is_first_maximum scenario_tracker
              [{| box := (0, 0, 10, 10)%Z;
                  emotions := [("Sad", 0.5); ("happy", 0.5)] |}])
    as (self' & summary & dominant & before & after & Hupd & _ & Hdom & _).
  - vm_compute. reflexivity.
  - exists self', summary. split; [exact Hupd|].
    rewrite update_ok in Hupd. injection Hupd as _ <-. reflexivity.
Defined.

End TieBreak.

(** ** Keys and values of the distribution *)

Section DistributionKeys.

Local Open Scope Q_scope.

Lemma distribution_of_keys (detections : list EmotionDetection) (k : string) :
  k ∈ Dict.keys (distribution_of detections) ->
  k ∈ Dict.keys (totals_of detections)
  /\ Py.ltb 0 (Py.sum (Dict.values (totals_of detections))) = true.
Proof.
  unfold distribution_of.
  destruct (Py.ltb 0 (Py.sum (Dict.values (totals_of detections)))) eqn:E.
  - rewrite shares_value_wf by apply totals_of_wf. rewrite shares_keys.
    intros H. split; [exact H | reflexivity].
  - intros H. inversion H.
Qed.

Lemma dominant_of_member (distribution : Dict.dict Q) :
  match dominant_of distribution with
  | Some name => name ∈ Dict.keys distribution
  | None => distribution = []
  end.
Proof.
  unfold dominant_of.
  destruct (Dict.keys distribution) as [|k ks] eqn:E.
  - destruct distribution; [reflexivity | discriminate].
  - destruct (max_from_spec
                (fun emotion => default 0 (Dict.get distribution emotion)) k ks)
      as ([->|Hm] & _).
    + left.
    + right. exact Hm.
Qed.

(** X11.  Whatever the case of the names the detections report, every key of
    the returned distribution is in lower case and occurs once; the
    dominant emotion is one of these keys, and it is absent exactly when
    the distribution is empty. *)
Theorem distribution_keys_lowercase (self : EngagementTracker)
    (detections : list EmotionDetection) :
  exists self' summary,
    update self detections = Ok (self', summary)
    /\ Dict.wf (emotion_distribution summary)
    /\ Forall (fun k => Py.lower k = k)
         (Dict.keys (emotion_distribution summary))
    /\ (forall name,
          dominant_emotion summary = Some name ->
          name ∈ Dict.keys (emotion_distribution summary)
          /\ Py.lower name = name)
    /\ (dominant_emotion summary = None
        <-> emotion_distribution summary = []).
Proof.
  eexists _, _. split; [apply update_ok|].
  cbn [emotion_distribution dominant_emotion].
  assert (Hlow : forall k, k ∈ Dict.keys (distribution_of detections) ->
                           Py.lower k = k).
  { intros k Hk. apply distribution_of_keys in Hk as [Hk _].
    apply totals_of_keys, list_elem_of_fmap in Hk as (item & -> & _).
    apply lower_idem. }
  split; [|split; [|split]].
  - unfold distribution_of, Dict.wf.
    destruct (Py.ltb 0 _); [|constructor].
    rewrite shares_value_wf by apply totals_of_wf.
    rewrite shares_keys. apply totals_of_wf.
  - apply Forall_forall. exact Hlow.
  - intros name Hname.
    pose proof (dominant_of_member (distribution_of detections)) as Hm.
    rewrite Hname in Hm. split; [exact Hm | apply Hlow, Hm].
  - pose proof (dominant_of_member (distribution_of detections)) as Hm.
    split.
    + intros Hnone. rewrite Hnone in Hm. exact Hm.
    + intros ->. reflexivity.
Qed.

Lemma distribution_keys_lowercase_witness :
  exists self' summary,
    update scenario_tracker
      [{| box := (0, 0, 10, 10)%Z;
          emotions := [("Sad", 0.5); ("happy", 0.5)] |}]
    = Ok (self', summary)
    /\ dominant_emotion summary = Some "sad"%string
    /\ "sad"%string ∈ Dict.keys (emotion_distribution summary).
Proof.
  destruct (distribution_keys_lowercase scenario_tracker
              [{| box := (0, 0, 10, 10)%Z;
                  emotions := [("Sad", 0.5); ("happy", 0.5)] |}])
    as (self' & summary & Hupd & _ & _ & Hdom & _).
  pose proof Hupd as Hvalue. rewrite update_ok in Hvalue.
  injection Hvalue as <- <-.
  eexists _, _. split; [exact Hupd|]. split; [reflexivity|].
  apply (Hdom "sad"%string). reflexivity.
Defined.

Lemma get_of_item {V : Type} (d : Dict.dict V) (k : string) (v : V) :
  Dict.wf d -> (k, v) ∈ d -> Dict.get d k = Some v.
Proof.
  unfold Dict.wf.
  induction d as [|[k0 v0] d IH]; simpl; intros Hnd Hin.
  - inversion Hin.
  - apply NoDup_cons in Hnd as [Hk0 Hnd].
    apply elem_of_cons in Hin as [[= <- <-]|Hin].
    + rewrite String.eqb_refl. reflexivity.
    + destruct (String.eqb_spec k0 k) as [->|Hne]; [|auto].
      exfalso. apply Hk0. apply list_elem_of_fmap. exists (k, v).
      split; [reflexivity | exact Hin].
Qed.

Lemma sum_filter_le (f : string * Q -> bool) (items : Dict.dict Q) :
  Forall (fun x => 0 <= x) (map snd items) ->
  0 <= Py.sum (map snd (List.filter f items))
  /\ Py.sum (map snd (List.filter f items)) <= Py.sum (map snd items).
Proof.
  induction items as [|[e x] items IH]; intros Hnn.
  - simpl. rewrite sum_nil. lra.
  - cbn [map snd] in Hnn. apply Forall_cons in Hnn as [Hx Hnn].
    specialize (IH Hnn). cbn [List.filter map snd].
    destruct (f (e, x)); cbn [map snd]; rewrite ?sum_cons; lra.
Qed.

Lemma frame_items_nonnegative (detections : list EmotionDetection) :
  Forall nonnegative detections ->
  Forall (fun x => 0 <= x) (map snd (frame_items detections)).
Proof.
  unfold frame_items. induction 1 as [|d ds Hd _ IH]; [constructor|].
  cbn [map concat]. rewrite map_app. apply Forall_app. split; assumption.
Qed.

(** X12.  For non-negative scores every value of the returned distribution
    lies in the unit interval. *)
Theorem distribution_values_in_unit (self : EngagementTracker)
    (detections : list EmotionDetection) :
  Forall nonnegative detections ->
  exists self' summary,
    update self detections = Ok (self', summary)
    /\ Forall in_unit (Dict.values (emotion_distribution summary)).
Proof.
  intros Hnn. eexists _, _. split; [apply update_ok|].
  cbn [emotion_distribution]. unfold distribution_of.
  destruct (Py.ltb 0 (Py.sum (Dict.values (totals_of detections)))) eqn:E;
    [|constructor].
  rewrite shares_value_wf by apply totals_of_wf.
  apply ltb_true in E.
  apply Forall_forall. intros v Hv.
  apply list_elem_of_fmap in Hv as ([k v'] & -> & Hin).
  apply list_elem_of_fmap in Hin as ([k' t] & Heq & Hin).
  unfold share_of in Heq. cbn [fst snd] in *. injection Heq as -> ->.
  assert (Hget : Dict.get (totals_of detections) k' = Some t).
  { apply get_of_item; [apply totals_of_wf | exact Hin]. }
  pose proof (totals_of_get detections k') as Hacc. rewrite Hget in Hacc.
  cbn [default] in Hacc.
  pose proof (totals_of_sum detections) as Hsum.
  destruct (sum_filter_le
              (fun item => String.eqb (Py.lower (fst item)) k')
              (frame_items detections) (frame_items_nonnegative _ Hnn))
    as [H0 H1].
  fold (accumulated k' detections) in H0, H1.
  fold (frame_intensity detections) in H1.
  apply quotient_in_unit; [rewrite Hacc; exact H0 | | exact E].
  rewrite Hacc, Hsum. exact H1.
Qed.

Lemma distribution_values_in_unit_witness :
  exists self' summary,
    update scenario_tracker
      [{| box := (0, 0, 10, 10)%Z; emotions := scenario_emotions |};
       happy_face]
    = Ok (self', summary)
    /\ Forall in_unit (Dict.values (emotion_distribution summary)).
Proof.
  apply (distribution_values_in_unit scenario_tracker).
  repeat constructor; simpl; lra.
Defined.

End DistributionKeys.

(** ** The range of the averages *)

Section Averages.

Local Open Scope Q_scope.

Lemma mean_between (lo hi x : Q) (xs : list Q) :
  Forall (between lo hi) (x :: xs) ->
  between lo hi (arithmetic_mean (x :: xs)).
Proof.
  intros Hall. unfold arithmetic_mean.
  destruct (sum_bounds lo hi (x :: xs) Hall) as [Hlo Hhi].
  pose proof (len_pos x xs) as Hlen. split.
  - apply Qle_shift_div_l; assumption.
  - apply Qle_shift_div_r; assumption.
Qed.

Lemma append_between (lo hi : Q) (d : Deque.deque) (x : Q) :
  Forall (between lo hi) (Deque.items d) -> between lo hi x ->
  Forall (between lo hi) (Deque.items (Deque.append d x)).
Proof.
  intros Hd Hx. unfold Deque.append. cbn [Deque.items].
  assert (H : Forall (between lo hi) (Deque.items d ++ [x])).
  { apply Forall_app. split; [exact Hd | constructor; [exact Hx | constructor]]. }
  destruct (_ <? _)%Z; [|exact H].
  destruct (Deque.items d ++ [x]); [constructor|].
  apply Forall_cons in H as [_ H]. exact H.
Qed.

Lemma append_nonempty (d : Deque.deque) (x : Q) :
  (0 < Deque.maxlen d)%Z -> Deque.items (Deque.append d x) <> [].
Proof.
  intros Hpos. unfold Deque.append. cbn [Deque.items].
  destruct (Z.ltb_spec (Deque.maxlen d)
              (Z.of_nat (length (Deque.items d ++ [x])))) as [Hlt|Hge].
  - rewrite length_app in Hlt. cbn [length] in Hlt.
    destruct (Deque.items d) as [|y ys]; [simpl in Hlt; lia|].
    simpl. destruct ys; discriminate.
  - destruct (Deque.items d); discriminate.
Qed.

Lemma run_between (lo hi : Q) (self : EngagementTracker)
    (frames : list (list EmotionDetection))
    (final : EngagementTracker) (summaries : list FrameSummary) :
  in_unit (smoothing_factor (config self)) ->
  (0 < Deque.maxlen (_scores self))%Z ->
  state_between lo hi self ->
  run self frames = Ok (final, summaries) ->
  Forall (fun s => between lo hi (raw_score s)) summaries ->
  Forall
    (fun s => between lo hi (smoothed_score s)
              /\ between lo hi (rolling_average s))
    summaries.
Proof.
  revert self final summaries.
  induction frames as [|ds frames IH];
    intros self final summaries Ha Hmax [Hitems Hprev].
  - intros [= <- <-] _. constructor.
  - simpl. rewrite update_ok. cbn [rbind].
    destruct (run _ frames) as [[final' rest]|] eqn:Hrun; [|discriminate].
    cbn [rbind]. intros [= <- <-] Hraws.
    apply Forall_cons in Hraws as [Hraw Hraws]. cbn [raw_score] in Hraw.
    assert (Hsm : between lo hi (smoothed_of self (raw_of self ds))).
    { unfold smoothed_of. destruct (_smoothed_score self) as [previous|];
        [|exact Hraw].
      destruct Ha as [Ha0 Ha1], Hprev as [Hp0 Hp1], Hraw as [Hr0 Hr1].
      split; nra. }
    pose proof (append_between lo hi (_scores self) _ Hitems Hraw) as Hsc.
    pose proof (append_nonempty (_scores self) (raw_of self ds) Hmax) as Hne.
    constructor.
    + cbn [smoothed_score rolling_average]. split.
      * destruct Hsm as [H0 H1].
        pose proof (or_else_some (smoothed_of self (raw_of self ds)) 0
                      ltac:(reflexivity)) as Hret.
        unfold between. rewrite Hret. split; assumption.
      * unfold rolling_of.
        destruct (Deque.items (Deque.append (_scores self) (raw_of self ds)))
          as [|y ys]; [contradiction|].
        apply mean_between, Hsc.
    + match type of Hrun with
      | run ?next _ = _ => apply (IH next final' rest)
      end; try assumption.
      split; assumption.
Qed.

(** X13.  In exact arithmetic, along a run from a fresh tracker with a
    positive history size and a smoothing factor in [0, 1], whenever all
    raw scores lie between two bounds, so do all smoothed scores and all
    rolling averages.  In binary64 the smoothed score can leave the range
    by rounding: with alpha = 0.2, a stored score of 0.75 and a raw score
    of 0.75 the new smoothed score is 0.7500000000000001, the float that
    follows 0.75. *)
Theorem averages_stay_in_range (cfg : option TrackerConfig)
    (self : EngagementTracker) (frames : list (list EmotionDetection))
    (lo hi : Q) :
  (init cfg = Ok self ->
   in_unit (smoothing_factor (config self)) ->
   (0 < history_size (config self))%Z ->
   exists final summaries,
     run self frames = Ok (final, summaries)
     /\ (Forall (fun s => lo <= raw_score s <= hi) summaries ->
         Forall
           (fun s => lo <= smoothed_score s <= hi
                     /\ lo <= rolling_average s <= hi)
           summaries))
  /\ Binary64.smoothed 0.2 None 0.75 = 0.75%float
  /\ Binary64.smoothed 0.2 (Some 0.75%float) 0.75 = PrimFloat.next_up 0.75
  /\ (0.75 <? Binary64.smoothed 0.2 (Some 0.75%float) 0.75)%float = true.
Proof.
  split; [|repeat split; reflexivity].
  intros Hinit Ha Hsize.
  destruct (init_state cfg self Hinit) as (_ & Hnone & Hitems & Hmaxlen & _).
  destruct (run_total self frames) as (final & summaries & Hrun).
  exists final, summaries. split; [exact Hrun|]. intros Hraws.
  apply (run_between lo hi self frames final summaries); try assumption.
  - rewrite Hmaxlen. exact Hsize.
  - split; [rewrite Hitems; constructor | rewrite Hnone; exact I].
Qed.

Lemma averages_stay_in_range_witness :
  exists final summaries,
    run scenario_tracker [[happy_face]; []] = Ok (final, summaries)
    /\ Forall
         (fun s => 0 <= smoothed_score s <= 1 /\ 0 <= rolling_average s <= 1)
         summaries.
Proof.
  destruct (proj1 (averages_stay_in_range (Some scenario_config)
                     scenario_tracker [[happy_face]; []] 0 1) eq_refl)
    as (final & summaries & Hrun & Hrange).
  - unfold in_unit. simpl. lra.
  - reflexivity.
  - exists final, summaries. split; [exact Hrun|]. apply Hrange.
    pose proof Hrun as Hvalue. vm_compute in Hvalue.
    injection Hvalue as _ <-.
    repeat constructor; simpl; lra.
Defined.




End Averages.

(** ** Detections of the analyzer *)

Section Analyzer.

Local Open Scope Q_scope.

(** X15.  The dominant emotion of a detection is absent for an empty
    mapping; otherwise it is the first name of the mapping whose score is
    maximal: every name before it has a strictly smaller score, every name
    after it a score that is not larger. *)
Theorem detection_dominant_first_maximum (d : EmotionDetection) :
  exists answer,
    EmotionDetection_dominant_emotion d = Ok answer
    /\ (emotions d = [] -> answer = None)
    /\ (emotions d <> [] ->
        exists name before after,
          answer = Some name
          /\ Dict.keys (emotions d) = before ++ name :: after
          /\ Forall (fun k => share (emotions d) k < share (emotions d) name)
               before
          /\ Forall (fun k => share (emotions d) k <= share (emotions d) name)
               after).
Proof.
  unfold EmotionDetection_dominant_emotion.
  destruct (emotions d) as [|[k v] items] eqn:E.
  - exists None. split; [reflexivity|]. split; [reflexivity | contradiction].
  - cbn [Dict.keys map fst Py.max rbind]. eexists. split; [reflexivity|].
    split; [discriminate|]. intros _.
    destruct (max_from_first (share ((k, v) :: items)) k (map fst items))
      as (before & after & Hsplit & Hb & Ha).
    exists (Py.max_from (share ((k, v) :: items)) k (map fst items)),
      before, after.
    split; [reflexivity|]. split; [exact Hsplit|]. split; assumption.
Qed.

Lemma detection_dominant_first_maximum_witness :
  EmotionDetection_dominant_emotion
    {| box := (0, 0, 10, 10)%Z;
       emotions := [("sad", 0.2); ("happy", 0.4); ("neutral", 0.4)] |}
  = Ok (Some "happy"%string).
Proof.
  destruct (detection_dominant_first_maximum
              {| box := (0, 0, 10, 10)%Z;
                 emotions := [("sad", 0.2); ("happy", 0.4); ("neutral", 0.4)] |})
    as (answer & Hrun & _ & Hsome).
  destruct (Hsome ltac:(discriminate)) as (name & before & after & -> & _).
  rewrite Hrun. vm_compute in Hrun. injection Hrun as <-. reflexivity.
Defined.

Lemma lowered_from (items out : Dict.dict Q) (k : string) :
  let result :=
    fold_left
      (fun out '(emotion, score) => Dict.set out (Py.lower emotion) score)
      items out in
  Dict.get result k
  = match last (folded_to k items) with
    | Some v => Some v
    | None => Dict.get out k
    end
  /\ (Dict.wf out -> Dict.wf result)
  /\ (forall name,
        name ∈ Dict.keys result
        <-> name ∈ Dict.keys out
            \/ name ∈ map (fun item => Py.lower (fst item)) items).
Proof.
  revert out. induction items as [|[e x] items IH]; intros out.
  - simpl. split; [reflexivity|]. split; [trivial|].
    intros name. split; [tauto | intros [H|H]; [exact H | inversion H]].
  - cbn [fold_left]. destruct (IH (Dict.set out (Py.lower e) x))
      as (Hget & Hwf & Hkeys).
    cbv zeta in *. split; [|split].
    + rewrite Hget. unfold folded_to. cbn [List.filter fst].
      destruct (String.eqb_spec (Py.lower e) k) as [Heq|Hne].
      * cbn [map snd].
        fold (folded_to k items).
        destruct (folded_to k items) as [|y ys] eqn:Ef.
        -- simpl. rewrite get_set, Heq, String.eqb_refl. reflexivity.
        -- change (last (x :: y :: ys)) with (last (y :: ys)).
           destruct (last (y :: ys)) eqn:El; [reflexivity|].
           apply last_None in El. discriminate El.
      * fold (folded_to k items). rewrite get_set.
        destruct (String.eqb_spec (Py.lower e) k); [contradiction|].
        reflexivity.
    + intros Hout. apply Hwf, set_wf, Hout.
    + intros name. rewrite Hkeys, elem_keys_set. cbn [map fst].
      rewrite elem_of_cons. tauto.
Qed.

(** X16.  [EmotionAnalyzer.detect] returns one detection per result of the
    detector, in order; a result without a box gets the box (0, 0, 0, 0)
    and a result without emotions an empty mapping.  The emotion names of
    every detection are in lower case and occur once; when several names
    of a result fold to the same lower-case name, the score of the last
    one is kept. *)
Theorem detect_lowercases {Frame : Type}
    (detect_emotions : Frame -> list FerResult) (frame : Frame) :
  let detections := EmotionAnalyzer_detect detect_emotions frame in
  length detections = length (detect_emotions frame)
  /\ Forall
       (fun d =>
          Dict.wf (emotions d)
          /\ Forall (fun k => Py.lower k = k) (Dict.keys (emotions d)))
       detections
  /\ forall (i : nat) (r : FerResult),
      detect_emotions frame !! i = Some r ->
      exists d,
        detections !! i = Some d
        /\ box d = default (0, 0, 0, 0)%Z (fer_box r)
        /\ (fer_emotions r = None -> emotions d = [])
        /\ forall name,
            Dict.get (emotions d) name
            = last (folded_to name (default [] (fer_emotions r))).
Proof.
  intros detections. unfold detections, EmotionAnalyzer_detect.
  split; [apply length_map|]. split.
  - apply Forall_forall. intros d Hd.
    apply list_elem_of_fmap in Hd as (r & -> & _). cbn [emotions].
    destruct (lowered_from (default [] (fer_emotions r)) [] EmptyString)
      as (_ & Hwf & _).
    split; [apply Hwf; constructor|].
    apply Forall_forall. intros k Hk.
    destruct (lowered_from (default [] (fer_emotions r)) [] k)
      as (_ & _ & Hkeys).
    apply Hkeys in Hk as [Hk|Hk]; [inversion Hk|].
    apply list_elem_of_fmap in Hk as (item & -> & _). apply lower_idem.
  - intros i r Hr. eexists. split.
    + rewrite list_lookup_fmap, Hr. reflexivity.
    + cbn [box emotions]. split; [reflexivity|]. split.
      * intros ->. reflexivity.
      * intros name.
        destruct (lowered_from (default [] (fer_emotions r)) [] name)
          as (Hget & _). cbv zeta in Hget. unfold lowered. rewrite Hget.
        destruct (last _); reflexivity.
Qed.

Lemma detect_lowercases_witness :
  exists d,
    EmotionAnalyzer_detect
      (fun _ : unit =>
         [{| fer_box := None;
             fer_emotions := Some [("Happy", 0.2); ("sad", 0.5); ("HAPPY", 0.7)] |}])
      tt !! 0%nat = Some d
    /\ box d = (0, 0, 0, 0)%Z
    /\ Dict.get (emotions d) "happy" = Some 0.7.
Proof.
  destruct (detect_lowercases
              (fun _ : unit =>
                 [{| fer_box := None;
                     fer_emotions :=
                       Some [("Happy", 0.2); ("sad", 0.5); ("HAPPY", 0.7)] |}])
              tt) as (_ & _ & Hat).
  destruct (Hat 0%nat _ eq_refl) as (d & Hd & Hbox & _ & Hget).
  exists d. split; [exact Hd|]. split; [exact Hbox|].
  rewrite Hget. reflexivity.
Defined.

End Analyzer.

(** ** The analyzer summary and the tracker *)

Section Agreement.

Local Open Scope Q_scope.

Lemma tally_key_order (items : Dict.dict Q) (totals : Dict.dict Q)
    (counts : Dict.dict Z) :
  Dict.keys (fst (tally_items items (totals, counts)))
  = first_seen_from (Dict.keys totals) (map fst items).
Proof.
  revert totals counts. induction items as [|[e x] items IH];
    intros totals counts; [reflexivity|].
  rewrite tally_cons, IH, set_keys. reflexivity.
Qed.

Lemma frame_names_lowercase (detections : list EmotionDetection) :
  Forall lowercase_keys detections ->
  frame_names detections = map fst (frame_items detections).
Proof.
  unfold frame_names, frame_items, lowercase_keys, Dict.keys.
  induction 1 as [|d ds Hd _ IH]; [reflexivity|].
  cbn [map concat]. rewrite !map_app, IH. f_equal.
  clear IH. induction (emotions d) as [|[k v] l IHl]; [reflexivity|].
  cbn [map fst] in *. apply Forall_cons in Hd as [Hk Hl].
  rewrite Hk, (IHl Hl). reflexivity.
Qed.

(** X17.  [format_detection_summary] lists the emotion names as the
    detections spell them, in the order of their first occurrence, without
    folding their case.  For detections whose names are in lower case, as
    the analyzer produces them, and a frame of positive intensity, these
    are the keys of the distribution [update] returns, in the same order. *)
Theorem summary_keys_first_seen (self : EngagementTracker)
    (detections : list EmotionDetection) :
  exists summary,
    format_detection_summary detections = Ok summary
    /\ Dict.keys summary = first_seen (map fst (frame_items detections))
    /\ (Forall lowercase_keys detections ->
        0 < frame_intensity detections ->
        exists self' frame,
          update self detections = Ok (self', frame)
          /\ Dict.keys (emotion_distribution frame) = Dict.keys summary).
Proof.
  eexists. split; [apply summary_value|].
  rewrite keys_average, tally_key_order. split; [reflexivity|].
  intros Hlow Hpos. eexists _, _. split; [apply update_ok|].
  cbn [emotion_distribution].
  rewrite (distribution_key_order detections Hpos).
  rewrite (frame_names_lowercase detections Hlow). reflexivity.
Qed.

Lemma summary_keys_first_seen_witness :
  exists summary self' frame,
    format_detection_summary
      [{| box := (0, 0, 10, 10)%Z; emotions := scenario_emotions |}; happy_face]
    = Ok summary
    /\ update scenario_tracker
         [{| box := (0, 0, 10, 10)%Z; emotions := scenario_emotions |};
          happy_face]
       = Ok (self', frame)
    /\ Dict.keys (emotion_distribution frame) = Dict.keys summary.
Proof.
  destruct (summary_keys_first_seen scenario_tracker
              [{| box := (0, 0, 10, 10)%Z; emotions := scenario_emotions |};
               happy_face])
    as (summary & Hsum & _ & Hagree).
  destruct Hagree as (self' & frame & Hupd & Hkeys).
  - repeat constructor.
  - vm_compute. reflexivity.
  - exists summary, self', frame. repeat split; assumption.
Defined.

Lemma max_from_ext {A : Type} (key1 key2 : A -> Q) (best : A) (rest : list A) :
  (forall x y, Py.ltb (key1 x) (key1 y) = Py.ltb (key2 x) (key2 y)) ->
  Py.max_from key1 best rest = Py.max_from key2 best rest.
Proof.
  intros Hext. revert best. induction rest as [|x rest IH]; intros best;
    [reflexivity|].
  cbn [Py.max_from]. rewrite Hext. destruct (Py.ltb _ _); apply IH.
Qed.

Lemma ltb_ext (a b a' b' t : Q) :
  0 < t -> a' == a / t -> b' == b / t -> Py.ltb a' b' = Py.ltb a b.
Proof.
  intros Ht Ha Hb.
  assert (Hiff : a' < b' <-> a < b).
  { rewrite Ha, Hb. split; intros H.
    - apply Qmult_lt_r with (z := / t); [apply Qinv_lt_0_compat, Ht | exact H].
    - apply Qmult_lt_r; [apply Qinv_lt_0_compat, Ht | exact H]. }
  destruct (Py.ltb a b) eqn:E.
  - apply ltb_true. apply Hiff, ltb_true, E.
  - destruct (Py.ltb a' b') eqn:E'; [|reflexivity].
    apply ltb_true, Hiff, ltb_true in E'. congruence.
Qed.

Lemma first_seen_fresh (seen names : list string) :
  NoDup (seen ++ names) -> first_seen_from seen names = seen ++ names.
Proof.
  revert seen. induction names as [|n names IH]; intros seen Hnd.
  - simpl. rewrite app_nil_r. reflexivity.
  - cbn [first_seen_from fold_left].
    assert (Hn : n ∉ seen).
    { apply NoDup_app in Hnd as (_ & Hdis & _). intros Hin.
      apply (Hdis n Hin). left. }
    rewrite decide_False by exact Hn.
    change (fold_left _ names (seen ++ [n]))
      with (first_seen_from (seen ++ [n]) names).
    rewrite IH; rewrite <- app_assoc; [reflexivity | exact Hnd].
Qed.

Lemma accumulated_single (d : EmotionDetection) (k : string) :
  Dict.wf (emotions d) -> lowercase_keys d ->
  accumulated k [d] == share (emotions d) k.
Proof.
  intros Hwf Hlow. unfold accumulated, frame_items, share.
  cbn [map concat]. rewrite app_nil_r.
  assert (Hfilter :
    List.filter (fun item => String.eqb (Py.lower (fst item)) k) (emotions d)
    = under k (emotions d)).
  { unfold under, lowercase_keys, Dict.keys in *.
    induction (emotions d) as [|[e x] l IH]; [reflexivity|].
    cbn [map fst] in Hlow. apply Forall_cons in Hlow as [He Hl].
    apply NoDup_cons in Hwf as [_ Hwf].
    cbn [List.filter fst]. rewrite He, (IH Hwf Hl). reflexivity. }
  rewrite Hfilter. pose proof (under_wf k (emotions d) Hwf) as Hu.
  unfold Dict.values in Hu. rewrite Hu.
  destruct (Dict.get (emotions d) k) as [v|]; simpl.
  - rewrite sum_cons, sum_nil. ring.
  - rewrite sum_nil. reflexivity.
Qed.

(** X18.  In exact arithmetic, for a frame with one detection whose mapping
    has lower-case names and positive intensity, the dominant emotion of
    the frame summary is the dominant emotion of the detection.  In
    binary64 the two can differ: scores that differ in the last place can
    have equal shares, and the summary then names the earlier emotion.  For
    happy 0.41190276129954295, sad 0.411902761299543, neutral
    0.2829801102040451 the detection is dominated by sad and the frame by
    happy, with either [sum]. *)
Theorem single_face_dominant (self : EngagementTracker) (d : EmotionDetection) :
  (Dict.wf (emotions d) ->
   lowercase_keys d ->
   0 < frame_intensity [d] ->
   exists self' summary,
     update self [d] = Ok (self', summary)
     /\ EmotionDetection_dominant_emotion d = Ok (dominant_emotion summary))
  /\ Binary64.dominant near_tie = Some "sad"%string
  /\ (exists shares,
        Binary64.distribution Binary64.sum [near_tie]
        = Ok (shares, Some "happy"%string)
        /\ Dict.get shares "happy" = Dict.get shares "sad")
  /\ (exists shares,
        Binary64.distribution Binary64.sum_plain [near_tie]
        = Ok (shares, Some "happy"%string)
        /\ Dict.get shares "happy" = Dict.get shares "sad").
Proof.
  split;
    [|split; [reflexivity|];
      split; eexists; (split; [vm_compute; reflexivity | reflexivity])].
  intros Hwf Hlow Hpos.
  eexists _, _. split; [apply update_ok|]. cbn [dominant_emotion].
  assert (Hltb : Py.ltb 0 (Py.sum (Dict.values (totals_of [d]))) = true).
  { apply ltb_true. rewrite totals_of_sum. exact Hpos. }
  destruct (distribution_keys [d] Hltb) as [Hdist _].
  assert (Hkeys : Dict.keys (distribution_of [d]) = Dict.keys (emotions d)).
  { rewrite (distribution_key_order [d] Hpos).
    rewrite (frame_names_lowercase [d]) by (constructor; [exact Hlow | constructor]).
    unfold frame_items. cbn [map concat]. rewrite app_nil_r.
    apply (first_seen_fresh [] (map fst (emotions d))). exact Hwf. }
  set (total := Py.sum (Dict.values (totals_of [d]))) in *.
  assert (Hshare : forall name,
    default 0 (Dict.get (distribution_of [d]) name)
    == share (emotions d) name / total).
  { intros name. rewrite Hdist, shares_get.
    pose proof (totals_of_get [d] name) as Hacc.
    rewrite (accumulated_single d name Hwf Hlow) in Hacc.
    destruct (Dict.get (totals_of [d]) name) as [t|];
      cbn [fmap option_fmap option_map default] in *.
    - rewrite Hacc. reflexivity.
    - rewrite <- Hacc. unfold Qdiv. ring. }
  unfold dominant_of, EmotionDetection_dominant_emotion. rewrite Hkeys.
  unfold share in Hshare.
  destruct (emotions d) as [|[k v] items] eqn:E.
  - reflexivity.
  - cbn [Dict.keys map fst Py.max rbind]. do 2 f_equal.
    symmetry. apply max_from_ext. intros x y.
    apply ltb_ext with (t := total); [apply ltb_true, Hltb | apply Hshare..].
Qed.

Lemma single_face_dominant_witness :
  exists self' summary,
    update scenario_tracker
      [{| box := (0, 0, 10, 10)%Z; emotions := scenario_emotions |}]
    = Ok (self', summary)
    /\ EmotionDetection_dominant_emotion
         {| box := (0, 0, 10, 10)%Z; emotions := scenario_emotions |}
       = Ok (dominant_emotion summary).
Proof.
  apply (proj1 (single_face_dominant scenario_tracker
                  {| box := (0, 0, 10, 10)%Z;
                     emotions := scenario_emotions |})).
  - unfold Dict.wf. apply (bool_decide_unpack _). vm_compute. exact I.
  - repeat constructor.
  - vm_compute. reflexivity.
Defined.

End Agreement.
